(** * OptomMarket bot: query understanding and response engine

    A shallow embedding of the parts of
    [bot/services/ai_service.py] and [bot/services/product_service.py]
    that turn a user message into a search intent, retrieve products,
    and compose an answer with a bounded per-user history; of the
    category and URL functions they call in [bot/services/database.py];
    and of their callers, the chat handler of [bot/handlers/ai_chat.py]
    with its keyboards and the Instagram service.

    Conventions.
    - A Python [str] is the [string] of the bytes of its UTF-8 encoding.
      [len] and [take_chars] count characters (code points), not bytes;
      white space is recognised on the encoded characters, so a byte of a
      Cyrillic letter is never taken for one. [find], [rfind] and [slice]
      count bytes: they are used with ASCII needles only, where the slice
      between the positions found is the one Python takes.
    - [str.lower] and [str.isdigit] follow the Unicode character database
      and are parameters of the development; [basic_lower] and
      [ascii_isdigit] are samples of them to run the definitions on.
    - A Python [float] is a [spec_float] (IEEE 754 binary64, precision 53,
      maximal exponent 1024).
    - A Python value of unknown type (a JSON value, an argument of
      [format_price]) is a [pyval].
    - Code that can raise returns a [result]; code that touches the
      service's state or awaits an external call runs in the monad [M],
      which threads a [world] and records every await in a trace,
      together with the Context Store as it stands at that await: between
      two awaits a coroutine runs alone, so these are the states of the
      store another task can see.
    - A handler runs in the monad [Handler], which threads the engine's
      world together with the requests made to the handler's transport. *)

From Stdlib Require Import ZArith String Ascii List Lia Bool DecimalString.
From Stdlib Require Import Floats.SpecFloat.
From stdpp Require Import gmap strings list.

Set Warnings "-register-all".
Open Scope Z_scope.

(** ** Python strings *)

Definition is_empty (s : string) : bool :=
  match s with EmptyString => true | _ => false end.

(** The number of bytes of the white-space character that [s] starts
    with, and 0 when it starts with none. White space is what
    [str.isspace], [str.strip] and [str.split] take for it: U+0009-U+000D,
    U+001C-U+0020, U+0085, U+00A0, U+1680, U+2000-U+200A, U+2028, U+2029,
    U+202F, U+205F and U+3000. *)
Definition space_width (s : string) : nat :=
  match s with
  | EmptyString => 0
  | String c1 r1 =>
      let b1 := nat_of_ascii c1 in
      if ((9 <=? b1) && (b1 <=? 13) || (28 <=? b1) && (b1 <=? 32))%nat then 1
      else
        match r1 with
        | EmptyString => 0
        | String c2 r2 =>
            let b2 := nat_of_ascii c2 in
            if ((b1 =? 194) && ((b2 =? 133) || (b2 =? 160)))%nat then 2
            else
              match r2 with
              | EmptyString => 0
              | String c3 _ =>
                  let b3 := nat_of_ascii c3 in
                  if ((b1 =? 225) && (b2 =? 154) && (b3 =? 128)
                      || (b1 =? 226) && (b2 =? 128)
                         && ((128 <=? b3) && (b3 <=? 138) || (b3 =? 168)
                             || (b3 =? 169) || (b3 =? 175))
                      || (b1 =? 226) && (b2 =? 129) && (b3 =? 159)
                      || (b1 =? 227) && (b2 =? 128) && (b3 =? 128))%nat
                  then 3 else 0
              end
        end
  end.

(** [s] is one white-space character. *)
Definition is_space (s : string) : bool :=
  (0 <? space_width s)%nat && (String.length s =? space_width s)%nat.

(** [s.lstrip()] *)
Fixpoint lstrip (s : string) : string :=
  match s with
  | EmptyString => EmptyString
  | String _ r =>
      match space_width s with
      | 0%nat => s
      | 1%nat => lstrip r
      | 2%nat => match r with
                 | String _ r2 => lstrip r2
                 | EmptyString => EmptyString
                 end
      | _ => match r with
             | String _ (String _ r3) => lstrip r3
             | _ => EmptyString
             end
      end
  end.

(** [s.rstrip()]: from the right, a character goes when it is white
    space and nothing is left after it. *)
Fixpoint rstrip (s : string) : string :=
  match s with
  | EmptyString => EmptyString
  | String c r =>
      let r' := rstrip r in
      if is_space (String c r') then EmptyString else String c r'
  end.

(** [s.strip()] *)
Definition strip (s : string) : string := rstrip (lstrip s).

(** A word read to its end joins the words after it, unless it is
    empty. *)
Definition emit (word : string) (words : list string) : list string :=
  if is_empty word then words else word :: words.

(** [s.split()]: the maximal runs of characters that are not white space,
    in order. [word] is the run being read. *)
Fixpoint split_from (word s : string) : list string :=
  match s with
  | EmptyString => emit word []
  | String c r =>
      match space_width s with
      | 0%nat => split_from (word +:+ String c EmptyString) r
      | 1%nat => emit word (split_from EmptyString r)
      | 2%nat => match r with
                 | String _ r2 => emit word (split_from EmptyString r2)
                 | EmptyString => emit word []
                 end
      | _ => match r with
             | String _ (String _ r3) => emit word (split_from EmptyString r3)
             | _ => emit word []
             end
      end
  end.

Definition split (s : string) : list string := split_from EmptyString s.

(** A continuation byte of the encoding: every character has one byte
    that is none. *)
Definition continuation (c : ascii) : bool :=
  let b := nat_of_ascii c in ((128 <=? b) && (b <=? 191))%nat.

(** [len(s)] *)
Fixpoint len (s : string) : nat :=
  match s with
  | EmptyString => 0
  | String c r => ((if continuation c then 0 else 1) + len r)%nat
  end.

(** [s[:n]] for a non-negative [n]: the first [n] characters. *)
Fixpoint take_chars (n : nat) (s : string) : string :=
  match s with
  | EmptyString => EmptyString
  | String c r =>
      if continuation c then String c (take_chars n r)
      else match n with
           | O => EmptyString
           | S n' => String c (take_chars n' r)
           end
  end.

(** A byte of a printable ASCII character: it is part of no white-space
    character. *)
Definition plain (c : ascii) : Prop :=
  (33 <= nat_of_ascii c <= 127)%nat.

Ltac byte_facts :=
  repeat match goal with
  | H : (_ && _) = true |- _ => apply andb_true_iff in H as [? ?]
  | H : (_ || _) = true |- _ => apply orb_true_iff in H as [?|?]
  | H : (_ && _) = false |- _ => apply andb_false_iff in H as [?|?]
  | H : (_ || _) = false |- _ => apply orb_false_iff in H as [? ?]
  | H : (_ <=? _)%nat = true |- _ => apply Nat.leb_le in H
  | H : (_ <=? _)%nat = false |- _ => apply Nat.leb_gt in H
  | H : (_ =? _)%nat = true |- _ => apply Nat.eqb_eq in H
  | H : (_ =? _)%nat = false |- _ => apply Nat.eqb_neq in H
  end.

Ltac by_bytes :=
  unfold space_width, plain in *; repeat case_match; subst;
  try done; byte_facts; try lia.

(** No white-space character starts at a byte of [s]. *)
Fixpoint no_space (s : string) : bool :=
  match s with
  | EmptyString => true
  | String _ r => (space_width s =? 0)%nat && no_space r
  end.

(** A word: a non-empty text that holds no white space. *)
Definition is_word (w : string) : bool := negb (is_empty w) && no_space w.

(** [needle in hay] *)
Fixpoint contains (needle hay : string) : bool :=
  String.prefix needle hay
  || match hay with
     | EmptyString => false
     | String _ r => contains needle r
     end.

(** [s.find(c)]; [None] stands for -1. *)
Fixpoint find (c : ascii) (s : string) : option nat :=
  match s with
  | EmptyString => None
  | String d r =>
      if Ascii.eqb c d then Some O
      else match find c r with Some i => Some (S i) | None => None end
  end.

(** [s.rfind(c)]; [None] stands for -1. *)
Fixpoint rfind (c : ascii) (s : string) : option nat :=
  match s with
  | EmptyString => None
  | String d r =>
      match rfind c r with
      | Some i => Some (S i)
      | None => if Ascii.eqb c d then Some O else None
      end
  end.

(** [s[start:stop]] for non-negative indices. *)
Definition slice (start stop : nat) (s : string) : string :=
  substring start (stop - start) s.

(** [s.replace(a, b)] for one-character [a] and [b]. *)
Fixpoint replace_char (a b : ascii) (s : string) : string :=
  match s with
  | EmptyString => EmptyString
  | String c r => String (if Ascii.eqb c a then b else c) (replace_char a b r)
  end.

(** [sep.join(lines)] *)
Fixpoint join (sep : string) (lines : list string) : string :=
  match lines with
  | [] => EmptyString
  | [l] => l
  | l :: ls => l +:+ sep +:+ join sep ls
  end.

(** [l[-n:]] for a positive [n]. *)
Definition last_n {A} (n : nat) (l : list A) : list A :=
  drop (length l - n) l.

(** ** Python values, exceptions and results *)

Inductive pyval :=
  | PNone
  | PBool (b : bool)
  | PInt (z : Z)
  | PFloat (f : spec_float)
  | PStr (s : string)
  | PList (items : list pyval)
  | PDict (d : gmap string pyval).

(** The truth value Python gives an object in [if x], [x and y], [x or y]. *)
Definition truthy (v : pyval) : bool :=
  match v with
  | PNone => false
  | PBool b => b
  | PInt z => negb (z =? 0)
  | PFloat (S754_zero _) => false
  | PFloat _ => true
  | PStr s => negb (is_empty s)
  | PList items => match items with [] => false | _ => true end
  | PDict d => negb (bool_decide (d = ∅))
  end.

(** An exception: its class and [str(e)]. *)
Inductive exn :=
  | ValueError (msg : string)
  | TypeError (msg : string)
  | OverflowError (msg : string)
  | AttributeError (msg : string)
  | KeyError (msg : string)
  | OtherError (msg : string).

Definition str_exn (e : exn) : string :=
  match e with
  | ValueError m | TypeError m | OverflowError m
  | AttributeError m | KeyError m | OtherError m => m
  end.

Inductive result (A : Type) :=
  | Returned (a : A)
  | Raised (e : exn).
Arguments Returned {A} a.
Arguments Raised {A} e.

#[global] Instance result_ret : MRet result := @Returned.
#[global] Instance result_bind : MBind result := fun A B k r =>
  match r with
  | Returned a => k a
  | Raised e => Raised e
  end.

(** [try: body except (ValueError, TypeError): handler] *)
Definition except_value_type {A} (body : result A) (handler : result A)
  : result A :=
  match body with
  | Raised (ValueError _) | Raised (TypeError _) => handler
  | r => r
  end.

(** ** Numbers and their formatting *)

Definition prec : Z := 53.
Definition emax : Z := 1024.

(** [float(n)] for an int: the nearest double, ties to even;
    [OverflowError] when that is out of range. *)
Definition int_to_float (n : Z) : result spec_float :=
  match binary_normalize prec emax n 0 false with
  | S754_infinity _ =>
      Raised (OverflowError "int too large to convert to float")
  | f => Returned f
  end.

Section Float.

(** [float(s)] for a str, as the interpreter parses it; [None] stands for
    its [ValueError]. *)
Variable float_of_str : string -> option spec_float.

(** [float(v)] *)
Definition py_float (v : pyval) : result spec_float :=
  match v with
  | PNone | PList _ | PDict _ =>
      Raised (TypeError "float() argument must be a string or a real number")
  | PBool b => int_to_float (if b then 1 else 0)
  | PInt z => int_to_float z
  | PFloat f => Returned f
  | PStr s =>
      match float_of_str s with
      | Some f => Returned f
      | None => Raised (ValueError "could not convert string to float")
      end
  end.

End Float.

(** The integer nearest to [m / 2^k], ties to even ([0 <= m], [0 < k]). *)
Definition round_half_even (m k : Z) : Z :=
  let q := Z.shiftr m k in
  let r := m - Z.shiftl q k in
  let half := Z.shiftl 1 (k - 1) in
  if (half <? r) || ((r =? half) && Z.odd q) then q + 1 else q.

(** Commas between groups of three digits, counted from the right;
    [rdigits] is the number's digits, last first. *)
Fixpoint group3 (rdigits : list ascii) (n : nat) : list ascii :=
  match rdigits with
  | [] => []
  | d :: r =>
      match n, r with
      | 2%nat, _ :: _ => d :: ","%char :: group3 r 0
      | _, _ => d :: group3 r (S n)
      end
  end.

Definition with_commas (digits : string) : string :=
  string_of_list_ascii
    (rev (group3 (rev (list_ascii_of_string digits)) 0)).

Definition digits_of (n : Z) : string :=
  NilZero.string_of_uint (N.to_uint (Z.to_N n)).

Definition signed (neg : bool) (s : string) : string :=
  if neg then "-" +:+ s else s.

(** [f"{x:,.0f}"] for a float. *)
Definition format_float_comma_0f (x : spec_float) : string :=
  match x with
  | S754_zero s => signed s "0"
  | S754_infinity s => signed s "inf"
  | S754_nan => "nan"
  | S754_finite s m e =>
      let n := if 0 <=? e then Z.shiftl (Z.pos m) e
               else round_half_even (Z.pos m) (- e) in
      signed s (with_commas (digits_of n))
  end.

(** [f"{x:,.0f}"] for any value: an int or bool is converted to float
    first, the other types do not know the format code. *)
Definition format_comma_0f (x : pyval) : result string :=
  match x with
  | PFloat f => Returned (format_float_comma_0f f)
  | PInt z => f ← int_to_float z; Returned (format_float_comma_0f f)
  | PBool b =>
      f ← int_to_float (if b then 1 else 0);
      Returned (format_float_comma_0f f)
  | PStr _ => Raised (ValueError "Unknown format code 'f' for object of type 'str'")
  | PNone | PList _ | PDict _ =>
      Raised (TypeError "unsupported format string")
  end.

Section Pricing.

Variable float_of_str : string -> option spec_float.

(** [ProductService.format_price] *)
Definition format_price (price : pyval) : result string :=
  except_value_type
    (price_float ← (if truthy price
                    then f ← py_float float_of_str price; Returned (PFloat f)
                    else Returned (PInt 0));
     s ← format_comma_0f price_float;
     Returned (replace_char ","%char " "%char s))
    (Returned "0"%string).

End Pricing.

(** ** Data model *)

(** One stored message, [{"role": ..., "text": ...}]. *)
Record turn := Turn { role : string; text : string }.

(** A row of [mg_product] as [DatabaseService.get_products] selects it,
    with the keys the product service adds. [id] is the table's primary
    key; [price] is a DOUBLE column ([None] for NULL); [stock] is the
    [count] column, taken as a number: a row whose [count] is NULL, on
    which [p.get('stock', 0) > 0] raises [TypeError], is not a value of
    this type. The three last fields are [None] until [search_products]
    fills them. *)
Record product := Product {
  id : Z;
  title : string;
  price : option spec_float;
  stock : Z;
  full_url : option string;
  image_full_url : option string;
  formatted_price : option string
}.

(** [p['price']] as a Python value. *)
Definition price_value (p : product) : pyval :=
  match price p with
  | Some f => PFloat f
  | None => PNone
  end.

(** What a call of [client.models.generate_content] is given. The
    extraction prompt is a fixed text around the user's message, so the
    message stands for it. *)
Inductive request :=
  | ExtractionRequest (user_message : string)
  | ChatRequest (system_instruction : string) (contents : list turn).

(** What the call does: it returns a response, whose [text] may be [None],
    or it raises. *)
Inductive outcome :=
  | Reply (response_text : option string)
  | Failure (e : exn).

(** The awaits of the engine: each one suspends the current turn. *)
Inductive event :=
  | EvGenerate (req : request)
  | EvSleep (delay : Z)
  | EvCategoryNames
  | EvCatalog (search_query category_id min_price max_price : pyval)
              (limit offset : Z).

(** The state of the two singleton services: the Context Store
    ([AIService.user_contexts]), the number of model calls made so far, and
    the awaits so far, each with the Context Store as another task would
    have seen it at that moment. *)
Record world := World {
  user_contexts : gmap Z (list turn);
  model_calls : nat;
  trace : list (event * gmap Z (list turn))
}.

Definition M (A : Type) : Type := world -> result A * world.

#[global] Instance M_ret : MRet M := fun A a w => (Returned a, w).
#[global] Instance M_bind : MBind M := fun A B k m w =>
  match m w with
  | (Returned a, w') => k a w'
  | (Raised e, w') => (Raised e, w')
  end.

Definition raise {A} (e : exn) : M A := fun w => (Raised e, w).

Definition lift {A} (r : result A) : M A := fun w => (r, w).

(** [try: body except Exception as e: handler e] *)
Definition try_except {A} (body : M A) (handler : exn -> M A) : M A :=
  fun w =>
    match body w with
    | (Returned a, w') => (Returned a, w')
    | (Raised e, w') => handler e w'
    end.

Definition await (e : event) : M unit := fun w =>
  (Returned tt,
   {| user_contexts := user_contexts w;
      model_calls := model_calls w;
      trace := trace w ++ [(e, user_contexts w)] |}).

Definition get_contexts : M (gmap Z (list turn)) := fun w =>
  (Returned (user_contexts w), w).

Definition put_contexts (c : gmap Z (list turn)) : M unit := fun w =>
  (Returned tt,
   {| user_contexts := c; model_calls := model_calls w; trace := trace w |}).

(** [response.text.strip()] *)
Definition strip_text (response_text : option string) : result string :=
  match response_text with
  | Some t => Returned (strip t)
  | None => Raised (AttributeError "'NoneType' object has no attribute 'strip'")
  end.

(** [d.get(key, default)] *)
Definition dict_get (d : pyval) (key : string) (default_value : pyval)
  : result pyval :=
  match d with
  | PDict m => Returned (default default_value (m !! key))
  | _ => Raised (AttributeError "object has no attribute 'get'")
  end.

Section Lower.

(** The interpreter's [str.lower], which follows the Unicode character
    database. *)
Variable str_lower : string -> string.

(** [v.lower()] *)
Definition py_lower (v : pyval) : result string :=
  match v with
  | PStr s => Returned (str_lower s)
  | _ => Raised (AttributeError "object has no attribute 'lower'")
  end.

End Lower.

Definition newline : string := String (ascii_of_nat 10) EmptyString.

Definition str_of_int (z : Z) : string := NilZero.string_of_int (Z.to_int z).

(** ** Constants of [get_response] *)

Definition max_retries : nat := 4.
Definition base_delay : Z := 3.

Definition technical_error_text : string :=
  "Kechirasiz, hozirda texnik xatolik yuz berdi. Iltimos, birozdan so'ng qayta urinib ko'ring.".

Definition no_answer_text : string :=
  "Kechirasiz, javob olishning imkoni bo'lmadi.".

(** ["429" in error_msg or "ResourceExhausted" in error_msg] *)
Definition rate_limited (error_msg : string) : bool :=
  contains "429" error_msg || contains "ResourceExhausted" error_msg.

Definition user_turn (user_message : string) : turn :=
  {| role := "user"; text := user_message |}.

Definition model_turn (ai_response : string) : turn :=
  {| role := "model"; text := ai_response |}.

(** ** The Context Store *)

(** [if user_id not in self.user_contexts: self.user_contexts[user_id] = []] *)
Definition ensure_context (user_id : Z) : M unit :=
  c ← get_contexts;
  match c !! user_id with
  | Some _ => mret tt
  | None => put_contexts (<[user_id := []]> c)
  end.

(** [self.user_contexts[user_id].append(t)] *)
Definition append_turn (user_id : Z) (t : turn) : M unit :=
  c ← get_contexts;
  match c !! user_id with
  | Some l => put_contexts (<[user_id := l ++ [t]]> c)
  | None => raise (KeyError "user_id")
  end.

(** [self.user_contexts[user_id] = self.user_contexts[user_id][-10:]] *)
Definition trim_context (user_id : Z) : M unit :=
  c ← get_contexts;
  match c !! user_id with
  | Some l => put_contexts (<[user_id := last_n 10 l]> c)
  | None => raise (KeyError "user_id")
  end.

(** The update of [get_response] on success (lines 277-284): the user's
    message, then the answer, then the cut to the last ten. *)
Definition update_context (user_id : Z) (user_message ai_response : string)
  : M unit :=
  ensure_context user_id;;
  append_turn user_id (user_turn user_message);;
  append_turn user_id (model_turn ai_response);;
  trim_context user_id.

(** [AIService.clear_user_context] *)
Definition clear_user_context (user_id : Z) : M unit :=
  c ← get_contexts;
  match c !! user_id with
  | Some _ => put_contexts (delete user_id c)
  | None => mret tt
  end.

(** ** Reading a trace *)

(** The requests of the model calls in a trace, in order. *)
Definition requests_of (tr : list (event * gmap Z (list turn)))
  : list request :=
  omap (fun o => match o.1 with EvGenerate req => Some req | _ => None end) tr.

(** The delays of the sleeps in a trace, in order. *)
Definition sleeps_of (tr : list (event * gmap Z (list turn))) : list Z :=
  omap (fun o => match o.1 with EvSleep d => Some d | _ => None end) tr.

(** The keywords of the catalog lookups in a trace, in order. *)
Definition lookups_of (tr : list (event * gmap Z (list turn)))
  : list pyval :=
  omap (fun o => match o.1 with
                 | EvCatalog q _ _ _ _ _ => Some q
                 | _ => None
                 end) tr.

(** The sleeps the retry loop can make on the attempts it is given. *)
Definition backoff_delays (attempts : list nat) : list Z :=
  (fun a => base_delay * 2 ^ Z.of_nat a)
    <$> filter (fun a => a < max_retries - 1)%nat attempts.

Definition sum_list (l : list Z) : Z := foldr Z.add 0 l.

(** What the retry loop adds to the trace: [k] model calls, all with the
    request it was given, and between them some of the delays its
    attempts allow. *)
Definition loop_trace (req : request) (attempts : list nat) (w w' : world)
    (k : nat) : Prop :=
  exists new,
    trace w' = trace w ++ new
    /\ model_calls w' = (model_calls w + k)%nat
    /\ requests_of new = replicate k req
    /\ (k <= length attempts)%nat
    /\ (attempts <> [] -> (1 <= k)%nat)
    /\ sublist (sleeps_of new) (backoff_delays attempts).

(** The line of a product in the prompt's products block, on the price
    string the product carries. *)
Definition prompt_line (p : product) : string :=
  "- ID: " +:+ str_of_int (id p) +:+ " | " +:+ title p +:+ " | "
  +:+ default "0"%string (formatted_price p) +:+ " so'm | "
  +:+ (if 0 <? stock p then "✅ Mavjud"%string else "❌ Tugagan"%string).

(** ** Categories and product URLs

    [DatabaseService.get_category_path] and [get_category_breadcrumbs],
    what the loop of [get_products] does to a row's url, and
    [ProductService.get_product_url] and [get_product_image_url]. *)

(** A row of [mg_category] as [get_category_by_id] selects it; a NULL
    column is [None]. *)
Record category := Category {
  cat_id : Z;
  cat_title : option string;
  cat_parent : option Z;
  cat_url : option string
}.

(** The keys of a product dict that the URL functions read. *)
Record product_row := ProductRow {
  row_id : Z;
  row_url : option string;
  row_category_id : option Z;
  row_image_url : option string
}.

(** The truth value of an optional str and of an optional int. *)
Definition some_text (s : option string) : bool :=
  match s with
  | Some t => negb (is_empty t)
  | None => false
  end.

Definition some_id (i : option Z) : bool :=
  match i with
  | Some z => negb (z =? 0)
  | None => false
  end.

(** [s.rstrip('/')] *)
Fixpoint rstrip_slash (s : string) : string :=
  match s with
  | EmptyString => EmptyString
  | String c r =>
      let r' := rstrip_slash r in
      if Ascii.eqb c "/"%char && is_empty r' then EmptyString
      else String c r'
  end.

Fixpoint zeros (n : nat) : string :=
  match n with
  | O => EmptyString
  | S n' => String "0"%char (zeros n')
  end.

(** [s.zfill(width)]: zeros on the left, after a sign when there is one. *)
Definition zfill (width : nat) (s : string) : string :=
  match s with
  | String c r =>
      if Ascii.eqb c "+"%char || Ascii.eqb c "-"%char
      then String c (zeros (width - String.length s) +:+ r)
      else zeros (width - String.length s) +:+ s
  | EmptyString => zeros width
  end.

Module DatabaseService.
Section Categories.

(** [get_category_by_id] on the category table as it stands; [Raised] is a
    database error. *)
Variable get_category_by_id : Z -> result (option category).

(** The loop of [get_category_path], for the levels still allowed. *)
Fixpoint category_path_loop (levels : nat) (current_id : option Z)
    (path_parts : list string) : result (list string) :=
  match levels with
  | O => Returned path_parts
  | S levels' =>
      match current_id with
      | None | Some 0 => Returned path_parts
      | Some cid =>
          found ← get_category_by_id cid;
          match found with
          | None => Returned path_parts
          | Some cat =>
              category_path_loop levels' (cat_parent cat)
                (if some_text (cat_url cat)
                 then default EmptyString (cat_url cat) :: path_parts
                 else path_parts)
          end
      end
  end.

(** [DatabaseService.get_category_path] *)
Definition get_category_path (category_id : option Z) : result string :=
  path_parts ← category_path_loop 5 category_id [];
  Returned (match path_parts with
            | [] => EmptyString
            | _ => join "/" path_parts
            end).

(** The loop of [get_category_breadcrumbs]. *)
Fixpoint category_names_loop (levels : nat) (current_id : option Z)
    (path_names : list string) : result (list string) :=
  match levels with
  | O => Returned path_names
  | S levels' =>
      match current_id with
      | None | Some 0 => Returned path_names
      | Some cid =>
          found ← get_category_by_id cid;
          match found with
          | None => Returned path_names
          | Some cat =>
              category_names_loop levels' (cat_parent cat)
                (if some_text (cat_title cat)
                 then default EmptyString (cat_title cat) :: path_names
                 else path_names)
          end
      end
  end.

(** [DatabaseService.get_category_breadcrumbs] *)
Definition get_category_breadcrumbs (category_id : option Z)
  : result string :=
  path_names ← category_names_loop 5 category_id [];
  Returned (match path_names with
            | [] => "Boshqa"%string
            | _ => join " > " path_names
            end).

(** What the loop of [get_products] (lines 155-159) does to a row: the
    category path is put before the url unless the url already holds it. *)
Definition with_category_path (d : product_row) : result product_row :=
  if some_id (row_category_id d) then
    cat_path ← get_category_path (row_category_id d);
    if negb (is_empty cat_path) then
      match row_url d with
      | Some url =>
          if negb (contains (cat_path +:+ "/") url)
          then Returned {| row_id := row_id d;
                           row_url := Some (cat_path +:+ "/" +:+ url);
                           row_category_id := row_category_id d;
                           row_image_url := row_image_url d |}
          else Returned d
      | None =>
          Raised (TypeError "argument of type 'NoneType' is not iterable")
      end
    else Returned d
  else Returned d.

(** The categories from a given one upwards, nearest first, as the table
    links them: the walk ends at an absent, zero or unknown parent. *)
Inductive lineage : option Z -> list category -> Prop :=
  | lineage_none : lineage None []
  | lineage_zero : lineage (Some 0) []
  | lineage_unknown cid :
      cid <> 0 -> get_category_by_id cid = Returned None ->
      lineage (Some cid) []
  | lineage_step cid cat ancestors :
      cid <> 0 -> get_category_by_id cid = Returned (Some cat) ->
      lineage (cat_parent cat) ancestors ->
      lineage (Some cid) (cat :: ancestors).

End Categories.
End DatabaseService.

(** The non-empty urls, and titles, of a list of categories. *)
Definition urls_of (cats : list category) : list string :=
  omap (fun cat => if some_text (cat_url cat) then cat_url cat else None) cats.

Definition titles_of (cats : list category) : list string :=
  omap (fun cat => if some_text (cat_title cat) then cat_title cat else None)
       cats.

Module ProductService.
Section Urls.

(** [settings.moguta_url] *)
Variable moguta_url : string.
Variable get_category_by_id : Z -> result (option category).

(** [ProductService.get_product_url] *)
Definition get_product_url (product : product_row) : result string :=
  let base_url := rstrip_slash moguta_url in
  let product_url := default EmptyString (row_url product) in
  if some_text (row_url product) && some_id (row_category_id product) then
    category_path ←
      DatabaseService.get_category_path get_category_by_id
        (row_category_id product);
    if negb (is_empty category_path)
       && negb (contains (category_path +:+ "/") product_url)
    then Returned (base_url +:+ "/" +:+ category_path +:+ "/" +:+ product_url)
    else Returned (base_url +:+ "/" +:+ product_url)
  else if some_text (row_url product)
  then Returned (base_url +:+ "/" +:+ product_url)
  else Returned (base_url +:+ "/product/" +:+ str_of_int (row_id product)).

(** [ProductService.get_product_image_url] *)
Definition get_product_image_url (product : product_row) : option string :=
  if negb (some_text (row_image_url product)) then None
  else
    let image := default EmptyString (row_image_url product) in
    let base_url := rstrip_slash moguta_url in
    if String.prefix "http" image then Some image
    else if negb (row_id product =? 0) then
      let directory := zfill 3 (str_of_int (row_id product / 1000)) in
      Some (base_url +:+ "/uploads/product/" +:+ directory +:+ "/"
            +:+ str_of_int (row_id product) +:+ "/" +:+ image)
    else Some (base_url +:+ "/uploads/" +:+ image).

End Urls.
End ProductService.

(** ** Keyboards

    [bot/keyboards/inline.py]: an inline keyboard is its rows of buttons. *)

Record button := Button { button_text : string; callback_data : string }.

Definition keyboard : Type := list (list button).

(** [builder.row] on at most eight buttons: one more row, and none when
    there is no button. *)
Definition add_row (buttons : list button) (rows : keyboard) : keyboard :=
  match buttons with
  | [] => rows
  | _ => rows ++ [buttons]
  end.

(** [title[:25] + "..." if len(title) > 25 else title] *)
Definition button_title (title : string) : string :=
  if (25 <? len title)%nat then take_chars 25 title +:+ "..."
  else title.

Definition product_button (p : product) : button :=
  {| button_text := "📦 " +:+ button_title (title p);
     callback_data := "product:" +:+ str_of_int (id p) |}.

(** The loop [for i in range(0, len(products), 2)] of
    [get_products_list_keyboard]: a row for each two products. *)
Fixpoint product_rows (products : list product) (rows : keyboard)
  : keyboard :=
  match products with
  | [] => rows
  | [p] => add_row [product_button p] rows
  | p :: q :: rest =>
      product_rows rest (add_row [product_button p; product_button q] rows)
  end.

Definition main_menu_button (data : string) : button :=
  {| button_text := "🏠 Bosh menyu"; callback_data := data |}.

(** [get_products_list_keyboard] *)
Definition get_products_list_keyboard (products : list product) (page : Z)
    (has_more : bool) (callback_prefix : string) : keyboard :=
  let rows := product_rows products [] in
  let nav_buttons :=
    (if 0 <? page
     then [ {| button_text := "⬅️ Oldingi";
               callback_data :=
                 callback_prefix +:+ ":" +:+ str_of_int (page - 1) |} ]
     else [])
    ++ (if has_more
        then [ {| button_text := "Keyingi ➡️";
                  callback_data :=
                    callback_prefix +:+ ":" +:+ str_of_int (page + 1) |} ]
        else []) in
  add_row [main_menu_button "main_menu"] (add_row nav_buttons rows).

(** [get_back_keyboard] *)
Definition get_back_keyboard (data : string) : keyboard :=
  add_row [main_menu_button data] [].

(** ** Handlers and their transports

    A handler runs the engine and asks its transport (the Bot API, the
    Graph API) to send things: a [desk] is the engine's world next to the
    requests made so far, in order. *)

Record desk (C : Type) := Desk { engine : world; outbox : list C }.

Arguments Desk {C} _ _.
Arguments engine {C} _.
Arguments outbox {C} _.

Definition Handler (C A : Type) : Type := desk C -> result A * desk C.

#[global] Instance Handler_ret {C} : MRet (Handler C) :=
  fun A a d => (Returned a, d).
#[global] Instance Handler_bind {C} : MBind (Handler C) :=
  fun A B k m d =>
    match m d with
    | (Returned a, d') => k a d'
    | (Raised e, d') => (Raised e, d')
    end.

(** A call into the engine. *)
Definition engine_call {C A} (m : M A) : Handler C A := fun d =>
  let (r, w) := m (engine d) in
  (r, {| engine := w; outbox := outbox d |}).

Definition lift_handler {C A} (r : result A) : Handler C A :=
  fun d => (r, d).

(** [try: body except Exception as e: handler e] in a handler. *)
Definition try_except_handler {C A} (body : Handler C A)
    (handler : exn -> Handler C A) : Handler C A :=
  fun d =>
    match body d with
    | (Returned a, d') => (Returned a, d')
    | (Raised e, d') => handler e d'
    end.

(** What [handle_text_message] asks of the Bot API. *)
Inductive telegram_call :=
  | SendChatAction (action : string)
  | MessageAnswer (answer_text : string) (parse_mode : option string)
                  (reply_markup : option keyboard).

(** What the Instagram service posts to the Graph API: the form of a
    comment reply, or the JSON payload of [send_dm]. *)
Inductive graph_body :=
  | FormMessage (message : string)
  | SendApi (recipient_id message_text messaging_type : string)
            (tag : option string).

Record graph_call := GraphCall {
  graph_url : string;
  graph_body_of : graph_body
}.

(** ** The category tree

    [ProductService.get_categories_tree], on the rows that
    [get_all_categories] returned. The dicts of [categories_map] are
    shared by the map, the root list and the [children] lists, so a dict
    is referred to by its key, and the tree is the keys of the roots
    together with the map to look them up in. *)

Record tree_node := TreeNode { node_row : category; children : list Z }.

(** [{c['id']: {**c, 'children': []} for c in all_categories}] *)
Definition new_categories_map (all_categories : list category)
  : gmap Z tree_node :=
  foldl (fun m c => <[cat_id c := {| node_row := c; children := [] |}]> m)
        ∅ all_categories.

(** One turn of the loop over [all_categories], on [categories_map] and
    [root_categories]. *)
Definition place_category (st : gmap Z tree_node * list Z) (cat : category)
  : gmap Z tree_node * list Z :=
  if bool_decide (cat_parent cat = Some 0) then (st.1, st.2 ++ [cat_id cat])
  else
    match cat_parent cat with
    | Some parent_id =>
        match st.1 !! parent_id with
        | Some parent =>
            (<[parent_id := {| node_row := node_row parent;
                               children := children parent ++ [cat_id cat] |}]>
               st.1,
             st.2)
        | None => st
        end
    | None => st
    end.

Definition get_categories_tree (all_categories : list category)
  : list Z * gmap Z tree_node :=
  let st := foldl place_category (new_categories_map all_categories, [])
              all_categories in
  (st.2, st.1).

(** The keys of the rows whose [parent] is a given key, in order. *)
Definition children_of (k : Z) (all_categories : list category) : list Z :=
  cat_id <$> filter (fun c => cat_parent c = Some k) all_categories.

(** ** The catalog query

    The text and the parameters that [DatabaseService.get_products] hands
    to [cursor.execute]. *)

Definition products_select : string :=
  newline +:+ "            SELECT "
  +:+ newline +:+ "                p.id,"
  +:+ newline +:+ "                p.title,"
  +:+ newline +:+ "                p.price,"
  +:+ newline +:+ "                p.old_price,"
  +:+ newline +:+ "                p.description,"
  +:+ newline +:+ "                p.short_description,"
  +:+ newline +:+ "                p.image_url,"
  +:+ newline +:+ "                p.count as stock,"
  +:+ newline +:+ "                p.cat_id as category_id,"
  +:+ newline +:+ "                p.url,"
  +:+ newline +:+ "                p.code as sku,"
  +:+ newline +:+ "                c.title as category_name"
  +:+ newline +:+ "            FROM mg_product p"
  +:+ newline +:+ "            LEFT JOIN mg_category c ON p.cat_id = c.id"
  +:+ newline +:+ "            WHERE p.activity = 1"
  +:+ newline +:+ "        ".

(** The loop over the words of the search query. *)
Fixpoint add_keywords (keywords : list string) (query : string)
    (params : list pyval) : string * list pyval :=
  match keywords with
  | [] => (query, params)
  | word :: rest =>
      let search_param := PStr ("%" +:+ word +:+ "%") in
      add_keywords rest
        (query
         +:+ " AND (p.title LIKE %s OR p.description LIKE %s OR p.code LIKE %s)")
        (params ++ [search_param; search_param; search_param])
  end.

(** [v.split()] *)
Definition py_split (v : pyval) : result (list string) :=
  match v with
  | PStr s => Returned (split s)
  | _ => Raised (AttributeError "object has no attribute 'split'")
  end.

Definition is_none (v : pyval) : bool :=
  match v with PNone => true | _ => false end.

Definition products_query
    (search_query category_id min_price max_price : pyval) (in_stock : bool)
    (limit offset : Z) : result (string * list pyval) :=
  st ← (if truthy search_query then
          keywords ← py_split search_query;
          Returned (add_keywords keywords products_select [])
        else Returned (products_select, []));
  let st : string * list pyval :=
    if truthy category_id
    then (st.1 +:+ " AND p.cat_id = %s", st.2 ++ [category_id]) else st in
  let st : string * list pyval :=
    if negb (is_none min_price)
    then (st.1 +:+ " AND p.price >= %s", st.2 ++ [min_price]) else st in
  let st : string * list pyval :=
    if negb (is_none max_price)
    then (st.1 +:+ " AND p.price <= %s", st.2 ++ [max_price]) else st in
  let st : string * list pyval :=
    if in_stock
    then (st.1 +:+ " AND (p.count > 0 OR p.count = -1)", st.2) else st in
  Returned (st.1 +:+ " ORDER BY p.sort ASC, p.id DESC LIMIT %s OFFSET %s",
            st.2 ++ [PInt limit; PInt offset]).

(** The number of percent signs of a text: in a query they are its
    placeholders. *)
Fixpoint count_percent (s : string) : nat :=
  match s with
  | EmptyString => O
  | String c r => (if Ascii.eqb c "%" then 1 else 0) + count_percent r
  end.

(** The words the query is built on. *)
Definition keywords_of (search_query : pyval) : list string :=
  match search_query with
  | PStr s => split s
  | _ => []
  end.

(** The text that [n] words add to the query. *)
Fixpoint keyword_clauses (n : nat) : string :=
  match n with
  | O => EmptyString
  | S n' =>
      " AND (p.title LIKE %s OR p.description LIKE %s OR p.code LIKE %s)"
      +:+ keyword_clauses n'
  end.

(** ** Sample collaborators

    A world and collaborators to run the engine on. *)

Definition initial_world : world :=
  {| user_contexts := ∅; model_calls := 0; trace := [] |}.

(** [str.lower] on the letters of ASCII, of Latin-1 (U+00C0-U+00DE) and
    of the Cyrillic blocks U+0400-U+042F and U+048A-U+04BF; every other
    character stays as it is. *)
Fixpoint basic_lower (s : string) : string :=
  match s with
  | EmptyString => EmptyString
  | String c r =>
      let b := nat_of_ascii c in
      if ((65 <=? b) && (b <=? 90))%nat
      then String (ascii_of_nat (b + 32)) (basic_lower r)
      else
        match r with
        | EmptyString => String c EmptyString
        | String c2 r2 =>
            let b2 := nat_of_ascii c2 in
            if ((b =? 195) && (128 <=? b2) && (b2 <=? 158)
                && negb (b2 =? 151))%nat
            then String c (String (ascii_of_nat (b2 + 32)) (basic_lower r2))
            else if ((b =? 208) && (128 <=? b2) && (b2 <=? 143))%nat
            then String (ascii_of_nat 209)
                   (String (ascii_of_nat (b2 + 16)) (basic_lower r2))
            else if ((b =? 208) && (144 <=? b2) && (b2 <=? 159))%nat
            then String c (String (ascii_of_nat (b2 + 32)) (basic_lower r2))
            else if ((b =? 208) && (160 <=? b2) && (b2 <=? 175))%nat
            then String (ascii_of_nat 209)
                   (String (ascii_of_nat (b2 - 32)) (basic_lower r2))
            else if ((b =? 210) && (138 <=? b2) && (b2 <=? 191)
                     && Nat.even b2)%nat
            then String c (String (ascii_of_nat (b2 + 1)) (basic_lower r2))
            else String c (basic_lower r)
        end
  end.

(** [str.isdigit] on the ASCII digits. *)
Definition ascii_isdigit (s : string) : bool :=
  negb (is_empty s)
  && forallb (fun c => (48 <=? nat_of_ascii c) && (nat_of_ascii c <=? 57))%nat
       (list_ascii_of_string s).

(** Parses the one numeral the samples use, 12.0. *)
Definition sample_float_of_str (s : string) : option spec_float :=
  if String.eqb s "12" then Some (S754_finite false 6755399441055744 (-49))
  else None.

Definition sample_json_loads (s : string) : option pyval :=
  if String.eqb s "{}" then Some (PDict ∅) else None.

(** A model that is always rate limited. *)
Definition busy_model (n : nat) (req : request) : outcome :=
  Failure (OtherError "429 RESOURCE_EXHAUSTED").

(** A model whose first call fails with a server error and whose later
    calls answer. *)
Definition flaky_model (n : nat) (req : request) : outcome :=
  match n with
  | O => Failure (OtherError "500 Internal error")
  | _ => Reply (Some " Salom! ")
  end.

Definition sample_product (i : Z) (name : string) : product :=
  {| id := i; title := name;
     price := Some (S754_finite false 6755399441055744 (-49));
     stock := 3; full_url := None; image_full_url := None;
     formatted_price := None |}.

(** A catalog of three apples: two match the Uzbek keyword, two the
    Russian one, one matches both. *)
Definition sample_catalog (search_query category_id min_price max_price : pyval)
    (limit offset : Z) : result (list product) :=
  match search_query with
  | PStr q =>
      if String.eqb q "olma"
      then Returned [sample_product 3 "Olma qizil"; sample_product 2 "Olma yabloko"]
      else if String.eqb q "yabloko"
      then Returned [sample_product 2 "Olma yabloko"; sample_product 1 "Yabloko"]
      else Returned []
  | _ => Returned []
  end.

Definition sample_url (p : product) : string := "https://shop.example/p".
Definition sample_image_url (p : product) : option string := None.
Definition sample_prompt (products_context : string) : string :=
  products_context.


(** An intent whose two keywords differ. *)
Definition bilingual_intent : gmap string pyval :=
  list_to_map
    [("search_query"%string, PStr "olma");
     ("translated_keywords"%string, PStr "yabloko");
     ("is_product_search"%string, PBool true)].

(** An intent whose two keywords are one Russian word, in lower case and
    capitalised, and a catalog that knows the word. *)
Definition russian_keyword_intent : gmap string pyval :=
  list_to_map
    [("search_query"%string, PStr "яблоко");
     ("translated_keywords"%string, PStr "Яблоко");
     ("is_product_search"%string, PBool true)].

Definition russian_catalog (search_query category_id min_price max_price : pyval)
    (limit offset : Z) : result (list product) :=
  match search_query with
  | PStr q =>
      if String.eqb (basic_lower q) "яблоко"
      then Returned [sample_product 3 "Яблоко красное";
                     sample_product 2 "Яблоко зелёное"]
      else Returned []
  | _ => Returned []
  end.

(** A model that cannot extract and answers a chat in Russian, in 66
    characters (122 bytes). *)
Definition russian_answer : string :=
  "Доставка по Ташкенту занимает один день и стоит двадцать тысяч сум".

Definition russian_model (n : nat) (req : request) : outcome :=
  match req with
  | ExtractionRequest _ => Failure (OtherError "503 UNAVAILABLE")
  | ChatRequest _ _ => Reply (Some russian_answer)
  end.

(** Twenty exchanges of one user. *)
Definition sample_exchanges : list (string * string) :=
  map (fun n => ("savol " +:+ str_of_int n, "javob " +:+ str_of_int n))
      (map Z.of_nat (seq 1 20)).

(** A category table of three levels, and one whose two categories are
    each other's parent. *)
Definition sample_categories (cid : Z) : result (option category) :=
  if cid =? 1 then
    Returned (Some {| cat_id := 1; cat_title := Some "Elektronika"%string;
                      cat_parent := Some 0; cat_url := Some "elektronika"%string |})
  else if cid =? 2 then
    Returned (Some {| cat_id := 2; cat_title := Some "Televizorlar"%string;
                      cat_parent := Some 1; cat_url := Some "televizory"%string |})
  else if cid =? 3 then
    Returned (Some {| cat_id := 3; cat_title := Some "Smart TV"%string;
                      cat_parent := Some 2; cat_url := Some "smart"%string |})
  else Returned None.

Definition looping_categories (cid : Z) : result (option category) :=
  if cid =? 1 then
    Returned (Some {| cat_id := 1; cat_title := Some "A"%string;
                      cat_parent := Some 2; cat_url := Some "a"%string |})
  else if cid =? 2 then
    Returned (Some {| cat_id := 2; cat_title := Some "B"%string;
                      cat_parent := Some 1; cat_url := Some "b"%string |})
  else Returned None.

Definition sample_row : product_row :=
  {| row_id := 1234; row_url := Some "samsung-55"%string;
     row_category_id := Some 3; row_image_url := Some "tv.jpg"%string |}.

(** The lineage of category 3 in [sample_categories], nearest first. *)
Definition sample_chain : list category :=
  [ {| cat_id := 3; cat_title := Some "Smart TV"%string;
       cat_parent := Some 2; cat_url := Some "smart"%string |};
    {| cat_id := 2; cat_title := Some "Televizorlar"%string;
       cat_parent := Some 1; cat_url := Some "televizory"%string |};
    {| cat_id := 1; cat_title := Some "Elektronika"%string;
       cat_parent := Some 0; cat_url := Some "elektronika"%string |} ].

(** [sample_row] as [get_products] returns it. *)
Definition sample_listed_row : product_row :=
  {| row_id := 1234;
     row_url := Some "elektronika/televizory/smart/samsung-55"%string;
     row_category_id := Some 3; row_image_url := Some "tv.jpg"%string |}.

Definition sample_site : string := "https://shop.uz/".

(** A model that wraps an empty JSON object in prose. *)
Definition prose_model (n : nat) (req : request) : outcome :=
  Reply (Some "Javob: {} tamom").

(** Six catalog rows. *)
Definition sample_rows : list product :=
  [sample_product 1 "Olma"; sample_product 2 "Anor"; sample_product 3 "Nok";
   sample_product 4 "Behi"; sample_product 5 "Uzum"; sample_product 6 "Gilos"].

(** A Bot API that delivers everything, and one that refuses the second
    request made to it. *)
Definition delivering_telegram (n : nat) (c : telegram_call) : option exn :=
  None.

Definition refusing_telegram (n : nat) (c : telegram_call) : option exn :=
  if (n =? 1)%nat then Some (OtherError "Bad Request: can't parse entities")
  else None.

(** [int] on the decimal numerals. *)
Definition sample_int_of_str (s : string) : result Z :=
  match NilZero.uint_of_string s with
  | Some u => Returned (Z.of_uint u)
  | None => Raised (ValueError "invalid literal for int() with base 10")
  end.

(** A Graph API that refuses the first two requests made to it. *)
Definition late_graph (n : nat) (c : graph_call) : bool := (2 <=? n)%nat.

Definition empty_desk {C : Type} : desk C :=
  {| engine := initial_world; outbox := [] |}.

(** A catalog that answers the Uzbek keyword and fails on any other. *)
Definition uzbek_only_catalog
    (search_query category_id min_price max_price : pyval)
    (limit offset : Z) : result (list product) :=
  match search_query with
  | PStr q =>
      if String.eqb q "olma"
      then Returned [sample_product 3 "Olma qizil"; sample_product 2 "Olma yabloko"]
      else Raised (OtherError "(2013, 'Lost connection to MySQL server')")
  | _ => Raised (OtherError "(2013, 'Lost connection to MySQL server')")
  end.

(** ** The services *)

Section Engine.

(** The interpreter's [float] on a str. *)
Variable float_of_str : string -> option spec_float.

(** [json.loads]; [None] stands for its [JSONDecodeError]. *)
Variable json_loads : string -> option pyval.

(** The interpreter's [str.lower]. *)
Variable str_lower : string -> string.

(** The language model: what the [n]-th call of the process answers to a
    request. *)
Variable generate_content : nat -> request -> outcome.

(** [DatabaseService.get_products] on the catalog as it stands:
    [search_query], [category_id], [min_price], [max_price], [limit],
    [offset]. *)
Variable db_get_products :
  pyval -> pyval -> pyval -> pyval -> Z -> Z -> result (list product).

(** [ProductService.get_product_url] and [get_product_image_url], which
    read the settings and the category table. They are taken as total:
    the category reads that [get_product_url] awaits are not recorded in
    the trace, and a database error raised by one of them is not
    modelled. *)
Variable get_product_url : product -> string.
Variable get_product_image_url : product -> option string.

(** [AIService._build_system_prompt] on the knowledge base and the category
    names as they stand: the grounding text for a products block. *)
Variable system_prompt_text : string -> string.

(** [await asyncio.to_thread(self.client.models.generate_content, ...)] *)
Definition call_model (req : request) : M (option string) := fun w =>
  let w' := {| user_contexts := user_contexts w;
               model_calls := S (model_calls w);
               trace := trace w ++ [(EvGenerate req, user_contexts w)] |} in
  match generate_content (model_calls w) req with
  | Reply t => (Returned t, w')
  | Failure e => (Raised e, w')
  end.

(** One line of [AIService._format_products_context]. *)
Definition format_product_line (p : product) : result string :=
  price ← except_value_type
            (price_val ← py_float float_of_str
                           (if truthy (price_value p) then price_value p
                            else PInt 0);
             s ← format_comma_0f (PFloat price_val);
             Returned (replace_char ","%char " "%char s))
            (Returned "0"%string);
  let stock_status :=
    if 0 <? stock p then "✅ Mavjud"%string else "❌ Tugagan"%string in
  Returned ("- ID: " +:+ str_of_int (id p) +:+ " | " +:+ title p +:+ " | "
            +:+ price +:+ " so'm | " +:+ stock_status).

(** [AIService._format_products_context] *)
Definition _format_products_context (products : list product)
  : result string :=
  match products with
  | [] => Returned "Hozircha mos mahsulotlar topilmadi."%string
  | _ =>
      lines ← mapM format_product_line (take 5 products);
      Returned (join newline lines)
  end.

(** [AIService._build_system_prompt] *)
Definition _build_system_prompt (products_context : string) : M string :=
  await EvCategoryNames;;
  mret (system_prompt_text products_context).

(** The dicts [extract_search_params] falls back to. *)
Definition short_fallback (user_message : string) : pyval :=
  PDict (list_to_map
    [("search_query"%string, PStr user_message);
     ("translated_keywords"%string, PNone);
     ("min_price"%string, PNone);
     ("max_price"%string, PNone);
     ("category_hint"%string, PNone);
     ("is_product_search"%string, PBool true)]).

Definition long_fallback (user_message : string) : pyval :=
  PDict (list_to_map
    [("search_query"%string, PStr user_message);
     ("min_price"%string, PNone);
     ("max_price"%string, PNone);
     ("category_hint"%string, PNone);
     ("is_product_search"%string, PBool false)]).

(** [AIService.extract_search_params] *)
Definition extract_search_params (user_message : string) : M pyval :=
  try_except
    (response_text ← call_model (ExtractionRequest user_message);
     text ← lift (strip_text response_text);
     match find "{"%char text, rfind "}"%char text with
     | Some start, Some end_ =>
         match json_loads (slice start (end_ + 1) text) with
         | Some params => mret params
         | None => raise (ValueError "JSONDecodeError")
         end
     | _, _ => raise (ValueError "No JSON found")
     end)
    (fun e =>
       if (length (split user_message) <=? 3)%nat
       then mret (short_fallback user_message)
       else mret (long_fallback user_message)).

(** The [try] block of the retry loop of [get_response]: one model call
    and, when it answers, the Context Store update. *)
Definition attempt_body (user_id : Z) (user_message : string)
    (products_context : option (list product)) (req : request)
  : M (string * list product) :=
  response_text ← call_model req;
  ai_response ← lift (strip_text response_text);
  update_context user_id user_message ai_response;;
  mret (ai_response, default [] products_context).

(** The retry loop of [get_response], for the attempts still to make. *)
Fixpoint retry_loop (user_id : Z) (user_message : string)
    (products_context : option (list product)) (req : request)
    (attempts : list nat) : M (string * list product) :=
  match attempts with
  | [] => mret (no_answer_text, [])
  | attempt :: rest =>
      try_except
        (attempt_body user_id user_message products_context req)
        (fun e =>
           let error_msg := str_exn e in
           let after : M (string * list product) :=
             if (attempt =? max_retries - 1)%nat
             then mret (technical_error_text, [])
             else retry_loop user_id user_message products_context req rest in
           if rate_limited error_msg then
             if (attempt <? max_retries - 1)%nat
             then
               await (EvSleep (base_delay * 2 ^ Z.of_nat attempt));;
               retry_loop user_id user_message products_context req rest
             else after
           else after)
  end.

(** [AIService.get_response] *)
Definition get_response (user_id : Z) (user_message : string)
    (products_context : option (list product)) : M (string * list product) :=
  products_str ← lift (_format_products_context (default [] products_context));
  system_prompt ← _build_system_prompt products_str;
  c ← get_contexts;
  let user_history := last_n 5 (default [] (c !! user_id)) in
  let contents := user_history ++ [user_turn user_message] in
  retry_loop user_id user_message products_context
    (ChatRequest system_prompt contents) (seq 0 max_retries).

(** [ProductService.search_products]: the catalog rows, each with its
    URLs and formatted price added. *)
Definition enrich (p : product) : result product :=
  formatted ← format_price float_of_str (price_value p);
  Returned {| id := id p; title := title p; price := price p;
              stock := stock p;
              full_url := Some (get_product_url p);
              image_full_url := get_product_image_url p;
              formatted_price := Some formatted |}.

Definition search_products (query category_id min_price max_price : pyval)
    (limit offset : Z) : M (list product) :=
  await (EvCatalog query category_id min_price max_price limit offset);;
  products ← lift (db_get_products query category_id min_price max_price
                     limit offset);
  lift (mapM enrich products).

(** The merge loop of [ai_search]:
    [for p in more_products: if p['id'] not in existing_ids: products.append(p)] *)
Definition merge_products (products more_products : list product)
  : list product :=
  let existing_ids : gset Z := list_to_set (id <$> products) in
  fold_left
    (fun acc p => if decide (id p ∈ existing_ids) then acc else acc ++ [p])
    more_products products.

(** [translated and query and translated.lower() != query.lower()] *)
Definition second_lookup (translated query : pyval) : result bool :=
  if truthy translated then
    if truthy query then
      t ← py_lower str_lower translated;
      q ← py_lower str_lower query;
      Returned (negb (String.eqb t q))
    else Returned false
  else Returned false.

(** [ProductService.ai_search] from the extracted parameters on. *)
Definition ai_search_params (params : pyval) : M (list product * bool) :=
  is_product_search ← lift (dict_get params "is_product_search" (PBool false));
  if negb (truthy is_product_search) then mret ([], false)
  else
    query ← lift (dict_get params "search_query" PNone);
    translated ← lift (dict_get params "translated_keywords" PNone);
    min_price ← lift (dict_get params "min_price" PNone);
    max_price ← lift (dict_get params "max_price" PNone);
    products ← search_products query PNone min_price max_price 5 0;
    differs ← lift (second_lookup translated query);
    if differs : bool then
      more_products ← search_products translated PNone min_price max_price 5 0;
      mret (merge_products products more_products, true)
    else mret (products, true).

(** [ProductService.ai_search] *)
Definition ai_search (user_message : string) : M (list product * bool) :=
  params ← extract_search_params user_message;
  ai_search_params params.

(** A user's conversation as the store sees it: the successful exchanges
    in order, each the user's message and the model's answer. *)
Fixpoint record_turns (user_id : Z) (exchanges : list (string * string))
  : M unit :=
  match exchanges with
  | [] => mret tt
  | (user_message, ai_response) :: rest =>
      update_context user_id user_message ai_response;;
      record_turns user_id rest
  end.

(** The operations that touch the Context Store, and a run of them. *)
Inductive op :=
  | OpRespond (user_id : Z) (user_message : string)
              (products_context : option (list product))
  | OpClear (user_id : Z).

Definition run_op (o : op) : M unit :=
  match o with
  | OpRespond user_id user_message products_context =>
      get_response user_id user_message products_context;; mret tt
  | OpClear user_id => clear_user_context user_id
  end.

Fixpoint run_ops (ops : list op) : M unit :=
  match ops with
  | [] => mret tt
  | o :: rest => run_op o;; run_ops rest
  end.

(** The ways the [try] block of [extract_search_params] fails on what the
    model call did: the call raised; the response has no text; the text
    has no opening or no closing brace; what lies between the first
    opening and the last closing brace is not JSON. *)
Inductive extraction_failure : outcome -> Prop :=
  | model_raised e : extraction_failure (Failure e)
  | no_text : extraction_failure (Reply None)
  | no_opening_brace t :
      find "{"%char (strip t) = None -> extraction_failure (Reply (Some t))
  | no_closing_brace t :
      rfind "}"%char (strip t) = None -> extraction_failure (Reply (Some t))
  | invalid_json t start end_ :
      find "{"%char (strip t) = Some start ->
      rfind "}"%char (strip t) = Some end_ ->
      json_loads (slice start (end_ + 1) (strip t)) = None ->
      extraction_failure (Reply (Some t)).

(** The secondary keyword of an intent is absent, or equals the primary
    keyword up to letter case. *)
Definition secondary_same_or_absent (m : gmap string pyval) : Prop :=
  m !! "translated_keywords"%string = None
  \/ m !! "translated_keywords"%string = Some PNone
  \/ exists t q,
       m !! "translated_keywords"%string = Some (PStr t)
       /\ m !! "search_query"%string = Some (PStr q)
       /\ str_lower t = str_lower q.

(** The turns of a list of exchanges, oldest first. *)
Definition turns_of (exchanges : list (string * string)) : list turn :=
  flat_map (fun e => [user_turn e.1; model_turn e.2]) exchanges.

(** The store after one more exchange, in one step. *)
Definition record_exchange (user_id : Z) (user_message ai_response : string)
    (c : gmap Z (list turn)) : gmap Z (list turn) :=
  <[user_id := last_n 10 (default [] (c !! user_id)
                          ++ [user_turn user_message; model_turn ai_response])]> c.

Definition set_contexts (c : gmap Z (list turn)) (w : world) : world :=
  {| user_contexts := c; model_calls := model_calls w; trace := trace w |}.

(** A stored context that is a sequence of whole exchanges. *)
Definition well_formed (ctx : list turn) : Prop :=
  exists exchanges, ctx = turns_of exchanges.

(** The world after one more model call. *)
Definition called (req : request) (w : world) : world :=
  {| user_contexts := user_contexts w;
     model_calls := S (model_calls w);
     trace := trace w ++ [(EvGenerate req, user_contexts w)] |}.

(** The world after a sleep. *)
Definition slept (delay : Z) (w : world) : world :=
  {| user_contexts := user_contexts w;
     model_calls := model_calls w;
     trace := trace w ++ [(EvSleep delay, user_contexts w)] |}.

(** The world after the category names were fetched for the prompt. *)
Definition prompted (w : world) : world :=
  {| user_contexts := user_contexts w;
     model_calls := model_calls w;
     trace := trace w ++ [(EvCategoryNames, user_contexts w)] |}.

(** The world after a catalog lookup. *)
Definition cataloged (search_query category_id min_price max_price : pyval)
    (limit offset : Z) (w : world) : world :=
  {| user_contexts := user_contexts w;
     model_calls := model_calls w;
     trace := trace w ++ [(EvCatalog search_query category_id min_price
                             max_price limit offset, user_contexts w)] |}.

(** What an invocation leaves behind, seen from the world [w] it started
    in: the awaits it added all saw the store of [w]; it either failed with
    the apology and the store of [w], or the last model call replied and
    the store gained the exchange. *)
Definition outcome_of (user_id : Z) (user_message : string)
    (products_context : option (list product)) (req : request)
    (w : world) (r : string * list product) (w' : world) : Prop :=
  exists new,
    trace w' = trace w ++ new
    /\ Forall (fun o => o.2 = user_contexts w) new
    /\ (model_calls w < model_calls w')%nat
    /\ ((user_contexts w' = user_contexts w
         /\ r = (technical_error_text, [])
         /\ forall t, generate_content (pred (model_calls w')) req
                      <> Reply (Some t))
        \/ exists t,
             generate_content (pred (model_calls w')) req = Reply (Some t)
             /\ r = (strip t, default [] products_context)
             /\ user_contexts w'
                = record_exchange user_id user_message (strip t)
                    (user_contexts w)).

(** ** The Telegram chat handler

    [handle_text_message] of [bot/handlers/ai_chat.py]. *)

(** The Bot API: what the [n]-th request made to it does; [None] when the
    request is delivered, the exception it raises otherwise. *)
Variable telegram : nat -> telegram_call -> option exn.

Definition bot_request (c : telegram_call) : Handler telegram_call unit :=
  fun d =>
    (match telegram (length (outbox d)) c with
     | None => Returned tt
     | Some e => Raised e
     end,
     {| engine := engine d; outbox := outbox d ++ [c] |}).

(** The loop over [enumerate(products[:3], 1)] that adds the numbered
    entries to the answer. *)
Fixpoint listing (i : Z) (products : list product) (response_text : string)
  : result string :=
  match products with
  | [] => Returned response_text
  | product :: rest =>
      let stock_emoji :=
        if 0 <? stock product then "‚úÖ"%string else "‚ùå"%string in
      formatted ← match formatted_price product with
                  | Some s => Returned s
                  | None => Raised (KeyError "'formatted_price'")
                  end;
      listing (i + 1) rest
        (response_text
         +:+ (str_of_int i +:+ ". <b>" +:+ title product +:+ "</b>"
              +:+ newline
              +:+ "   üí∞ " +:+ formatted +:+ " so'm " +:+ stock_emoji
              +:+ newline +:+ newline))
  end.

Definition chat_error_text : string :=
  "Kechirasiz, hozirda texnik muammo bor. Iltimos, keyinroq urinib ko'ring."
  +:+ newline +:+ newline
  +:+ "Yoki /search buyrug'i orqali mahsulotlarni qidirishingiz mumkin.".

(** [handle_text_message], on the state of the sender's dialogue
    ([state.get_state()]), the sender's id and the message text. *)
Definition handle_text_message (current_state : option string) (user_id : Z)
    (message_text : string) : Handler telegram_call unit :=
  if some_text current_state then mret tt
  else
    let user_message := strip message_text in
    bot_request (SendChatAction "typing");;
    try_except_handler
      (found ← engine_call (ai_search user_message);
       let products := found.1 in
       let is_product_search := found.2 in
       answer ← engine_call
                  (get_response user_id user_message
                     (if is_product_search then Some products else None));
       let ai_response := answer.1 in
       if is_product_search && negb (bool_decide (products = [])) then
         response_text ← lift_handler
                           (listing 1 (take 3 products)
                              (ai_response +:+ newline +:+ newline));
         bot_request
           (MessageAnswer response_text (Some "HTML"%string)
              (Some (get_products_list_keyboard (take 5 products) 0 false
                       "page")))
       else
         bot_request
           (MessageAnswer ai_response (Some "HTML"%string)
              (if (100 <? len ai_response)%nat
               then Some (get_back_keyboard "main_menu") else None)))
      (fun e =>
         bot_request
           (MessageAnswer chat_error_text None
              (Some (get_back_keyboard "main_menu")))).

(** ** The Instagram service

    [handle_message] and [handle_comment] of
    [bot/services/instagram_service.py], with what they call. *)

(** The interpreter's [str.isdigit] and its [int] on a str. *)
Variable str_isdigit : string -> bool.
Variable int_of_str : string -> result Z.

(** [self.access_token] and [self.page_id]. *)
Variable access_token : option string.
Variable page_id : option string.

(** The Graph API as [_post_graph] reports it: [true] when the [n]-th
    request posted got a 2xx status and no error in the payload, [false]
    for any other answer and for a request that raised (a time-out or a
    connection error, also one that came after the request had reached
    the server). *)
Variable graph_api : nat -> graph_call -> bool.

Definition GRAPH_API_BASE : string := "https://graph.facebook.com/v19.0".

(** [_post_graph], for the first component of what it returns. *)
Definition _post_graph (url : string) (body : graph_body)
  : Handler graph_call bool :=
  fun d =>
    if negb (some_text access_token) then (Returned false, d)
    else
      let c := {| graph_url := url; graph_body_of := body |} in
      (Returned (graph_api (length (outbox d)) c),
       {| engine := engine d; outbox := outbox d ++ [c] |}).



Definition send_dm (recipient_id text : string) (use_human_agent : bool)
  : Handler graph_call bool :=
  let endpoint_id :=
    if some_text page_id then default EmptyString page_id
    else "me"%string in
  _post_graph (GRAPH_API_BASE +:+ "/" +:+ endpoint_id +:+ "/messages")
    (if use_human_agent
     then SendApi recipient_id text "MESSAGE_TAG" (Some "HUMAN_AGENT"%string)
     else SendApi recipient_id text "RESPONSE" None).

Definition check_follow_status (user_id : string) : bool :=
  if negb (some_text access_token) then true else true.

Definition follow_text : string :=
  "Iltimos, avval sahifamizga obuna bo'ling." +:+ newline
  +:+ "Shundan keyin barcha narxlar va bot havolasini yuboramiz.".

(** [int(sender_id) if sender_id.isdigit() else 0] *)
Definition sender_key (sender_id : string) : result Z :=
  if str_isdigit sender_id then int_of_str sender_id else Returned 0.

(** [InstagramService.handle_message] *)
Definition handle_message (sender_id text : string)
  : Handler graph_call unit :=
  found ← engine_call (ai_search text);
  let products := found.1 in
  let is_product_search := found.2 in
  let respond : Handler graph_call unit :=
    user_id ← lift_handler (sender_key sender_id);
    answer ← engine_call (get_response user_id text (Some products));
    send_dm sender_id answer.1 false;;
    mret tt in
  if is_product_search : bool then
    let is_follower := check_follow_status sender_id in
    if negb is_follower then send_dm sender_id follow_text false;; mret tt
    else respond
  else respond.


(** A product that carries its price string, as [search_products] leaves
    it. *)
Definition priced (p : product) : Prop := formatted_price p <> None.

(** The requests of [send_dm], without and with the human-agent tag, and
    of [send_private_reply] and [reply_to_comment]. *)
Definition direct_message (recipient_id text : string) : graph_call :=
  {| graph_url :=
       GRAPH_API_BASE +:+ "/"
       +:+ (if some_text page_id then default EmptyString page_id
            else "me"%string)
       +:+ "/messages";
     graph_body_of := SendApi recipient_id text "RESPONSE" None |}.





(** ** Facts about lists and the monad *)

Lemma length_last_n {A} (n : nat) (l : list A) :
  (length (last_n n l) <= n)%nat.
Proof. unfold last_n. rewrite length_drop. lia. Qed.

Lemma last_n_short {A} (n : nat) (l : list A) :
  (length l <= n)%nat -> last_n n l = l.
Proof.
  intros H. unfold last_n. replace (length l - n)%nat with O by lia. done.
Qed.

Lemma last_n_app_last_n {A} (n : nat) (l x : list A) :
  last_n n (last_n n l ++ x) = last_n n (l ++ x).
Proof.
  unfold last_n. rewrite !length_app, length_drop.
  destruct (decide (length l <= n)%nat) as [Hl|Hl].
  { replace (length l - n)%nat with O by lia. simpl.
    by rewrite Nat.sub_0_r. }
  destruct (decide (length x <= n)%nat) as [Hx|Hx].
  - rewrite drop_app_le by (rewrite length_drop; lia).
    rewrite drop_drop.
    rewrite (drop_app_le l) by lia.
    do 2 f_equal. lia.
  - rewrite drop_app_ge by (rewrite length_drop; lia).
    rewrite (drop_app_ge l) by lia.
    rewrite length_drop. f_equal. lia.
Qed.

Lemma length_turns_of (ex : list (string * string)) :
  length (turns_of ex) = (2 * length ex)%nat.
Proof. induction ex as [|e ex IH]; simpl; [done|]. rewrite IH. lia. Qed.

Lemma turns_of_app (ex1 ex2 : list (string * string)) :
  turns_of (ex1 ++ ex2) = turns_of ex1 ++ turns_of ex2.
Proof. unfold turns_of. apply flat_map_app. Qed.

Lemma drop_turns_of (k : nat) (ex : list (string * string)) :
  drop (2 * k) (turns_of ex) = turns_of (drop k ex).
Proof.
  revert ex. induction k as [|k IH]; intros ex; [done|].
  destruct ex as [|e ex]; [done|].
  replace (2 * S k)%nat with (S (S (2 * k))) by lia. simpl. apply IH.
Qed.

Lemma last_n_turns_of (k : nat) (ex : list (string * string)) :
  last_n (2 * k) (turns_of ex) = turns_of (last_n k ex).
Proof.
  unfold last_n. rewrite length_turns_of, <- drop_turns_of. f_equal. lia.
Qed.

Lemma bind_returned {A B} (m : M A) (k : A -> M B) (w w' : world) (a : A) :
  m w = (Returned a, w') -> (m ≫= k) w = k a w'.
Proof. intros H. unfold mbind, M_bind. by rewrite H. Qed.

Lemma bind_raised {A B} (m : M A) (k : A -> M B) (w w' : world) (e : exn) :
  m w = (Raised e, w') -> (m ≫= k) w = (Raised e, w').
Proof. intros H. unfold mbind, M_bind. by rewrite H. Qed.

(** ** The Context Store update *)

Lemma update_context_spec (user_id : Z) (user_message ai_response : string)
    (w : world) :
  update_context user_id user_message ai_response w
  = (Returned tt,
     set_contexts
       (record_exchange user_id user_message ai_response (user_contexts w)) w).
Proof.
  unfold update_context, ensure_context, append_turn, trim_context,
    record_exchange, set_contexts, get_contexts, put_contexts.
  unfold mbind, M_bind, mret, M_ret. simpl.
  destruct (user_contexts w !! user_id) as [l|] eqn:Hl; simpl.
  - rewrite Hl. simpl. rewrite lookup_insert_eq. simpl.
    rewrite lookup_insert_eq. simpl.
    rewrite !insert_insert_eq. by rewrite <- app_assoc.
  - rewrite lookup_insert_eq. simpl. rewrite lookup_insert_eq. simpl.
    rewrite lookup_insert_eq. simpl. by rewrite !insert_insert_eq.
Qed.

Lemma clear_user_context_spec (user_id : Z) (w : world) :
  clear_user_context user_id w
  = (Returned tt, set_contexts (delete user_id (user_contexts w)) w).
Proof.
  unfold clear_user_context, get_contexts, put_contexts, set_contexts.
  unfold mbind, M_bind, mret, M_ret. simpl.
  destruct (user_contexts w !! user_id) eqn:Hl; simpl; [done|].
  rewrite delete_id by done. by destruct w.
Qed.

(** ** Formatting never fails on catalog rows *)

Lemma mapM_returned {A B} (f : A -> result B) (l : list A) :
  (forall x, exists y, f x = Returned y) ->
  exists ys, mapM f l = Returned ys /\ length ys = length l.
Proof.
  intros Hf. induction l as [|x l [ys [IH Hlen]]]; simpl.
  - by exists [].
  - destruct (Hf x) as [y Hy]. exists (y :: ys).
    rewrite Hy. simpl. rewrite IH. simpl. by rewrite Hlen.
Qed.

Lemma format_price_row (p : product) :
  exists s, format_price float_of_str (price_value p) = Returned s.
Proof.
  unfold format_price, price_value.
  destruct (price p) as [[sg|sg| |sg m e]|]; simpl; eauto.
Qed.

Lemma format_product_line_returns (p : product) :
  exists s, format_product_line p = Returned s.
Proof.
  unfold format_product_line, price_value.
  destruct (price p) as [[sg|sg| |sg m e]|]; simpl; eauto.
Qed.

Lemma format_products_context_returns (products : list product) :
  exists s, _format_products_context products = Returned s.
Proof.
  unfold _format_products_context.
  destruct products as [|p ps]; [eauto|].
  destruct (mapM_returned format_product_line (take 5 (p :: ps))
              format_product_line_returns) as [ys [Hys _]].
  rewrite Hys. simpl. eauto.
Qed.

Lemma enrich_returns (p : product) :
  exists p', enrich p = Returned p' /\ id p' = id p.
Proof.
  unfold enrich. destruct (format_price_row p) as [s Hs]. rewrite Hs.
  simpl. eauto.
Qed.

(** ** The retry loop *)

Lemma outcome_of_called user_id user_message products_context req w r w' :
  outcome_of user_id user_message products_context req (called req w) r w' ->
  outcome_of user_id user_message products_context req w r w'.
Proof.
  intros (new & Htr & Hall & Hn & Hcase).
  exists ((EvGenerate req, user_contexts w) :: new). simpl in *.
  split; [by rewrite Htr, <- app_assoc|].
  split; [by constructor|].
  split; [lia|done].
Qed.

Lemma outcome_of_slept user_id user_message products_context req d w r w' :
  outcome_of user_id user_message products_context req (slept d w) r w' ->
  outcome_of user_id user_message products_context req w r w'.
Proof.
  intros (new & Htr & Hall & Hn & Hcase).
  exists ((EvSleep d, user_contexts w) :: new). simpl in *.
  split; [by rewrite Htr, <- app_assoc|].
  split; [by constructor|done].
Qed.

Lemma try_except_returned {A} (body : M A) (handler : exn -> M A)
    (w w' : world) (a : A) :
  body w = (Returned a, w') -> try_except body handler w = (Returned a, w').
Proof. intros H. unfold try_except. by rewrite H. Qed.

Lemma try_except_raised {A} (body : M A) (handler : exn -> M A)
    (w w' : world) (e : exn) :
  body w = (Raised e, w') -> try_except body handler w = handler e w'.
Proof. intros H. unfold try_except. by rewrite H. Qed.

Lemma attempt_body_reply user_id user_message products_context req w t :
  generate_content (model_calls w) req = Reply (Some t) ->
  attempt_body user_id user_message products_context req w
  = (Returned (strip t, default [] products_context),
     set_contexts
       (record_exchange user_id user_message (strip t) (user_contexts w))
       (called req w)).
Proof.
  intros Hgen. unfold attempt_body.
  erewrite bind_returned; last first.
  { unfold call_model. rewrite Hgen. reflexivity. }
  erewrite bind_returned; last by reflexivity.
  erewrite bind_returned; last by apply update_context_spec.
  reflexivity.
Qed.

Lemma attempt_body_no_text user_id user_message products_context req w :
  generate_content (model_calls w) req = Reply None ->
  attempt_body user_id user_message products_context req w
  = (Raised (AttributeError "'NoneType' object has no attribute 'strip'"),
     called req w).
Proof.
  intros Hgen. unfold attempt_body.
  erewrite bind_returned; last first.
  { unfold call_model. rewrite Hgen. reflexivity. }
  by erewrite bind_raised.
Qed.

Lemma attempt_body_failure user_id user_message products_context req w e :
  generate_content (model_calls w) req = Failure e ->
  attempt_body user_id user_message products_context req w
  = (Raised e, called req w).
Proof.
  intros Hgen. unfold attempt_body.
  erewrite bind_raised; [done|]. unfold call_model. by rewrite Hgen.
Qed.

Lemma retry_loop_cons user_id user_message products_context req attempt rest :
  retry_loop user_id user_message products_context req (attempt :: rest)
  = try_except
      (attempt_body user_id user_message products_context req)
      (fun e =>
         let error_msg := str_exn e in
         let after : M (string * list product) :=
           if (attempt =? max_retries - 1)%nat
           then mret (technical_error_text, [])
           else retry_loop user_id user_message products_context req rest in
         if rate_limited error_msg then
           if (attempt <? max_retries - 1)%nat
           then
             await (EvSleep (base_delay * 2 ^ Z.of_nat attempt));;
             retry_loop user_id user_message products_context req rest
           else after
         else after).
Proof. reflexivity. Qed.

Lemma retry_loop_outcome user_id user_message products_context req attempts :
  last attempts = Some (max_retries - 1)%nat ->
  forall w, exists r w',
    retry_loop user_id user_message products_context req attempts w
    = (Returned r, w')
    /\ outcome_of user_id user_message products_context req w r w'.
Proof.
  induction attempts as [|attempt rest IH]; intros Hlast w; [done|].
  assert (Hrest : rest <> [] -> forall w1, exists r w',
    retry_loop user_id user_message products_context req rest w1
    = (Returned r, w')
    /\ outcome_of user_id user_message products_context req w1 r w').
  { intros Hne. apply IH. destruct rest; [done|]. by rewrite last_cons_cons in Hlast. }
  assert (Hafter : forall w1,
    w1 = called req w ->
    (forall t, generate_content (model_calls w) req <> Reply (Some t)) ->
    exists r w',
      (if (attempt =? max_retries - 1)%nat
       then mret (technical_error_text, [])
       else retry_loop user_id user_message products_context req rest) w1
      = (Returned r, w')
      /\ outcome_of user_id user_message products_context req w r w').
  { intros w1 -> Hne.
    destruct (attempt =? max_retries - 1)%nat eqn:Hatt.
    - exists (technical_error_text, []), (called req w). split; [done|].
      exists [(EvGenerate req, user_contexts w)]. simpl.
      repeat split; try done; [by repeat constructor | lia |].
      left. repeat split; done.
    - assert (rest <> []) as Hne'.
      { intros ->. apply Nat.eqb_neq in Hatt. by injection Hlast. }
      destruct (Hrest Hne' (called req w)) as (r & w' & Hrun & Hout).
      exists r, w'. split; [done|]. by apply outcome_of_called. }
  assert (Hhandler : forall e,
    (forall t, generate_content (model_calls w) req <> Reply (Some t)) ->
    exists r w',
      (let error_msg := str_exn e in
       let after : M (string * list product) :=
         if (attempt =? max_retries - 1)%nat
         then mret (technical_error_text, [])
         else retry_loop user_id user_message products_context req rest in
       if rate_limited error_msg then
         if (attempt <? max_retries - 1)%nat
         then
           await (EvSleep (base_delay * 2 ^ Z.of_nat attempt));;
           retry_loop user_id user_message products_context req rest
         else after
       else after) (called req w)
      = (Returned r, w')
      /\ outcome_of user_id user_message products_context req w r w').
  { intros e Hne. cbv zeta.
    destruct (rate_limited (str_exn e)); [|by apply Hafter].
    destruct (attempt <? max_retries - 1)%nat eqn:Hlt; [|by apply Hafter].
    assert (rest <> []) as Hne'.
    { intros ->. apply Nat.ltb_lt in Hlt. injection Hlast as Heq.
      unfold max_retries in *. lia. }
    destruct (Hrest Hne'
                (slept (base_delay * 2 ^ Z.of_nat attempt) (called req w)))
      as (r & w' & Hrun & Hout).
    exists r, w'. split.
    - unfold mbind, M_bind, await. simpl. exact Hrun.
    - apply outcome_of_called. by eapply outcome_of_slept. }
  rewrite retry_loop_cons.
  destruct (generate_content (model_calls w) req) as [[t|]|e] eqn:Hgen.
  - rewrite (try_except_returned _ _ _ _ _
               (attempt_body_reply _ _ _ _ _ _ Hgen)).
    eexists _, _. split; [done|].
    exists [(EvGenerate req, user_contexts w)]. simpl.
    repeat split; try done; [by repeat constructor | lia |].
    right. exists t. by rewrite Hgen.
  - rewrite (try_except_raised _ _ _ _ _
               (attempt_body_no_text _ _ _ _ _ Hgen)).
    apply Hhandler. intros t. done.
  - rewrite (try_except_raised _ _ _ _ _
               (attempt_body_failure _ _ _ _ _ _ Hgen)).
    apply Hhandler. intros t. done.
Qed.

Lemma retry_step_rate_limited user_id user_message products_context req
    attempt rest w e :
  generate_content (model_calls w) req = Failure e ->
  rate_limited (str_exn e) = true ->
  (attempt < max_retries - 1)%nat ->
  retry_loop user_id user_message products_context req (attempt :: rest) w
  = retry_loop user_id user_message products_context req rest
      (slept (base_delay * 2 ^ Z.of_nat attempt) (called req w)).
Proof.
  intros Hgen Hrate Hlt. rewrite retry_loop_cons.
  rewrite (try_except_raised _ _ _ _ _
             (attempt_body_failure _ _ _ _ _ _ Hgen)).
  cbv zeta. rewrite Hrate.
  apply Nat.ltb_lt in Hlt. rewrite Hlt. reflexivity.
Qed.

Lemma retry_step_other user_id user_message products_context req
    attempt rest w e :
  generate_content (model_calls w) req = Failure e ->
  rate_limited (str_exn e) = false ->
  attempt <> (max_retries - 1)%nat ->
  retry_loop user_id user_message products_context req (attempt :: rest) w
  = retry_loop user_id user_message products_context req rest (called req w).
Proof.
  intros Hgen Hrate Hne. rewrite retry_loop_cons.
  rewrite (try_except_raised _ _ _ _ _
             (attempt_body_failure _ _ _ _ _ _ Hgen)).
  cbv zeta. rewrite Hrate.
  apply Nat.eqb_neq in Hne. by rewrite Hne.
Qed.

Lemma retry_step_last user_id user_message products_context req rest w e :
  generate_content (model_calls w) req = Failure e ->
  retry_loop user_id user_message products_context req
    ((max_retries - 1)%nat :: rest) w
  = (Returned (technical_error_text, []), called req w).
Proof.
  intros Hgen. rewrite retry_loop_cons.
  rewrite (try_except_raised _ _ _ _ _
             (attempt_body_failure _ _ _ _ _ _ Hgen)).
  cbv zeta. rewrite Nat.ltb_irrefl, Nat.eqb_refl.
  by destruct (rate_limited (str_exn e)).
Qed.

Lemma retry_loop_all_fail user_id user_message products_context req attempts :
  last attempts = Some (max_retries - 1)%nat ->
  forall w,
    (forall k, (k < length attempts)%nat ->
               exists e, generate_content (model_calls w + k) req = Failure e) ->
    exists w',
      retry_loop user_id user_message products_context req attempts w
      = (Returned (technical_error_text, []), w')
      /\ user_contexts w' = user_contexts w.
Proof.
  induction attempts as [|attempt rest IH]; intros Hlast w Hall; [done|].
  destruct (Hall O) as [e He]; [simpl; lia|].
  rewrite Nat.add_0_r in He.
  destruct (decide (attempt = (max_retries - 1)%nat)) as [->|Hne].
  { rewrite (retry_step_last _ _ _ _ _ _ _ He). by eexists. }
  assert (last rest = Some (max_retries - 1)%nat) as Hlast'.
  { destruct rest; [by injection Hlast|]. by rewrite last_cons_cons in Hlast. }
  assert (forall w1, model_calls w1 = S (model_calls w) ->
            forall k, (k < length rest)%nat ->
            exists e, generate_content (model_calls w1 + k) req = Failure e)
    as Hshift.
  { intros w1 Hw1 k Hk. rewrite Hw1.
    replace (S (model_calls w) + k)%nat with (model_calls w + S k)%nat by lia.
    apply Hall. simpl. lia. }
  destruct (rate_limited (str_exn e)) eqn:Hrate.
  - destruct (decide (attempt < max_retries - 1)%nat) as [Hlt|Hge].
    + rewrite (retry_step_rate_limited _ _ _ _ _ _ _ _ He Hrate Hlt).
      destruct (IH Hlast' _
                  (Hshift (slept (base_delay * 2 ^ Z.of_nat attempt)
                             (called req w)) eq_refl))
        as (w' & Hrun & Hctx).
      by exists w'.
    + rewrite retry_loop_cons.
      rewrite (try_except_raised _ _ _ _ _
                 (attempt_body_failure _ _ _ _ _ _ He)).
      cbv zeta. rewrite Hrate.
      apply Nat.ltb_nlt in Hge. rewrite Hge.
      apply Nat.eqb_neq in Hne. rewrite Hne.
      destruct (IH Hlast' _ (Hshift (called req w) eq_refl))
        as (w' & Hrun & Hctx).
      by exists w'.
  - rewrite (retry_step_other _ _ _ _ _ _ _ _ He Hrate Hne).
    destruct (IH Hlast' _ (Hshift (called req w) eq_refl))
      as (w' & Hrun & Hctx).
    by exists w'.
Qed.

(** [get_response] is its retry loop on the request it builds. *)
Lemma get_response_unfold user_id user_message products_context w :
  exists products_str,
    get_response user_id user_message products_context w
    = retry_loop user_id user_message products_context
        (ChatRequest (system_prompt_text products_str)
           (last_n 5 (default [] (user_contexts w !! user_id))
            ++ [user_turn user_message]))
        (seq 0 max_retries) (prompted w).
Proof.
  destruct (format_products_context_returns (default [] products_context))
    as [s Hs].
  exists s. unfold get_response. rewrite Hs. reflexivity.
Qed.

Lemma get_response_outcome user_id user_message products_context w :
  exists req r w',
    get_response user_id user_message products_context w = (Returned r, w')
    /\ outcome_of user_id user_message products_context req w r w'.
Proof.
  destruct (get_response_unfold user_id user_message products_context w)
    as [s ->].
  eexists.
  edestruct retry_loop_outcome as (r & w' & Hrun & Hout); [|
    exists r, w'; split; [exact Hrun|]]; [reflexivity|].
  destruct Hout as (new & Htr & Hall & Hn & Hcase).
  exists ((EvCategoryNames, user_contexts w) :: new). simpl in *.
  split; [by rewrite Htr, <- app_assoc|].
  split; [by constructor|done].
Qed.

(** ** Retry and failure behaviour of [get_response] *)

(** C1. If every model call raises a rate-limit-class error (its message
    contains "429" or "ResourceExhausted"), [get_response] calls the model
    exactly four times, sleeps 3, 6 and 12 seconds between the calls, and
    returns the fixed apology with an empty product list; the Context
    Store is as it was. *)
Theorem rate_limit_retry_bound user_id user_message products_context w :
  (forall n req, exists e,
      generate_content n req = Failure e /\ rate_limited (str_exn e) = true) ->
  exists req,
    get_response user_id user_message products_context w
    = (Returned (technical_error_text, []),
       {| user_contexts := user_contexts w;
          model_calls := model_calls w + 4;
          trace := trace w ++
            [(EvCategoryNames, user_contexts w);
             (EvGenerate req, user_contexts w);
             (EvSleep 3, user_contexts w);
             (EvGenerate req, user_contexts w);
             (EvSleep 6, user_contexts w);
             (EvGenerate req, user_contexts w);
             (EvSleep 12, user_contexts w);
             (EvGenerate req, user_contexts w)] |}).
Proof.
  intros Hbusy.
  destruct (get_response_unfold user_id user_message products_context w)
    as [s ->].
  eexists. change (seq 0 max_retries) with [0; 1; 2; 3]%nat.
  set (req := ChatRequest _ _).
  destruct (Hbusy (model_calls (prompted w)) req) as (e0 & H0 & R0).
  rewrite (retry_step_rate_limited _ _ _ _ _ _ _ _ H0 R0)
    by (unfold max_retries; lia).
  set (w1 := slept _ _).
  destruct (Hbusy (model_calls w1) req) as (e1 & H1 & R1).
  rewrite (retry_step_rate_limited _ _ _ _ _ _ _ _ H1 R1)
    by (unfold max_retries; lia).
  set (w2 := slept _ _).
  destruct (Hbusy (model_calls w2) req) as (e2 & H2 & R2).
  rewrite (retry_step_rate_limited _ _ _ _ _ _ _ _ H2 R2)
    by (unfold max_retries; lia).
  set (w3 := slept _ _).
  destruct (Hbusy (model_calls w3) req) as (e3 & H3 & R3).
  change 3%nat with (max_retries - 1)%nat.
  rewrite (retry_step_last _ _ _ _ _ _ _ H3).
  f_equal. unfold called, slept, prompted; simpl.
  f_equal; [lia|]. rewrite <- !app_assoc. reflexivity.
Qed.


(** C5, as the code has it. When each of the four model calls that
    [get_response] can make raises, whatever the class of the error, the
    invocation does not raise: it returns the fixed apology with an empty
    product list, and leaves the Context Store as it was. *)
Theorem failed_calls_yield_apology user_id user_message products_context w :
  (forall k req, (k < max_retries)%nat ->
     exists e, generate_content (model_calls w + k) req = Failure e) ->
  exists w',
    get_response user_id user_message products_context w
    = (Returned (technical_error_text, []), w')
    /\ user_contexts w' = user_contexts w.
Proof.
  intros Hall.
  destruct (get_response_unfold user_id user_message products_context w)
    as [s ->].
  edestruct retry_loop_all_fail as (w' & Hrun & Hctx);
    [| | exists w'; split; [exact Hrun | exact Hctx]]; [reflexivity|].
  intros k Hk. apply Hall. exact Hk.
Qed.

(** ** Facts about strings *)

Lemma append_cons (x : ascii) (a b : string) :
  String x a +:+ b = String x (a +:+ b).
Proof. reflexivity. Qed.

Lemma append_nil (b : string) : EmptyString +:+ b = b.
Proof. reflexivity. Qed.

Lemma append_assoc (a b c : string) : (a +:+ b) +:+ c = a +:+ (b +:+ c).
Proof.
  induction a as [|x a IH]; [done|]. rewrite !append_cons. by rewrite IH.
Qed.

Lemma length_append (a b : string) :
  String.length (a +:+ b) = (String.length a + String.length b)%nat.
Proof.
  induction a as [|x a IH]; [done|]. rewrite append_cons. simpl.
  by rewrite IH.
Qed.

Lemma split_from_cons (word : string) (c : ascii) (r : string) :
  split_from word (String c r)
  = match space_width (String c r) with
    | 0%nat => split_from (word +:+ String c EmptyString) r
    | 1%nat => emit word (split_from EmptyString r)
    | 2%nat => match r with
               | String _ r2 => emit word (split_from EmptyString r2)
               | EmptyString => emit word []
               end
    | _ => match r with
           | String _ (String _ r3) => emit word (split_from EmptyString r3)
           | _ => emit word []
           end
    end.
Proof. reflexivity. Qed.

Lemma append_nil_r (s : string) : s +:+ EmptyString = s.
Proof.
  induction s as [|c s IH]; [done|]. by rewrite append_cons, IH.
Qed.

Lemma space_width_before_space (c : ascii) (r rest : string) :
  space_width (String c r) = 0%nat ->
  space_width (String c (r +:+ String " "%char rest)) = 0%nat.
Proof.
  destruct r as [|c2 [|c3 r3]]; rewrite ?append_cons, ?append_nil.
  - unfold space_width. change (nat_of_ascii " "%char) with 32%nat.
    repeat case_match; byte_facts; try done; lia.
  - unfold space_width. change (nat_of_ascii " "%char) with 32%nat.
    repeat case_match; byte_facts; try done; lia.
  - done.
Qed.

Lemma split_from_word (w word rest : string) :
  no_space w = true ->
  rest = EmptyString \/ (exists t, rest = String " "%char t) ->
  split_from word (w +:+ rest) = split_from (word +:+ w) rest.
Proof.
  revert word. induction w as [|c w IH]; intros word Hw Hrest.
  { by rewrite append_nil, append_nil_r. }
  simpl in Hw. apply andb_true_iff in Hw as [Hc Hw].
  apply Nat.eqb_eq in Hc.
  assert (space_width (String c (w +:+ rest)) = 0%nat) as Hc'.
  { destruct Hrest as [->|[t ->]].
    - by rewrite append_nil_r.
    - by apply space_width_before_space. }
  rewrite append_cons, split_from_cons, Hc'.
  rewrite IH by done. f_equal. by rewrite append_assoc.
Qed.

(** [split] gives back the words of a text written with one space
    between them. *)
Lemma split_join (words : list string) :
  Forall (fun w => is_word w = true) words ->
  split (join " " words) = words.
Proof.
  unfold split. induction 1 as [|w words Hw _ IH]; [done|].
  apply andb_true_iff in Hw as [Hne Hw].
  assert (forall rest, emit (EmptyString +:+ w) rest = w :: rest) as Hemit.
  { intros rest. rewrite append_nil. unfold emit. by destruct w. }
  destruct words as [|w' words].
  - change (join " " [w]) with w.
    rewrite <- (append_nil_r w) at 1. rewrite split_from_word by auto.
    apply Hemit.
  - change (join " " (w :: w' :: words))
      with (w +:+ " " +:+ join " " (w' :: words)).
    change (" " +:+ join " " (w' :: words))
      with (String " "%char (join " " (w' :: words))).
    rewrite split_from_word by eauto.
    rewrite split_from_cons.
    change (space_width (String " "%char (join " " (w' :: words))))
      with 1%nat.
    cbv iota. rewrite Hemit. by rewrite IH.
Qed.

(** ** The Intent Extractor *)

Lemma extract_search_params_failure user_message w :
  extraction_failure
    (generate_content (model_calls w) (ExtractionRequest user_message)) ->
  extract_search_params user_message w
  = (Returned (if (length (split user_message) <=? 3)%nat
               then short_fallback user_message
               else long_fallback user_message),
     called (ExtractionRequest user_message) w).
Proof.
  intros Hfail. unfold extract_search_params, try_except.
  unfold mbind at 1, M_bind at 1, call_model at 1.
  fold (called (ExtractionRequest user_message) w).
  inversion Hfail as [e He|He|t Hopen He|t Hclose He|t st en Hopen Hclose Hjs He];
    simpl.
  - by destruct (length (split user_message) <=? 3)%nat.
  - by destruct (length (split user_message) <=? 3)%nat.
  - unfold mbind, M_bind, lift; simpl. rewrite Hopen.
    by destruct (length (split user_message) <=? 3)%nat.
  - unfold mbind, M_bind, lift; simpl. rewrite Hclose.
    destruct (find "{"%char (strip t));
      by destruct (length (split user_message) <=? 3)%nat.
  - unfold mbind, M_bind, lift; simpl. rewrite Hopen, Hclose, Hjs.
    by destruct (length (split user_message) <=? 3)%nat.
Qed.

(** C2. When the model call or the parsing of its reply fails,
    [extract_search_params] returns (it does not raise) the fallback
    intent decided by the word count: for at most three
    whitespace-separated words, [is_product_search] is true and
    [search_query] is the utterance; for more, [is_product_search] is
    false. The count is that of [split], which for words written with one
    space between them is the number of the words. *)
Theorem extraction_failure_falls_back_on_word_count user_message w :
  extraction_failure
    (generate_content (model_calls w) (ExtractionRequest user_message)) ->
  exists params,
    extract_search_params user_message w
    = (Returned params, called (ExtractionRequest user_message) w)
    /\ (if (length (split user_message) <=? 3)%nat
        then dict_get params "is_product_search" (PBool false)
             = Returned (PBool true)
             /\ dict_get params "search_query" PNone
                = Returned (PStr user_message)
        else dict_get params "is_product_search" (PBool false)
             = Returned (PBool false))
    /\ forall words,
         Forall (fun word => is_word word = true) words ->
         user_message = join " " words ->
         if (length words <=? 3)%nat
         then dict_get params "is_product_search" (PBool false)
              = Returned (PBool true)
              /\ dict_get params "search_query" PNone
                 = Returned (PStr (join " " words))
         else dict_get params "is_product_search" (PBool false)
              = Returned (PBool false).
Proof.
  intros Hfail.
  set (params := if (length (split user_message) <=? 3)%nat
                 then short_fallback user_message
                 else long_fallback user_message).
  assert (if (length (split user_message) <=? 3)%nat
          then dict_get params "is_product_search" (PBool false)
               = Returned (PBool true)
               /\ dict_get params "search_query" PNone
                  = Returned (PStr user_message)
          else dict_get params "is_product_search" (PBool false)
               = Returned (PBool false)) as Hcount.
  { subst params. destruct (length (split user_message) <=? 3)%nat.
    - split; reflexivity.
    - reflexivity. }
  exists params. split; [by apply extract_search_params_failure|].
  split; [exact Hcount|].
  intros words Hwords Hjoin. clearbody params. subst user_message.
  by rewrite (split_join words Hwords) in Hcount.
Qed.

(** ** The Bilingual Retriever *)

(** C6. For an intent whose [is_product_search] is false (or absent, or
    any falsy value), [ai_search] returns the empty list paired with false
    and leaves the world as it was after the extraction: no catalog call
    is made. *)
Theorem non_product_intent_skips_catalog user_message params v w w1 :
  extract_search_params user_message w = (Returned params, w1) ->
  dict_get params "is_product_search" (PBool false) = Returned v ->
  truthy v = false ->
  ai_search_params params w1 = (Returned ([], false), w1)
  /\ ai_search user_message w = (Returned ([], false), w1).
Proof.
  intros Hext Hget Hfalse.
  assert (ai_search_params params w1 = (Returned ([], false), w1)) as Hp.
  { unfold ai_search_params.
    erewrite bind_returned; last by (unfold lift; rewrite Hget).
    by rewrite Hfalse. }
  split; [exact Hp|].
  unfold ai_search. by erewrite bind_returned.
Qed.

Lemma mapM_enrich (rows : list product) :
  exists products,
    mapM enrich rows = Returned products /\ id <$> products = id <$> rows.
Proof.
  induction rows as [|r rows (products & IH & Hids)]; simpl.
  - by exists [].
  - destruct (enrich_returns r) as (p & Hp & Hid).
    exists (p :: products). rewrite Hp. simpl. rewrite IH. simpl.
    split; [done|]. f_equal; [exact Hid | exact Hids].
Qed.

Lemma search_products_returned query category_id min_price max_price
    limit offset rows w :
  db_get_products query category_id min_price max_price limit offset
  = Returned rows ->
  exists products,
    mapM enrich rows = Returned products
    /\ id <$> products = id <$> rows
    /\ search_products query category_id min_price max_price limit offset w
       = (Returned products,
          cataloged query category_id min_price max_price limit offset w).
Proof.
  intros Hdb. destruct (mapM_enrich rows) as (products & Hen & Hids).
  exists products. repeat split; [done..|].
  unfold search_products, lift.
  unfold mbind, M_bind, await. simpl. by rewrite Hdb, Hen.
Qed.

Lemma search_products_raised query category_id min_price max_price
    limit offset e w :
  db_get_products query category_id min_price max_price limit offset
  = Raised e ->
  search_products query category_id min_price max_price limit offset w
  = (Raised e,
     cataloged query category_id min_price max_price limit offset w).
Proof.
  intros Hdb. unfold search_products, lift.
  unfold mbind, M_bind, await. simpl. by rewrite Hdb.
Qed.

Lemma merge_fold (existing_ids : gset Z) (more_products acc : list product) :
  fold_left
    (fun acc p => if decide (id p ∈ existing_ids) then acc else acc ++ [p])
    more_products acc
  = acc ++ filter (fun p => id p ∉ existing_ids) more_products.
Proof.
  revert acc. induction more_products as [|p more IH]; intros acc; simpl.
  - by rewrite app_nil_r.
  - rewrite IH. destruct (decide (id p ∈ existing_ids)) as [Hin|Hout].
    + rewrite filter_cons_False; [done|]. intros Hnot. by apply Hnot.
    + rewrite filter_cons_True by done. by rewrite <- app_assoc.
Qed.

Lemma merge_products_filter (products more_products : list product) :
  merge_products products more_products
  = products ++ filter (fun p => id p ∉ id <$> products) more_products.
Proof.
  unfold merge_products. rewrite merge_fold. f_equal.
  apply list_filter_iff. intros p. by rewrite elem_of_list_to_set.
Qed.


Lemma ai_search_params_dict (m : gmap string pyval) w :
  ai_search_params (PDict m) w
  = let query := default PNone (m !! "search_query"%string) in
    let translated := default PNone (m !! "translated_keywords"%string) in
    let min_price := default PNone (m !! "min_price"%string) in
    let max_price := default PNone (m !! "max_price"%string) in
    if negb (truthy (default (PBool false) (m !! "is_product_search"%string)))
    then (Returned ([], false), w)
    else
      (products ← search_products query PNone min_price max_price 5 0;
       differs ← lift (second_lookup translated query);
       if differs : bool then
         more_products ←
           search_products translated PNone min_price max_price 5 0;
         mret (merge_products products more_products, true)
       else mret (products, true)) w.
Proof.
  unfold ai_search_params. unfold mbind at 1, M_bind at 1. simpl.
  by destruct (negb _).
Qed.

Lemma second_lookup_same (m : gmap string pyval) :
  secondary_same_or_absent m ->
  second_lookup (default PNone (m !! "translated_keywords"%string))
                (default PNone (m !! "search_query"%string))
  = Returned false.
Proof.
  intros [->|[->|(t & q & -> & -> & Heq)]]; [done..|].
  change (second_lookup (PStr t) (PStr q) = Returned false).
  destruct t as [|a t]; [done|]. destruct q as [|b q]; [done|].
  change (Returned (negb (String.eqb (str_lower (String a t))
                            (str_lower (String b q)))) = Returned false).
  rewrite Heq. by rewrite String.eqb_refl.
Qed.

(** C7. When the secondary keyword is absent or equals the primary one up
    to letter case, [ai_search] behaves on the intent exactly as on the
    intent without the secondary keyword (same result, same calls); and
    when it returns products, they are the rows of the one lookup made,
    each once, in the catalog's order. *)
Theorem same_secondary_keyword_is_none (m : gmap string pyval) w :
  secondary_same_or_absent m ->
  ai_search_params (PDict m) w
  = ai_search_params (PDict (delete "translated_keywords"%string m)) w
  /\ forall products w',
       ai_search_params (PDict m) w = (Returned (products, true), w') ->
       exists rows,
         db_get_products (default PNone (m !! "search_query"%string)) PNone
           (default PNone (m !! "min_price"%string))
           (default PNone (m !! "max_price"%string)) 5 0 = Returned rows
         /\ mapM enrich rows = Returned products
         /\ id <$> products = id <$> rows
         /\ trace w'
            = trace w ++
              [(EvCatalog (default PNone (m !! "search_query"%string)) PNone
                  (default PNone (m !! "min_price"%string))
                  (default PNone (m !! "max_price"%string)) 5 0,
                user_contexts w)].
Proof.
  intros Hsame. rewrite !ai_search_params_dict. cbv zeta.
  rewrite lookup_delete_eq. rewrite !lookup_delete_ne by discriminate.
  rewrite (second_lookup_same m Hsame).
  destruct (negb (truthy (default (PBool false)
                            (m !! "is_product_search"%string)))).
  { split; [done|]. intros products w' [=]. }
  destruct (db_get_products (default PNone (m !! "search_query"%string)) PNone
              (default PNone (m !! "min_price"%string))
              (default PNone (m !! "max_price"%string)) 5 0)
    as [rows|e] eqn:Hdb.
  - destruct (search_products_returned _ _ _ _ _ _ _ w Hdb)
      as (products & Hen & Hids & Hrun).
    rewrite !(bind_returned _ _ _ _ _ Hrun).
    split.
    + reflexivity.
    + erewrite bind_returned by reflexivity.
      intros products' w' [= <- <-]. by exists rows.
  - pose proof (search_products_raised _ _ _ _ _ _ _ w Hdb) as Hrun.
    rewrite !(bind_raised _ _ _ _ _ Hrun).
    split; [done|]. intros products w' [=].
Qed.


(** ** The bound and the shape of the stored history *)

Lemma record_exchange_lookup user_id user_message ai_response c :
  record_exchange user_id user_message ai_response c !! user_id
  = Some (last_n 10 (default [] (c !! user_id)
                     ++ [user_turn user_message; model_turn ai_response])).
Proof. unfold record_exchange. by rewrite lookup_insert_eq. Qed.

Lemma record_exchange_other user_id user_message ai_response c u :
  u <> user_id ->
  record_exchange user_id user_message ai_response c !! u = c !! u.
Proof. intros Hne. unfold record_exchange. by rewrite lookup_insert_ne. Qed.

Lemma record_turns_spec user_id exchanges w :
  record_turns user_id exchanges w
  = (Returned tt,
     set_contexts
       (fold_left (fun c e => record_exchange user_id e.1 e.2 c) exchanges
          (user_contexts w)) w).
Proof.
  revert w. induction exchanges as [|[u a] rest IH]; intros w.
  - by destruct w.
  - simpl. erewrite bind_returned; last by apply update_context_spec.
    by rewrite IH.
Qed.

Lemma fold_record_exchange_lookup user_id exchanges c :
  exchanges <> [] ->
  fold_left (fun c e => record_exchange user_id e.1 e.2 c) exchanges c
    !! user_id
  = Some (last_n 10 (default [] (c !! user_id) ++ turns_of exchanges)).
Proof.
  revert c. induction exchanges as [|[u a] rest IH]; intros c Hne; [done|].
  simpl. destruct rest as [|e rest].
  - simpl. by rewrite record_exchange_lookup.
  - rewrite IH by done. rewrite record_exchange_lookup. simpl default.
    rewrite last_n_app_last_n. by rewrite <- app_assoc.
Qed.

Lemma last_n_app_long {A} (n : nat) (l x : list A) :
  (n <= length x)%nat -> last_n n (l ++ x) = last_n n x.
Proof.
  intros Hn. unfold last_n. rewrite length_app.
  rewrite drop_app_ge by lia. f_equal. lia.
Qed.

Lemma well_formed_record_exchange user_id user_message ai_response c :
  (forall u ctx, c !! u = Some ctx -> well_formed ctx) ->
  forall u ctx,
    record_exchange user_id user_message ai_response c !! u = Some ctx ->
    well_formed ctx.
Proof.
  intros Hc u ctx.
  destruct (decide (u = user_id)) as [->|Hne].
  - rewrite record_exchange_lookup. intros [= <-].
    assert (well_formed (default [] (c !! user_id))) as [ex Hex].
    { destruct (c !! user_id) as [l|] eqn:Hl; [by eapply Hc|by exists []]. }
    rewrite Hex.
    exists (last_n 5 (ex ++ [(user_message, ai_response)])).
    rewrite <- last_n_turns_of, turns_of_app. reflexivity.
  - rewrite record_exchange_other by done. apply Hc.
Qed.

Lemma turns_of_roles (exchanges : list (string * string)) (i : nat) (t : turn) :
  turns_of exchanges !! i = Some t ->
  role t = if Nat.even i then "user"%string else "model"%string.
Proof.
  revert i. induction exchanges as [|e ex IH]; intros i; [done|].
  destruct i as [|[|i]]; simpl.
  - by intros [= <-].
  - by intros [= <-].
  - apply IH.
Qed.

Lemma run_ops_well_formed ops w :
  (forall u ctx, user_contexts w !! u = Some ctx -> well_formed ctx) ->
  exists w',
    run_ops ops w = (Returned tt, w')
    /\ forall u ctx, user_contexts w' !! u = Some ctx -> well_formed ctx.
Proof.
  revert w. induction ops as [|o ops IH]; intros w Hw.
  - by exists w.
  - assert (exists w1,
              run_op o w = (Returned tt, w1)
              /\ forall u ctx, user_contexts w1 !! u = Some ctx ->
                               well_formed ctx) as (w1 & Hrun & Hw1).
    { destruct o as [user_id user_message products_context|user_id]; simpl.
      - destruct (get_response_outcome user_id user_message
                    products_context w)
          as (req & r & w1 & Hrun & new & _ & _ & _ & Hcase).
        exists w1. split; [by erewrite bind_returned|].
        destruct Hcase as [(-> & _)|(t & _ & _ & ->)]; [done|].
        by apply well_formed_record_exchange.
      - rewrite clear_user_context_spec. eexists. split; [done|].
        simpl. intros u ctx Hu. apply lookup_delete_Some in Hu as [_ Hu].
        by eapply Hw. }
    destruct (IH w1 Hw1) as (w' & Hrest & Hw').
    exists w'. split; [|done].
    simpl. by erewrite bind_returned.
Qed.

(** C8. After the turns of a user are recorded, from any store, the user's
    stored history is the last ten turns of the old history followed by
    the new turns, so it never holds more than ten; and after twenty
    exchanges it is the turns of the last five of them, whatever the six
    oldest exchanges (and the store before them) were. *)
Theorem context_store_keeps_last_ten user_id exchanges w :
  exchanges <> [] ->
  exists w' ctx,
    record_turns user_id exchanges w = (Returned tt, w')
    /\ user_contexts w' !! user_id = Some ctx
    /\ ctx = last_n 10 (default [] (user_contexts w !! user_id)
                        ++ turns_of exchanges)
    /\ (length ctx <= 10)%nat
    /\ forall oldest rest,
         exchanges = oldest ++ rest ->
         length oldest = 6%nat ->
         length rest = 14%nat ->
         ctx = turns_of (last_n 5 rest).
Proof.
  intros Hne. rewrite record_turns_spec. eexists _, _.
  split; [done|]. simpl.
  split; [by apply fold_record_exchange_lookup|].
  split; [done|]. split; [apply length_last_n|].
  intros oldest rest -> Ho Hr.
  rewrite turns_of_app, app_assoc.
  rewrite last_n_app_long by (rewrite length_turns_of; lia).
  apply (last_n_turns_of 5).
Qed.

(** C10. From an empty store, after any run of [get_response] and
    [clear_user_context] calls, every stored context has even length and
    its turns are "user", "model", "user", ... by position;
    [clear_user_context] then removes the entry of the user it is given,
    leaves every other entry as it is, and changes nothing for a user
    without an entry. *)
Theorem stored_contexts_alternate ops w :
  user_contexts w = ∅ ->
  exists w',
    run_ops ops w = (Returned tt, w')
    /\ (forall u ctx,
          user_contexts w' !! u = Some ctx ->
          Nat.Even (length ctx)
          /\ forall i t, ctx !! i = Some t ->
               role t = if Nat.even i then "user"%string else "model"%string)
    /\ forall user_id, exists w'',
         clear_user_context user_id w' = (Returned tt, w'')
         /\ user_contexts w'' !! user_id = None
         /\ (forall u, u <> user_id ->
               user_contexts w'' !! u = user_contexts w' !! u)
         /\ (user_contexts w' !! user_id = None -> w'' = w').
Proof.
  intros Hempty.
  destruct (run_ops_well_formed ops w) as (w' & Hrun & Hw').
  { intros u ctx. by rewrite Hempty, lookup_empty. }
  exists w'. split; [done|]. split.
  - intros u ctx Hu. destruct (Hw' u ctx Hu) as [ex ->]. split.
    + exists (length ex). apply length_turns_of.
    + apply turns_of_roles.
  - intros user_id. rewrite clear_user_context_spec. eexists.
    split; [done|]. simpl. split; [apply lookup_delete_eq|]. split.
    + intros u Hne. by apply lookup_delete_ne.
    + intros Hnone. unfold set_contexts. rewrite delete_id by done.
      by destruct w'.
Qed.

(** ** Price formatting *)

(** C9, as the code has it. For every input other than an int too large to
    convert to a float, [format_price] returns a string: the float it
    converts to, printed without decimals and with spaces between the
    thousands, when the input is truthy and converts; "0" otherwise. *)
Theorem format_price_returns_a_string (price : pyval) :
  (forall z, price = PInt z -> exists f, int_to_float z = Returned f) ->
  exists s,
    format_price float_of_str price = Returned s
    /\ s = if truthy price
           then match py_float float_of_str price with
                | Returned f =>
                    replace_char ","%char " "%char (format_float_comma_0f f)
                | Raised _ => "0"%string
                end
           else "0"%string.
Proof.
  intros Hint. unfold format_price.
  destruct price as [|[|]|z|[sg|sg| |sg m e]|str|items|d]; simpl; eauto.
  - destruct (z =? 0) eqn:Hz; simpl; [eauto|].
    destruct (Hint z eq_refl) as [f ->]. simpl. eauto.
  - destruct str as [|a str]; simpl; [eauto|].
    destruct (float_of_str (String a str)); simpl; eauto.
  - destruct items; simpl; eauto.
  - destruct (bool_decide (d = ∅)); simpl; eauto.
Qed.

(** ** The awaits of an invocation *)

Lemma requests_of_app tr1 tr2 :
  requests_of (tr1 ++ tr2) = requests_of tr1 ++ requests_of tr2.
Proof. apply omap_app. Qed.

Lemma sleeps_of_app tr1 tr2 :
  sleeps_of (tr1 ++ tr2) = sleeps_of tr1 ++ sleeps_of tr2.
Proof. apply omap_app. Qed.

Lemma lookups_of_app tr1 tr2 :
  lookups_of (tr1 ++ tr2) = lookups_of tr1 ++ lookups_of tr2.
Proof. apply omap_app. Qed.

Lemma sublist_sum_le (l1 l2 : list Z) :
  sublist l1 l2 -> Forall (fun d => 0 <= d) l2 ->
  sum_list l1 <= sum_list l2.
Proof.
  induction 1 as [|x l1 l2 _ IH|x l1 l2 _ IH]; intros Hpos; simpl.
  - lia.
  - apply Forall_cons in Hpos as [_ Hpos]. specialize (IH Hpos). lia.
  - apply Forall_cons in Hpos as [Hx Hpos]. specialize (IH Hpos). lia.
Qed.

Lemma backoff_delays_cons attempt rest :
  backoff_delays (attempt :: rest)
  = if (attempt <? max_retries - 1)%nat
    then base_delay * 2 ^ Z.of_nat attempt :: backoff_delays rest
    else backoff_delays rest.
Proof.
  unfold backoff_delays.
  destruct (attempt <? max_retries - 1)%nat eqn:Hlt.
  - apply Nat.ltb_lt in Hlt. by rewrite filter_cons_True.
  - apply Nat.ltb_nlt in Hlt. by rewrite filter_cons_False.
Qed.

Lemma loop_trace_stop req attempt rest w w' :
  trace w' = trace (called req w) ->
  model_calls w' = model_calls (called req w) ->
  loop_trace req (attempt :: rest) w w' 1.
Proof.
  intros Htr Hn. exists [(EvGenerate req, user_contexts w)].
  split; [exact Htr|]. split; [rewrite Hn; simpl; lia|].
  split; [done|]. split; [simpl; lia|]. split; [done|].
  apply sublist_nil_l.
Qed.

Lemma loop_trace_continue req attempt rest w w' k :
  loop_trace req rest (called req w) w' k ->
  loop_trace req (attempt :: rest) w w' (S k).
Proof.
  intros (new & Htr & Hn & Hreq & Hk & _ & Hsub).
  exists ((EvGenerate req, user_contexts w) :: new).
  split; [by rewrite Htr; simpl; rewrite <- app_assoc|].
  split; [rewrite Hn; simpl; lia|].
  split; [by simpl; rewrite Hreq|]. split; [simpl; lia|].
  split; [lia|].
  rewrite backoff_delays_cons. change (sleeps_of (_ :: new)) with (sleeps_of new).
  destruct (attempt <? max_retries - 1)%nat; [by apply sublist_cons|done].
Qed.

Lemma loop_trace_sleep req attempt rest w w' k :
  (attempt < max_retries - 1)%nat ->
  loop_trace req rest
    (slept (base_delay * 2 ^ Z.of_nat attempt) (called req w)) w' k ->
  loop_trace req (attempt :: rest) w w' (S k).
Proof.
  intros Hlt (new & Htr & Hn & Hreq & Hk & _ & Hsub).
  exists ((EvGenerate req, user_contexts w)
          :: (EvSleep (base_delay * 2 ^ Z.of_nat attempt), user_contexts w)
          :: new).
  split; [by rewrite Htr; simpl; rewrite <- !app_assoc|].
  split; [rewrite Hn; simpl; lia|].
  split; [by simpl; rewrite Hreq|]. split; [simpl; lia|].
  split; [lia|].
  rewrite backoff_delays_cons. apply Nat.ltb_lt in Hlt. rewrite Hlt.
  change (sleeps_of (_ :: _ :: new))
    with (base_delay * 2 ^ Z.of_nat attempt :: sleeps_of new).
  by apply sublist_skip.
Qed.

Lemma retry_loop_trace user_id user_message products_context req attempts :
  forall w, exists r w' k,
    retry_loop user_id user_message products_context req attempts w
    = (Returned r, w')
    /\ loop_trace req attempts w w' k.
Proof.
  induction attempts as [|attempt rest IH]; intros w.
  { exists (no_answer_text, []), w, O. split; [done|]. exists [].
    rewrite app_nil_r. repeat split; try done; try lia. }
  assert (forall e, exists r w' k,
    (let error_msg := str_exn e in
     let after : M (string * list product) :=
       if (attempt =? max_retries - 1)%nat
       then mret (technical_error_text, [])
       else retry_loop user_id user_message products_context req rest in
     if rate_limited error_msg then
       if (attempt <? max_retries - 1)%nat
       then
         await (EvSleep (base_delay * 2 ^ Z.of_nat attempt));;
         retry_loop user_id user_message products_context req rest
       else after
     else after) (called req w)
    = (Returned r, w')
    /\ loop_trace req (attempt :: rest) w w' k) as Hhandler.
  { intros e. cbv zeta.
    assert (exists r w' k,
      (if (attempt =? max_retries - 1)%nat
       then mret (technical_error_text, [])
       else retry_loop user_id user_message products_context req rest)
        (called req w)
      = (Returned r, w')
      /\ loop_trace req (attempt :: rest) w w' k) as Hafter.
    { destruct (attempt =? max_retries - 1)%nat.
      - eexists _, _, 1%nat. split; [reflexivity|].
        by apply loop_trace_stop.
      - destruct (IH (called req w)) as (r & w' & k & Hrun & Htr).
        exists r, w', (S k). split; [done|]. by apply loop_trace_continue. }
    destruct (rate_limited (str_exn e)); [|exact Hafter].
    destruct (attempt <? max_retries - 1)%nat eqn:Hlt; [|exact Hafter].
    destruct (IH (slept (base_delay * 2 ^ Z.of_nat attempt) (called req w)))
      as (r & w' & k & Hrun & Htr).
    exists r, w', (S k). split.
    - unfold mbind, M_bind, await. simpl. exact Hrun.
    - apply loop_trace_sleep; [by apply Nat.ltb_lt|done]. }
  rewrite retry_loop_cons.
  destruct (generate_content (model_calls w) req) as [[t|]|e] eqn:Hgen.
  - rewrite (try_except_returned _ _ _ _ _
               (attempt_body_reply _ _ _ _ _ _ Hgen)).
    eexists _, _, 1%nat. split; [done|]. by apply loop_trace_stop.
  - rewrite (try_except_raised _ _ _ _ _
               (attempt_body_no_text _ _ _ _ _ Hgen)).
    apply Hhandler.
  - rewrite (try_except_raised _ _ _ _ _
               (attempt_body_failure _ _ _ _ _ _ Hgen)).
    apply Hhandler.
Qed.

(** X1. Whatever the model does, an invocation of [get_response] makes at
    least one and at most four model calls, all with the same request; its
    sleeps are some of the delays 3, 6, 12 in that order, so it sleeps at
    most 21 seconds in all. *)
Theorem backoff_is_bounded user_id user_message products_context w :
  exists r w' new req k,
    get_response user_id user_message products_context w = (Returned r, w')
    /\ trace w' = trace w ++ new
    /\ model_calls w' = (model_calls w + k)%nat
    /\ (1 <= k <= 4)%nat
    /\ requests_of new = replicate k req
    /\ sublist (sleeps_of new) [3; 6; 12]
    /\ sum_list (sleeps_of new) <= 21.
Proof.
  destruct (get_response_unfold user_id user_message products_context w)
    as [s ->].
  edestruct retry_loop_trace
    as (r & w' & k & Hrun & new & Htr & Hn & Hreq & Hk & Hk1 & Hsub).
  eexists r, w', ((EvCategoryNames, user_contexts w) :: new), _, k.
  split; [exact Hrun|].
  split; [by rewrite Htr; simpl; rewrite <- app_assoc|].
  split; [exact Hn|].
  split; [split; [by apply Hk1|exact Hk]|].
  split; [exact Hreq|].
  change (sleeps_of (_ :: new)) with (sleeps_of new).
  change (backoff_delays (seq 0 max_retries)) with [3; 6; 12] in Hsub.
  split; [exact Hsub|].
  apply (sublist_sum_le _ _ Hsub). repeat constructor; lia.
Qed.

Lemma extract_search_params_returns user_message w :
  exists params,
    extract_search_params user_message w
    = (Returned params, called (ExtractionRequest user_message) w).
Proof.
  unfold extract_search_params, try_except.
  unfold mbind at 1, M_bind at 1, call_model at 1.
  fold (called (ExtractionRequest user_message) w).
  destruct (generate_content (model_calls w) (ExtractionRequest user_message))
    as [[t|]|e]; simpl.
  - unfold mbind, M_bind, lift; simpl.
    destruct (find "{"%char (strip t)) as [start|];
      [destruct (rfind "}"%char (strip t)) as [end_|];
       [destruct (json_loads (slice start (end_ + 1) (strip t)))|]|];
      simpl; try (destruct (length (split user_message) <=? 3)%nat); eauto.
  - destruct (length (split user_message) <=? 3)%nat; eauto.
  - destruct (length (split user_message) <=? 3)%nat; eauto.
Qed.

Lemma search_products_effects query category_id min_price max_price
    limit offset w :
  exists r,
    search_products query category_id min_price max_price limit offset w
    = (r, cataloged query category_id min_price max_price limit offset w).
Proof.
  destruct (db_get_products query category_id min_price max_price limit offset)
    as [rows|e] eqn:Hdb.
  - destruct (search_products_returned _ _ _ _ _ _ _ w Hdb)
      as (products & _ & _ & Hrun). eauto.
  - rewrite (search_products_raised _ _ _ _ _ _ _ w Hdb). eauto.
Qed.

(** What the retriever adds to the world: at most two catalog lookups,
    each seeing the Context Store as it was, no model call and no sleep. *)
Lemma ai_search_params_effects params w :
  exists r w' new,
    ai_search_params params w = (r, w')
    /\ trace w' = trace w ++ new
    /\ user_contexts w' = user_contexts w
    /\ model_calls w' = model_calls w
    /\ length (lookups_of new) = length new
    /\ (length new <= 2)%nat
    /\ Forall (fun o => o.2 = user_contexts w) new.
Proof.
  assert (forall r : result (list product * bool), exists r' w' new,
            (r, w) = (r', w')
            /\ trace w' = trace w ++ new
            /\ user_contexts w' = user_contexts w
            /\ model_calls w' = model_calls w
            /\ length (lookups_of new) = length new
            /\ (length new <= 2)%nat
            /\ Forall (fun o => o.2 = user_contexts w) new) as Hnone.
  { intros r. exists r, w, []. rewrite app_nil_r. simpl.
    repeat split; try done; lia. }
  destruct params as [| | | | | |m];
    try (unfold ai_search_params; erewrite bind_raised by reflexivity;
         apply Hnone).
  rewrite ai_search_params_dict. cbv zeta.
  destruct (negb _); [apply Hnone|].
  set (q := default PNone (m !! "search_query"%string)).
  set (t := default PNone (m !! "translated_keywords"%string)).
  set (lo := default PNone (m !! "min_price"%string)).
  set (hi := default PNone (m !! "max_price"%string)).
  destruct (search_products_effects q PNone lo hi 5 0 w) as [[products|e] H1].
  2:{ rewrite (bind_raised _ _ _ _ _ H1). eexists _, _, [_].
      split; [reflexivity|]. simpl.
      repeat split; try done; try lia; by repeat constructor. }
  rewrite (bind_returned _ _ _ _ _ H1).
  destruct (second_lookup t q) as [[|]|e] eqn:H2.
  - erewrite bind_returned by reflexivity.
    destruct (search_products_effects t PNone lo hi 5 0
                (cataloged q PNone lo hi 5 0 w)) as [[more|e] H3].
    + rewrite (bind_returned _ _ _ _ _ H3). eexists _, _, [_; _].
      split; [reflexivity|]. simpl. rewrite <- app_assoc.
      repeat split; try done; try lia; by repeat constructor.
    + rewrite (bind_raised _ _ _ _ _ H3). eexists _, _, [_; _].
      split; [reflexivity|]. simpl. rewrite <- app_assoc.
      repeat split; try done; try lia; by repeat constructor.
  - erewrite bind_returned by reflexivity.
    eexists _, _, [_]. split; [reflexivity|]. simpl.
    repeat split; try done; try lia; by repeat constructor.
  - erewrite bind_raised by reflexivity.
    eexists _, _, [_]. split; [reflexivity|]. simpl.
    repeat split; try done; try lia; by repeat constructor.
Qed.

Lemma length_lookups_of (tr : list (event * gmap Z (list turn))) :
  (length (lookups_of tr) <= length tr)%nat.
Proof.
  induction tr as [|[ev c] tr IH]; [done|].
  unfold lookups_of, omap in *. destruct ev; simpl in *; lia.
Qed.

Lemma only_lookups (new : list (event * gmap Z (list turn))) :
  length (lookups_of new) = length new ->
  requests_of new = [] /\ sleeps_of new = [].
Proof.
  induction new as [|[ev c] new IH]; [done|].
  pose proof (length_lookups_of new) as Hle.
  unfold lookups_of, requests_of, sleeps_of, omap in *.
  destruct ev; simpl in *; intros Hlen; try lia.
  apply IH. lia.
Qed.

(** X2. Whatever the model answers and whatever the catalog does,
    [ai_search] first makes one model call, the extraction, which never
    raises; after it come no further model call, no sleep and at most two
    catalog lookups, each seeing the Context Store as it was; and the
    store is left as it was, also when a lookup raises. The URL functions
    are taken as total: the category reads made for the rows of a lookup
    are not among the events counted here. *)
Theorem retrieval_leaves_context_store user_message w :
  exists r w' new,
    ai_search user_message w = (r, w')
    /\ trace w'
       = trace w
         ++ (EvGenerate (ExtractionRequest user_message), user_contexts w)
            :: new
    /\ requests_of new = []
    /\ sleeps_of new = []
    /\ (length (lookups_of new) <= 2)%nat
    /\ Forall (fun o => o.2 = user_contexts w) new
    /\ model_calls w' = S (model_calls w)
    /\ user_contexts w' = user_contexts w.
Proof.
  destruct (extract_search_params_returns user_message w) as [params Hext].
  destruct (ai_search_params_effects params
              (called (ExtractionRequest user_message) w))
    as (r & w' & new & Hrun & Htr & Hctx & Hn & Hlook & Hlen & Hstore).
  destruct (only_lookups new Hlook) as [Hreq Hsleep].
  exists r, w', new. unfold ai_search.
  rewrite (bind_returned _ _ _ _ _ Hext). split; [exact Hrun|].
  split; [by rewrite Htr; simpl; rewrite <- app_assoc|].
  repeat split; try done. lia.
Qed.

Lemma recent_history_roles (ex : list (string * string)) (user_message : string)
    (i : nat) (t : turn) :
  (last_n 5 (turns_of ex) ++ [user_turn user_message]) !! i = Some t ->
  role t = if Nat.even (length (last_n 5 (turns_of ex)) - i)
           then "user"%string else "model"%string.
Proof.
  intros Hi. unfold last_n in *. rewrite length_drop in *.
  rewrite length_turns_of in *.
  destruct (decide (i < 2 * length ex - (2 * length ex - 5))%nat) as [Hlt|Hge].
  - rewrite lookup_app_l in Hi by (rewrite length_drop, length_turns_of; lia).
    rewrite lookup_drop in Hi.
    rewrite (turns_of_roles _ _ _ Hi).
    assert (2 * length ex - 5 + i < 2 * length ex)%nat as Hin.
    { apply lookup_lt_Some in Hi. by rewrite length_turns_of in Hi. }
    replace (2 * length ex - (2 * length ex - 5) - i)%nat
      with (2 * length ex - (2 * length ex - 5 + i))%nat by lia.
    rewrite Nat.even_sub by lia. rewrite Nat.even_mul. simpl.
    by destruct (Nat.even _).
  - rewrite lookup_app_r in Hi by (rewrite length_drop, length_turns_of; lia).
    rewrite length_drop, length_turns_of in Hi.
    destruct (i - (2 * length ex - (2 * length ex - 5)))%nat eqn:Hd;
      [|done].
    injection Hi as <-.
    replace (2 * length ex - (2 * length ex - 5) - i)%nat with O by lia.
    reflexivity.
Qed.

(** X3. From an empty store, after any run of operations, every model
    call of a further [get_response] carries the same contents: the last
    five stored turns of the user (fewer when fewer are stored) followed
    by the current message. Their roles alternate and end in "user"; once
    more than four turns are stored, the first one sent is a "model"
    turn. *)
Theorem chat_request_carries_recent_history
    ops w0 w user_id user_message products_context :
  user_contexts w0 = ∅ ->
  run_ops ops w0 = (Returned tt, w) ->
  exists r w' new system_prompt contents k,
    get_response user_id user_message products_context w = (Returned r, w')
    /\ trace w' = trace w ++ new
    /\ requests_of new = replicate k (ChatRequest system_prompt contents)
    /\ (1 <= k)%nat
    /\ contents = last_n 5 (default [] (user_contexts w !! user_id))
                  ++ [user_turn user_message]
    /\ (length contents <= 6)%nat
    /\ (forall i t, contents !! i = Some t ->
          role t = if Nat.even (length contents - 1 - i)
                   then "user"%string else "model"%string)
    /\ ((4 < length (default [] (user_contexts w !! user_id)))%nat ->
        exists t rest, contents = t :: rest /\ role t = "model"%string).
Proof.
  intros Hempty Hops.
  destruct (run_ops_well_formed ops w0) as (w1 & Hops1 & Hwf).
  { intros u ctx. by rewrite Hempty, lookup_empty. }
  rewrite Hops in Hops1. injection Hops1 as <-.
  assert (exists ex, default [] (user_contexts w !! user_id) = turns_of ex)
    as [ex Hex].
  { destruct (user_contexts w !! user_id) as [ctx|] eqn:Hctx.
    - destruct (Hwf _ _ Hctx) as [ex ->]. by exists ex.
    - by exists []. }
  destruct (get_response_unfold user_id user_message products_context w)
    as [s Hunfold].
  rewrite Hunfold. rewrite Hex.
  edestruct retry_loop_trace
    as (r & w' & k & Hrun & new & Htr & Hn & Hreq & Hk & Hk1 & Hsub).
  eexists r, w', ((EvCategoryNames, user_contexts w) :: new), _, _, k.
  split; [exact Hrun|].
  split; [by rewrite Htr; simpl; rewrite <- app_assoc|].
  split; [exact Hreq|]. split; [by apply Hk1|].
  split; [reflexivity|].
  assert (length (last_n 5 (turns_of ex) ++ [user_turn user_message])
          = S (length (last_n 5 (turns_of ex)))) as Hlen.
  { rewrite length_app. simpl. lia. }
  split; [rewrite Hlen; pose proof (length_last_n 5 (turns_of ex)); lia|].
  split.
  - intros i t Hi. rewrite Hlen.
    replace (S (length (last_n 5 (turns_of ex))) - 1 - i)%nat
      with (length (last_n 5 (turns_of ex)) - i)%nat by lia.
    exact (recent_history_roles _ _ _ _ Hi).
  - intros Hlong.
    destruct (last_n 5 (turns_of ex) ++ [user_turn user_message])
      as [|t rest] eqn:Hc; [by destruct (last_n 5 (turns_of ex))|].
    exists t, rest. split; [done|].
    assert ((last_n 5 (turns_of ex) ++ [user_turn user_message]) !! O
            = Some t) as H0 by (by rewrite Hc).
    rewrite (recent_history_roles _ _ _ _ H0).
    unfold last_n. rewrite length_drop, length_turns_of.
    rewrite length_turns_of in Hlong.
    replace (2 * length ex - (2 * length ex - 5) - 0)%nat with 5%nat by lia.
    reflexivity.
Qed.

(** X4. After [clear_user_context], the next [get_response] of that user
    sends the model the current message alone; and when the model answers,
    the user's stored context is exactly that message and the answer,
    while every other user's context is as it was before the clear. *)
Theorem history_restarts_after_clear user_id user_message products_context w :
  exists w1 r w' new req,
    clear_user_context user_id w = (Returned tt, w1)
    /\ get_response user_id user_message products_context w1
       = (Returned r, w')
    /\ trace w' = trace w ++ new
    /\ (forall system_prompt contents,
          ChatRequest system_prompt contents ∈ requests_of new ->
          contents = [user_turn user_message])
    /\ (forall u, u <> user_id ->
          user_contexts w' !! u = user_contexts w !! u)
    /\ ((user_contexts w' !! user_id = None
         /\ r = (technical_error_text, []))
        \/ exists t,
             generate_content (pred (model_calls w')) req = Reply (Some t)
             /\ r = (strip t, default [] products_context)
             /\ user_contexts w' !! user_id
                = Some [user_turn user_message; model_turn (strip t)]).
Proof.
  rewrite clear_user_context_spec.
  set (w1 := set_contexts (delete user_id (user_contexts w)) w).
  assert (user_contexts w1 !! user_id = None) as Hnone
    by apply lookup_delete_eq.
  destruct (get_response_unfold user_id user_message products_context w1)
    as [s Hunfold].
  rewrite Hnone in Hunfold. simpl in Hunfold.
  set (req := ChatRequest (system_prompt_text s) [user_turn user_message])
    in Hunfold.
  destruct (retry_loop_trace user_id user_message products_context req
              (seq 0 max_retries) (prompted w1))
    as (r & w' & k & Hrun & new & Htr & Hn & Hreq & Hk & Hk1 & Hsub).
  destruct (retry_loop_outcome user_id user_message products_context req
              (seq 0 max_retries) eq_refl (prompted w1))
    as (r2 & w2 & Hrun2 & new2 & _ & _ & _ & Hcase).
  rewrite Hrun in Hrun2. injection Hrun2 as <- <-.
  exists w1, r, w', ((EvCategoryNames, user_contexts w1) :: new), req.
  split; [done|]. split; [by rewrite Hunfold|].
  split; [by rewrite Htr; simpl; rewrite <- app_assoc|].
  split.
  { intros sys contents Hin.
    change (requests_of (_ :: new)) with (requests_of new) in Hin.
    rewrite Hreq in Hin. apply elem_of_replicate in Hin as [Heq _].
    by injection Heq. }
  simpl in Hcase.
  destruct Hcase as [(Hctx & -> & _)|(t & Hgen & -> & Hctx)].
  - split.
    + intros u Hne. rewrite Hctx. by apply lookup_delete_ne.
    + left. by rewrite Hctx.
  - split.
    + intros u Hne. rewrite Hctx, record_exchange_other by done.
      by apply lookup_delete_ne.
    + right. exists t. split; [done|]. split; [done|].
      rewrite Hctx, record_exchange_lookup.
      unfold w1. simpl. rewrite lookup_delete_eq. reflexivity.
Qed.

(** ** The catalog lookup and the prompt's products block *)

Lemma enrich_spec (row p : product) :
  enrich row = Returned p ->
  id p = id row /\ title p = title row /\ price p = price row
  /\ stock p = stock row
  /\ full_url p = Some (get_product_url row)
  /\ image_full_url p = get_product_image_url row
  /\ exists s,
       format_price float_of_str (price_value row) = Returned s
       /\ formatted_price p = Some s.
Proof.
  unfold enrich. destruct (format_price_row row) as [s Hs]. rewrite Hs.
  simpl. intros [= <-]. simpl. repeat split; try done. by exists s.
Qed.

Lemma mapM_enrich_Forall2 (rows products : list product) :
  mapM enrich rows = Returned products ->
  Forall2 (fun row p => enrich row = Returned p) rows products.
Proof.
  revert products. induction rows as [|row rows IH]; intros products; simpl.
  - intros [= <-]. constructor.
  - destruct (enrich row) as [p|e] eqn:Hp; simpl; [|done].
    destruct (mapM enrich rows) as [ps|e] eqn:Hps; simpl; [|done].
    intros [= <-]. constructor; [done|]. by apply IH.
Qed.

(** X5. [search_products] makes one catalog lookup. When the lookup
    raises, it raises the same exception; when the lookup returns rows
    (and the two URL functions return for them, as they are taken to do
    here), it returns as many products in the same order, each row with
    its columns unchanged, its two URLs added, and [formatted_price] set
    to what [format_price] gives for the row's price, which never fails on
    a catalog price. *)
Theorem search_products_mirrors_catalog
    query category_id min_price max_price limit offset w :
  (forall e,
     db_get_products query category_id min_price max_price limit offset
     = Raised e ->
     search_products query category_id min_price max_price limit offset w
     = (Raised e,
        cataloged query category_id min_price max_price limit offset w))
  /\ forall rows,
       db_get_products query category_id min_price max_price limit offset
       = Returned rows ->
       exists products,
         search_products query category_id min_price max_price limit offset w
         = (Returned products,
            cataloged query category_id min_price max_price limit offset w)
         /\ Forall2
              (fun row p =>
                 id p = id row /\ title p = title row
                 /\ price p = price row /\ stock p = stock row
                 /\ full_url p = Some (get_product_url row)
                 /\ image_full_url p = get_product_image_url row
                 /\ exists s,
                      format_price float_of_str (price_value row)
                      = Returned s
                      /\ formatted_price p = Some s)
              rows products.
Proof.
  split.
  - intros e Hdb. by apply search_products_raised.
  - intros rows Hdb.
    destruct (search_products_returned _ _ _ _ _ _ _ w Hdb)
      as (products & Hen & _ & Hrun).
    exists products. split; [exact Hrun|].
    apply mapM_enrich_Forall2 in Hen.
    eapply Forall2_impl; [exact Hen|].
    intros row p Hp. by apply enrich_spec.
Qed.

Lemma format_product_line_price (p : product) :
  format_product_line p
  = (s ← format_price float_of_str (price_value p);
     Returned
       ("- ID: " +:+ str_of_int (id p) +:+ " | " +:+ title p +:+ " | "
        +:+ s +:+ " so'm | "
        +:+ (if 0 <? stock p then "✅ Mavjud"%string
             else "❌ Tugagan"%string))).
Proof.
  unfold format_product_line, format_price, price_value.
  by destruct (price p) as [[sg|sg| |sg m e]|].
Qed.

Lemma format_product_line_enriched (row p : product) :
  enrich row = Returned p -> format_product_line p = Returned (prompt_line p).
Proof.
  intros Hp. apply enrich_spec in Hp
    as (_ & _ & Hprice & _ & _ & _ & s & Hs & Hf).
  rewrite format_product_line_price. unfold price_value in *.
  rewrite Hprice, Hs. simpl. unfold prompt_line. by rewrite Hf.
Qed.

Lemma mapM_format_product_line (rows products : list product) :
  Forall2 (fun row p => enrich row = Returned p) rows products ->
  mapM format_product_line products = Returned (prompt_line <$> products).
Proof.
  induction 1 as [|row p rows products Hp _ IH]; [done|].
  simpl. rewrite (format_product_line_enriched _ _ Hp). simpl.
  by rewrite IH.
Qed.

(** X6. For the products a catalog lookup returned, the products block of
    the prompt has one line for each of the first five, in order, and the
    price in a line is the [formatted_price] string that [search_products]
    stored in the product; products after the fifth change nothing. *)
Theorem prompt_block_shows_first_five (rows products : list product) :
  mapM enrich rows = Returned products ->
  products <> [] ->
  _format_products_context products
  = Returned (join newline (prompt_line <$> take 5 products))
  /\ _format_products_context (take 5 products)
     = _format_products_context products.
Proof.
  intros Hen Hne. apply mapM_enrich_Forall2 in Hen.
  assert (mapM format_product_line (take 5 products)
          = Returned (prompt_line <$> take 5 products)) as Hlines.
  { eapply mapM_format_product_line. by apply Forall2_take. }
  destruct products as [|p ps]; [done|].
  split.
  - unfold _format_products_context. by rewrite Hlines.
  - unfold _format_products_context. rewrite take_take.
    change (take 5 (p :: ps)) with (p :: take 4 ps). reflexivity.
Qed.

Lemma short_fallback_fields (user_message : string) (m : gmap string pyval) :
  short_fallback user_message = PDict m ->
  m !! "is_product_search"%string = Some (PBool true)
  /\ m !! "search_query"%string = Some (PStr user_message)
  /\ m !! "translated_keywords"%string = Some PNone
  /\ m !! "min_price"%string = Some PNone
  /\ m !! "max_price"%string = Some PNone.
Proof. intros [= <-]. repeat split; reflexivity. Qed.

Lemma long_fallback_fields (user_message : string) (m : gmap string pyval) :
  long_fallback user_message = PDict m ->
  m !! "is_product_search"%string = Some (PBool false).
Proof. intros [= <-]. reflexivity. Qed.

(** X7. When the extraction fails (the model is down or its reply has no
    JSON), [ai_search] on an utterance of at most three words makes one
    catalog lookup with the utterance itself as the keyword, no category,
    no price bounds and a limit of five, and returns what it finds paired
    with true (or raises what the lookup raises); on a longer utterance it
    returns the empty list paired with false and makes no lookup. The
    words are those that [split] finds, which for words written with one
    space between them are these words. *)
Theorem model_outage_searches_short_utterances user_message w :
  extraction_failure
    (generate_content (model_calls w) (ExtractionRequest user_message)) ->
  let w1 := called (ExtractionRequest user_message) w in
  let searched :=
    exists r,
      search_products (PStr user_message) PNone PNone PNone 5 0 w1
      = (r, cataloged (PStr user_message) PNone PNone PNone 5 0 w1)
      /\ ai_search user_message w
         = (products ← r; Returned (products, true),
            cataloged (PStr user_message) PNone PNone PNone 5 0 w1) in
  let skipped := ai_search user_message w = (Returned ([], false), w1) in
  (if (length (split user_message) <=? 3)%nat then searched else skipped)
  /\ forall words,
       Forall (fun word => is_word word = true) words ->
       user_message = join " " words ->
       if (length words <=? 3)%nat then searched else skipped.
Proof.
  intros Hfail w1 searched skipped.
  cut (if (length (split user_message) <=? 3)%nat then searched else skipped).
  { intros Hcount. split; [exact Hcount|].
    intros words Hwords Hjoin. clearbody searched skipped.
    subst user_message. by rewrite (split_join words Hwords) in Hcount. }
  subst searched skipped. unfold ai_search.
  rewrite (bind_returned _ _ _ _ _
             (extract_search_params_failure _ _ Hfail)).
  fold w1. destruct (length (split user_message) <=? 3)%nat.
  - destruct (search_products_effects (PStr user_message) PNone PNone PNone
                5 0 w1) as [r Hr].
    exists r. split; [exact Hr|].
    destruct (short_fallback_fields user_message _ eq_refl)
      as (Hq & Hs & Ht & Hlo & Hhi).
    unfold short_fallback. rewrite ai_search_params_dict. cbv zeta.
    rewrite Hq, Hs, Ht, Hlo, Hhi. simpl default. simpl negb. cbv iota.
    destruct r as [products|e].
    + by rewrite (bind_returned _ _ _ _ _ Hr).
    + by rewrite (bind_raised _ _ _ _ _ Hr).
  - pose proof (long_fallback_fields user_message _ eq_refl) as Hq.
    unfold long_fallback. rewrite ai_search_params_dict. cbv zeta.
    rewrite Hq. reflexivity.
Qed.

(** ** Finding the JSON object in the model's reply *)

Lemma space_width_plain (c : ascii) (r : string) :
  plain c -> space_width (String c r) = 0%nat.
Proof. intros Hc. by_bytes. Qed.

Lemma space_width_before_plain (x c : ascii) (pre r : string) :
  plain c ->
  space_width (String x pre +:+ String c r) = space_width (String x pre).
Proof.
  intros Hc. destruct pre as [|y [|z pre]];
    rewrite ?append_cons, ?append_nil; by_bytes.
Qed.

Lemma lstrip_cons (c : ascii) (r : string) :
  lstrip (String c r)
  = match space_width (String c r) with
    | 0%nat => String c r
    | 1%nat => lstrip r
    | 2%nat => match r with
               | String _ r2 => lstrip r2
               | EmptyString => EmptyString
               end
    | _ => match r with
           | String _ (String _ r3) => lstrip r3
           | _ => EmptyString
           end
    end.
Proof. reflexivity. Qed.

(** A white-space character of two or three bytes has them. *)
Lemma space_width_length (s : string) :
  (space_width s <= String.length s)%nat /\ (space_width s <= 3)%nat.
Proof.
  destruct s as [|x [|y [|z s]]]; unfold space_width; repeat case_match;
    simpl; lia.
Qed.

Lemma lstrip_append_bounded (n : nat) (pre r : string) (c : ascii) :
  (String.length pre <= n)%nat -> plain c ->
  lstrip (pre +:+ String c r) = lstrip pre +:+ String c r.
Proof.
  revert pre. induction n as [|n IH]; intros pre Hlen Hc.
  { destruct pre; [|simpl in Hlen; lia].
    rewrite !append_nil, lstrip_cons. by rewrite space_width_plain. }
  destruct pre as [|x p].
  { rewrite !append_nil, lstrip_cons. by rewrite space_width_plain. }
  simpl in Hlen. rewrite append_cons, !lstrip_cons.
  change (String x (p +:+ String c r)) with (String x p +:+ String c r).
  rewrite space_width_before_plain by done.
  pose proof (space_width_length (String x p)) as [Hw H3].
  destruct (space_width (String x p)) as [|[|[|k]]].
  - reflexivity.
  - apply IH; [lia|done].
  - destruct p as [|y p]; [simpl in Hw; lia|].
    rewrite append_cons. apply IH; [simpl in Hlen; lia|done].
  - destruct p as [|y [|z p]]; [simpl in Hw; lia..|].
    rewrite !append_cons. apply IH; [simpl in Hlen; lia|done].
Qed.

Lemma lstrip_append (pre r : string) (c : ascii) :
  plain c -> lstrip (pre +:+ String c r) = lstrip pre +:+ String c r.
Proof. by apply (lstrip_append_bounded (String.length pre)). Qed.

(** What [lstrip] leaves is the end of the text. *)
Lemma lstrip_suffix_bounded (n : nat) (s : string) :
  (String.length s <= n)%nat -> exists p, s = p +:+ lstrip s.
Proof.
  revert s. induction n as [|n IH]; intros s Hlen.
  { destruct s; [by exists EmptyString|simpl in Hlen; lia]. }
  destruct s as [|x s]; [by exists EmptyString|].
  simpl in Hlen. rewrite lstrip_cons.
  pose proof (space_width_length (String x s)) as [Hw H3].
  destruct (space_width (String x s)) as [|[|[|k]]].
  - by exists EmptyString.
  - destruct (IH s) as [p Hp]; [lia|].
    exists (String x p). rewrite append_cons. by rewrite <- Hp.
  - destruct s as [|y s]; [simpl in Hw; lia|].
    destruct (IH s) as [p Hp]; [simpl in Hlen; lia|].
    exists (String x (String y p)). rewrite !append_cons. by rewrite <- Hp.
  - destruct s as [|y [|z s]]; [simpl in Hw; lia..|].
    destruct (IH s) as [p Hp]; [simpl in Hlen; lia|].
    exists (String x (String y (String z p))). rewrite !append_cons.
    by rewrite <- Hp.
Qed.

Lemma find_append_none (c : ascii) (p s : string) :
  find c (p +:+ s) = None -> find c s = None.
Proof.
  induction p as [|x p IH]; [done|]. rewrite append_cons. simpl.
  destruct (Ascii.eqb c x); [done|].
  destruct (find c (p +:+ s)); [done|]. intros _. by apply IH.
Qed.

Lemma find_lstrip_none (c : ascii) (s : string) :
  find c s = None -> find c (lstrip s) = None.
Proof.
  destruct (lstrip_suffix_bounded (String.length s) s) as [p Hp]; [done|].
  intros Hs. rewrite Hp in Hs. by eapply find_append_none.
Qed.

(** One white-space character holds no printable ASCII byte. *)
Lemma is_space_plain (a t : string) (c : ascii) :
  plain c -> is_space (a +:+ String c t) = false.
Proof.
  intros Hc. unfold is_space. apply andb_false_iff. right.
  apply Nat.eqb_neq.
  destruct a as [|x [|y [|z a]]]; rewrite ?append_cons, ?append_nil.
  - rewrite space_width_plain by done. simpl. lia.
  - unfold space_width, plain in *. simpl String.length.
    repeat case_match; byte_facts; lia.
  - unfold space_width, plain in *. simpl String.length.
    repeat case_match; byte_facts; lia.
  - pose proof (space_width_length
                  (String x (String y (String z (a +:+ String c t)))))
      as [_ H3].
    simpl String.length. rewrite length_append. simpl String.length. lia.
Qed.

Lemma rstrip_cons (c : ascii) (r : string) :
  rstrip (String c r)
  = if is_space (String c (rstrip r)) then EmptyString
    else String c (rstrip r).
Proof. reflexivity. Qed.

Lemma rstrip_append (a r : string) (c : ascii) :
  plain c -> rstrip (a +:+ String c r) = a +:+ String c (rstrip r).
Proof.
  intros Hc. induction a as [|x a IH].
  - rewrite !append_nil, rstrip_cons.
    pose proof (is_space_plain EmptyString (rstrip r) c Hc) as Hs.
    rewrite append_nil in Hs. by rewrite Hs.
  - rewrite !append_cons, rstrip_cons, IH.
    change (String x (a +:+ String c (rstrip r)))
      with (String x a +:+ String c (rstrip r)).
    by rewrite is_space_plain.
Qed.

Lemma rfind_rstrip_none (c : ascii) (s : string) :
  rfind c s = None -> rfind c (rstrip s) = None.
Proof.
  induction s as [|x s IH]; simpl; [done|].
  destruct (rfind c s) eqn:Hs; [done|].
  destruct (Ascii.eqb c x) eqn:Hx; [done|]. intros _.
  destruct (is_space (String x (rstrip s))); [done|].
  simpl. by rewrite IH, Hx.
Qed.

Lemma find_append (c : ascii) (a r : string) :
  find c a = None -> find c (a +:+ String c r) = Some (String.length a).
Proof.
  induction a as [|x a IH].
  - intros _. rewrite append_nil. simpl. by rewrite Ascii.eqb_refl.
  - rewrite append_cons. simpl. destruct (Ascii.eqb c x); [done|].
    destruct (find c a); [done|]. intros _. by rewrite IH.
Qed.

Lemma rfind_append (c : ascii) (a r : string) :
  rfind c r = None -> rfind c (a +:+ String c r) = Some (String.length a).
Proof.
  intros Hr. induction a as [|x a IH].
  - rewrite append_nil. simpl. by rewrite Hr, Ascii.eqb_refl.
  - rewrite append_cons. simpl. by rewrite IH.
Qed.

Lemma substring_prefix (b c : string) :
  substring 0 (String.length b) (b +:+ c) = b.
Proof.
  induction b as [|x b IH]; [by destruct c|].
  rewrite append_cons. simpl. by rewrite IH.
Qed.

Lemma substring_append (a b c : string) :
  substring (String.length a) (String.length b) (a +:+ b +:+ c) = b.
Proof.
  induction a as [|x a IH].
  - rewrite append_nil. apply substring_prefix.
  - rewrite append_cons. simpl. exact IH.
Qed.

(** The stripped reply, when the reply is a JSON object with prose
    around it. *)
Lemma strip_around_object (pre inner post : string) :
  strip (pre +:+ "{" +:+ inner +:+ "}" +:+ post)
  = lstrip pre +:+ "{" +:+ inner +:+ "}" +:+ rstrip post.
Proof.
  assert (plain "{"%char /\ plain "}"%char) as [Hopen Hclose].
  { unfold plain. change (nat_of_ascii "{"%char) with 123%nat.
    change (nat_of_ascii "}"%char) with 125%nat. lia. }
  unfold strip.
  change ("{" +:+ inner +:+ "}" +:+ post)
    with (String "{"%char (inner +:+ String "}"%char post)).
  rewrite lstrip_append by done.
  replace (lstrip pre +:+ String "{"%char (inner +:+ String "}"%char post))
    with ((lstrip pre +:+ String "{"%char inner) +:+ String "}"%char post)
    by (by rewrite append_assoc).
  rewrite rstrip_append by done.
  by rewrite append_assoc.
Qed.

(** X8. The JSON object is found inside prose. When the model's reply is
    a text without an opening brace, then an object from its opening to
    its closing brace, then a text without a closing brace, exactly the
    object is handed to [json.loads], and what it parses to is returned. *)
Theorem json_object_is_found_inside_prose
    user_message w (pre inner post : string) (params : pyval) :
  generate_content (model_calls w) (ExtractionRequest user_message)
  = Reply (Some (pre +:+ "{" +:+ inner +:+ "}" +:+ post)) ->
  find "{"%char pre = None ->
  rfind "}"%char post = None ->
  json_loads ("{" +:+ inner +:+ "}") = Some params ->
  extract_search_params user_message w
  = (Returned params, called (ExtractionRequest user_message) w).
Proof.
  intros Hgen Hpre Hpost Hjson.
  unfold extract_search_params, try_except.
  unfold mbind at 1, M_bind at 1, call_model at 1. rewrite Hgen.
  fold (called (ExtractionRequest user_message) w).
  unfold mbind at 1, M_bind at 1, lift at 1, strip_text.
  rewrite strip_around_object.
  set (P := lstrip pre). set (Q := rstrip post).
  assert (find "{"%char (P +:+ "{" +:+ inner +:+ "}" +:+ Q)
          = Some (String.length P)) as ->.
  { apply find_append. by apply find_lstrip_none. }
  assert (rfind "}"%char (P +:+ "{" +:+ inner +:+ "}" +:+ Q)
          = Some (String.length (P +:+ "{" +:+ inner))) as ->.
  { replace (P +:+ "{" +:+ inner +:+ "}" +:+ Q)
      with ((P +:+ "{" +:+ inner) +:+ String "}"%char Q)
      by (by rewrite !append_assoc).
    apply rfind_append. by apply rfind_rstrip_none. }
  assert (slice (String.length P) (String.length (P +:+ "{" +:+ inner) + 1)
            (P +:+ "{" +:+ inner +:+ "}" +:+ Q)
          = "{" +:+ inner +:+ "}")%string as ->.
  { unfold slice.
    replace (String.length (P +:+ "{" +:+ inner) + 1 - String.length P)%nat
      with (String.length ("{" +:+ inner +:+ "}")).
    - replace (P +:+ "{" +:+ inner +:+ "}" +:+ Q)
        with (P +:+ ("{" +:+ inner +:+ "}") +:+ Q).
      + apply substring_append.
      + by rewrite !append_assoc.
    - rewrite !length_append. simpl. lia. }
  by rewrite Hjson.
Qed.

(** ** The Telegram chat handler: one answer for each message *)

Lemma handler_bind_returned {C A B} (m : Handler C A) (k : A -> Handler C B)
    (d d' : desk C) (a : A) :
  m d = (Returned a, d') -> (m ≫= k) d = k a d'.
Proof. intros Hm. unfold mbind, Handler_bind. by rewrite Hm. Qed.

Lemma handler_bind_raised {C A B} (m : Handler C A) (k : A -> Handler C B)
    (d d' : desk C) (e : exn) :
  m d = (Raised e, d') -> (m ≫= k) d = (Raised e, d').
Proof. intros Hm. unfold mbind, Handler_bind. by rewrite Hm. Qed.

Lemma engine_call_run {C A} (m : M A) (d : desk C) (r : result A) (w : world) :
  m (engine d) = (r, w) ->
  engine_call m d = (r, {| engine := w; outbox := outbox d |}).
Proof. intros Hm. unfold engine_call. by rewrite Hm. Qed.

Lemma mapM_enrich_priced (rows products : list product) :
  mapM enrich rows = Returned products -> Forall priced products.
Proof.
  intros Hen. apply mapM_enrich_Forall2 in Hen.
  induction Hen as [|row p rows products Hp _ IH]; constructor; [|exact IH].
  apply enrich_spec in Hp as (_ & _ & _ & _ & _ & _ & s & _ & Hs).
  unfold priced. by rewrite Hs.
Qed.

Lemma search_products_priced query category_id min_price max_price
    limit offset w products w' :
  search_products query category_id min_price max_price limit offset w
  = (Returned products, w') ->
  Forall priced products.
Proof.
  destruct (db_get_products query category_id min_price max_price limit offset)
    as [rows|e] eqn:Hdb.
  - destruct (search_products_returned _ _ _ _ _ _ _ w Hdb)
      as (ps & Hen & _ & Hrun).
    rewrite Hrun. intros [= <- _]. by eapply mapM_enrich_priced.
  - by rewrite (search_products_raised _ _ _ _ _ _ _ w Hdb).
Qed.

Lemma ai_search_params_priced params w products is_product_search w' :
  ai_search_params params w = (Returned (products, is_product_search), w') ->
  Forall priced products.
Proof.
  destruct params as [| | | | | |m];
    try (unfold ai_search_params; erewrite bind_raised by reflexivity; done).
  rewrite ai_search_params_dict. cbv zeta.
  destruct (negb _); [by intros [= <- _ _]|].
  set (q := default PNone (m !! "search_query"%string)).
  set (t := default PNone (m !! "translated_keywords"%string)).
  set (lo := default PNone (m !! "min_price"%string)).
  set (hi := default PNone (m !! "max_price"%string)).
  destruct (search_products q PNone lo hi 5 0 w) as [[ps|e] w1] eqn:H1.
  2:{ by rewrite (bind_raised _ _ _ _ _ H1). }
  rewrite (bind_returned _ _ _ _ _ H1).
  pose proof (search_products_priced _ _ _ _ _ _ _ _ _ H1) as Hps.
  destruct (second_lookup t q) as [[|]|e] eqn:H2.
  - erewrite bind_returned by reflexivity.
    destruct (search_products t PNone lo hi 5 0 w1) as [[more|e] w2] eqn:H3.
    + rewrite (bind_returned _ _ _ _ _ H3). intros [= <- _ _].
      rewrite merge_products_filter. apply Forall_app. split; [done|].
      apply Forall_forall. intros p [_ Hp]%list_elem_of_filter.
      pose proof (search_products_priced _ _ _ _ _ _ _ _ _ H3) as Hmore.
      by eapply Forall_forall in Hmore.
    + by rewrite (bind_raised _ _ _ _ _ H3).
  - erewrite bind_returned by reflexivity. by intros [= <- _ _].
  - by erewrite bind_raised by reflexivity.
Qed.

Lemma ai_search_priced user_message w products is_product_search w' :
  ai_search user_message w = (Returned (products, is_product_search), w') ->
  Forall priced products.
Proof.
  unfold ai_search.
  destruct (extract_search_params_returns user_message w) as [params Hext].
  rewrite (bind_returned _ _ _ _ _ Hext). apply ai_search_params_priced.
Qed.

Lemma ai_search_keeps_store user_message w r w' :
  ai_search user_message w = (r, w') ->
  user_contexts w' = user_contexts w
  /\ model_calls w' = S (model_calls w).
Proof.
  unfold ai_search.
  destruct (extract_search_params_returns user_message w) as [params Hext].
  rewrite (bind_returned _ _ _ _ _ Hext).
  destruct (ai_search_params_effects params
              (called (ExtractionRequest user_message) w))
    as (r1 & w1 & new & Hrun & _ & Hctx & Hcalls & _).
  rewrite Hrun. by intros [= _ <-].
Qed.

Lemma listing_priced (products : list product) (i : Z) (response_text : string) :
  Forall priced products ->
  exists entries,
    listing i products response_text = Returned (response_text +:+ entries).
Proof.
  intros Hall. revert i response_text.
  induction Hall as [|p ps Hp _ IH]; intros i response_text.
  - exists EmptyString. simpl. f_equal.
    induction response_text as [|c r IHr]; [done|].
    by rewrite append_cons, <- IHr.
  - simpl. destruct (formatted_price p) as [s|] eqn:Hs; [|done]. simpl.
    edestruct IH as [entries ->]. eexists. by rewrite append_assoc.
Qed.

Lemma get_response_returns user_id user_message products_context w :
  exists ai_response mentioned w',
    get_response user_id user_message products_context w
    = (Returned (ai_response, mentioned), w')
    /\ (ai_response <> technical_error_text ->
        user_contexts w'
        = record_exchange user_id user_message ai_response (user_contexts w)).
Proof.
  destruct (get_response_outcome user_id user_message products_context w)
    as (req & [ai_response mentioned] & w' & Hrun & new & _ & _ & _ & Hcase).
  exists ai_response, mentioned, w'. split; [exact Hrun|].
  destruct Hcase as [(_ & [= -> _] & _)|(t & _ & [= -> _] & Hctx)]; done.
Qed.

(** X9. A message that arrives outside any dialogue, on a Bot API that
    delivers, gets the typing indicator and exactly one answer. The answer
    is the handler's apology exactly when the retrieval raised (a catalog
    error), and then the chat model was not asked and the Context Store is
    as it was. Otherwise it is the text of [get_response], alone or
    followed by the numbered entries of the first three products, with
    buttons for the first five. *)
Theorem chat_handler_answers_once current_state user_id message_text
    (d : desk telegram_call) :
  some_text current_state = false ->
  telegram (length (outbox d)) (SendChatAction "typing") = None ->
  (forall c, telegram (S (length (outbox d))) c = None) ->
  exists w' answer_text parse_mode reply_markup,
    handle_text_message current_state user_id message_text d
    = (Returned tt,
       {| engine := w';
          outbox := outbox d
                    ++ [SendChatAction "typing";
                        MessageAnswer answer_text parse_mode reply_markup] |})
    /\ match ai_search (strip message_text) (engine d) with
       | (Raised e, w1) =>
           w' = w1
           /\ answer_text = chat_error_text
           /\ model_calls w' = S (model_calls (engine d))
           /\ user_contexts w' = user_contexts (engine d)
       | (Returned (products, is_product_search), w1) =>
           exists ai_response mentioned,
             get_response user_id (strip message_text)
               (if is_product_search then Some products else None) w1
             = (Returned (ai_response, mentioned), w')
             /\ parse_mode = Some "HTML"%string
             /\ if is_product_search && negb (bool_decide (products = []))
                then
                  listing 1 (take 3 products)
                    (ai_response +:+ newline +:+ newline)
                  = Returned answer_text
                  /\ reply_markup
                     = Some (get_products_list_keyboard (take 5 products)
                               0 false "page")
                else
                  answer_text = ai_response
                  /\ reply_markup
                     = if (100 <? len ai_response)%nat
                       then Some (get_back_keyboard "main_menu") else None
       end.
Proof.
  intros Hstate Htyping Hanswer.
  unfold handle_text_message. rewrite Hstate.
  set (user_message := strip message_text).
  set (d1 := {| engine := engine d;
                outbox := outbox d ++ [SendChatAction "typing"] |}).
  assert (bot_request (SendChatAction "typing") d = (Returned tt, d1)) as Hd1.
  { unfold bot_request. by rewrite Htyping. }
  rewrite (handler_bind_returned _ _ _ _ _ Hd1).
  assert (forall c w,
            bot_request c {| engine := w; outbox := outbox d1 |}
            = (Returned tt,
               {| engine := w;
                  outbox := outbox d ++ [SendChatAction "typing"; c] |}))
    as Hsend.
  { intros c w. unfold bot_request. simpl.
    rewrite length_app, Nat.add_comm. simpl. rewrite Hanswer.
    by rewrite <- app_assoc. }
  unfold try_except_handler.
  destruct (ai_search user_message (engine d)) as [[[products flag]|e] w1]
    eqn:Hsearch.
  - erewrite handler_bind_returned
      by (apply engine_call_run; exact Hsearch).
    cbv zeta. cbn [fst snd outbox engine].
    destruct (get_response_returns user_id user_message
                (if flag then Some products else None) w1)
      as (ai_response & mentioned & w' & Hrun & _).
    erewrite handler_bind_returned by (apply engine_call_run; exact Hrun).
    cbn [fst snd outbox engine].
    destruct (flag && negb (bool_decide (products = []))) eqn:Hlist.
    + destruct (listing_priced (take 3 products) 1
                  (ai_response +:+ newline +:+ newline)) as [entries Hen].
      { apply Forall_take. by eapply ai_search_priced. }
      erewrite handler_bind_returned by (unfold lift_handler; by rewrite Hen).
      rewrite Hsend. eexists _, _, _, _. split; [reflexivity|].
      exists ai_response, mentioned. by rewrite Hen.
    + rewrite Hsend. eexists _, _, _, _. split; [reflexivity|].
      by exists ai_response, mentioned.
  - erewrite handler_bind_raised by (apply engine_call_run; exact Hsearch).
    rewrite Hsend. eexists _, _, _, _. split; [reflexivity|].
    split; [done|]. split; [done|].
    destruct (ai_search_keeps_store _ _ _ _ Hsearch) as [Hctx Hcalls].
    by split.
Qed.

(** X10. When the Bot API refuses the answer, the handler sends its
    apology in the answer's place, yet the engine is left as a delivered
    answer leaves it: an exchange that the model answered stays in the
    Context Store although the user never saw the answer. *)
Theorem undelivered_answer_is_still_recorded user_id message_text
    (d : desk telegram_call) products is_product_search w1 e :
  telegram (length (outbox d)) (SendChatAction "typing") = None ->
  (forall c, telegram (S (length (outbox d))) c = Some e) ->
  ai_search (strip message_text) (engine d)
  = (Returned (products, is_product_search), w1) ->
  let apology :=
    MessageAnswer chat_error_text None (Some (get_back_keyboard "main_menu")) in
  exists ai_response mentioned w' answer,
    get_response user_id (strip message_text)
      (if is_product_search then Some products else None) w1
    = (Returned (ai_response, mentioned), w')
    /\ handle_text_message None user_id message_text d
       = (match telegram (S (S (length (outbox d)))) apology with
          | None => Returned tt
          | Some e' => Raised e'
          end,
          {| engine := w';
             outbox := outbox d ++ [SendChatAction "typing"; answer; apology] |})
    /\ (ai_response <> technical_error_text ->
        user_contexts w'
        = record_exchange user_id (strip message_text) ai_response
            (user_contexts (engine d))).
Proof.
  intros Htyping Hanswer Hsearch apology.
  unfold handle_text_message. cbn [some_text]. cbv iota.
  set (user_message := strip message_text) in *.
  set (d1 := {| engine := engine d;
                outbox := outbox d ++ [SendChatAction "typing"] |}).
  assert (bot_request (SendChatAction "typing") d = (Returned tt, d1)) as Hd1.
  { unfold bot_request. by rewrite Htyping. }
  rewrite (handler_bind_returned _ _ _ _ _ Hd1).
  assert (forall c w,
            bot_request c {| engine := w; outbox := outbox d1 |}
            = (Raised e,
               {| engine := w;
                  outbox := outbox d ++ [SendChatAction "typing"; c] |}))
    as Hsend.
  { intros c w. unfold bot_request. simpl.
    rewrite length_app, Nat.add_comm. simpl. rewrite Hanswer.
    by rewrite <- app_assoc. }
  assert (forall c w,
            bot_request apology
              {| engine := w;
                 outbox := outbox d ++ [SendChatAction "typing"; c] |}
            = (match telegram (S (S (length (outbox d)))) apology with
               | None => Returned tt
               | Some e' => Raised e'
               end,
               {| engine := w;
                  outbox := outbox d
                            ++ [SendChatAction "typing"; c; apology] |}))
    as Hsorry.
  { intros c w. unfold bot_request. simpl.
    rewrite length_app, Nat.add_comm. simpl. by rewrite <- app_assoc. }
  unfold try_except_handler.
  erewrite handler_bind_returned by (apply engine_call_run; exact Hsearch).
  cbv zeta. cbn [fst snd outbox engine].
  destruct (get_response_returns user_id user_message
              (if is_product_search then Some products else None) w1)
    as (ai_response & mentioned & w' & Hrun & Hctx).
  erewrite handler_bind_returned by (apply engine_call_run; exact Hrun).
  cbn [fst snd outbox engine].
  destruct (ai_search_keeps_store _ _ _ _ Hsearch) as [Hstore _].
  rewrite Hstore in Hctx.
  exists ai_response, mentioned, w'.
  destruct (is_product_search && negb (bool_decide (products = []))).
  - destruct (listing_priced (take 3 products) 1
                (ai_response +:+ newline +:+ newline)) as [entries Hen].
    { apply Forall_take. by eapply ai_search_priced. }
    erewrite handler_bind_returned by (unfold lift_handler; by rewrite Hen).
    rewrite Hsend. fold apology. rewrite Hsorry.
    eexists. split; [exact Hrun|]. split; [reflexivity|exact Hctx].
  - rewrite Hsend. fold apology. rewrite Hsorry.
    eexists. split; [exact Hrun|]. split; [reflexivity|exact Hctx].
Qed.

(** ** The Instagram service *)

Lemma send_dm_run recipient_id text (d : desk graph_call) :
  send_dm recipient_id text false d
  = if some_text access_token
    then
      (Returned (graph_api (length (outbox d))
                   (direct_message recipient_id text)),
       {| engine := engine d;
          outbox := outbox d ++ [direct_message recipient_id text] |})
    else (Returned false, d).
Proof. unfold send_dm, _post_graph. by destruct (some_text access_token). Qed.

Lemma handle_message_run sender_id text (d : desk graph_call) :
  handle_message sender_id text d
  = match ai_search text (engine d) with
    | (Raised e, w1) => (Raised e, {| engine := w1; outbox := outbox d |})
    | (Returned found, w1) =>
        match sender_key sender_id with
        | Raised e => (Raised e, {| engine := w1; outbox := outbox d |})
        | Returned user_id =>
            match get_response user_id text (Some found.1) w1 with
            | (Raised e, w') =>
                (Raised e, {| engine := w'; outbox := outbox d |})
            | (Returned answer, w') =>
                (Returned tt,
                 {| engine := w';
                    outbox :=
                      outbox d
                      ++ if some_text access_token
                         then [direct_message sender_id answer.1]
                         else [] |})
            end
        end
    end.
Proof.
  destruct (ai_search text (engine d)) as [[[products flag]|e] w1] eqn:Hsearch.
  2:{ unfold handle_message.
      by erewrite handler_bind_raised
        by (apply engine_call_run; exact Hsearch). }
  assert (handle_message sender_id text d
          = (user_id ← lift_handler (sender_key sender_id);
             answer ← engine_call (get_response user_id text (Some products));
             send_dm sender_id answer.1 false;;
             mret tt) {| engine := w1; outbox := outbox d |}) as ->.
  { unfold handle_message.
    erewrite handler_bind_returned by (apply engine_call_run; exact Hsearch).
    cbv zeta. cbn [fst snd]. unfold check_follow_status.
    by destruct flag, (some_text access_token). }
  destruct (sender_key sender_id) as [user_id|e] eqn:Hkey.
  2:{ by erewrite handler_bind_raised by reflexivity. }
  erewrite handler_bind_returned by reflexivity.
  cbn [fst snd].
  destruct (get_response user_id text (Some products) w1) as [[answer|e] w']
    eqn:Hrun.
  2:{ by erewrite handler_bind_raised
        by (apply engine_call_run; exact Hrun). }
  erewrite handler_bind_returned by (apply engine_call_run; exact Hrun).
  cbn [fst snd outbox engine].
  unfold mbind at 1, Handler_bind at 1. rewrite send_dm_run.
  destruct (some_text access_token); cbn [fst snd outbox engine].
  - reflexivity.
  - by rewrite app_nil_r.
Qed.

(** X11. [handle_message] never asks the sender to follow the page first.
    It raises, and posts nothing, when the retrieval raises or the
    sender's id is no number for [int]; otherwise it posts one direct
    message to the sender (none when no access token is set), whose text
    is the answer of [get_response] on the sender's key and all the
    products found, and it returns whether or not the Graph API accepted
    the message. *)
Theorem direct_message_carries_the_answer sender_id text
    (d : desk graph_call) :
  match ai_search text (engine d) with
  | (Raised e, w1) =>
      handle_message sender_id text d
      = (Raised e, {| engine := w1; outbox := outbox d |})
  | (Returned (products, is_product_search), w1) =>
      match sender_key sender_id with
      | Raised e =>
          handle_message sender_id text d
          = (Raised e, {| engine := w1; outbox := outbox d |})
      | Returned user_id =>
          exists ai_response mentioned w',
            get_response user_id text (Some products) w1
            = (Returned (ai_response, mentioned), w')
            /\ handle_message sender_id text d
               = (Returned tt,
                  {| engine := w';
                     outbox :=
                       outbox d
                       ++ if some_text access_token
                          then [direct_message sender_id ai_response]
                          else [] |})
      end
  end.
Proof.
  rewrite handle_message_run.
  destruct (ai_search text (engine d)) as [[[products flag]|e] w1]; [|done].
  destruct (sender_key sender_id) as [user_id|e]; [|done].
  destruct (get_response_returns user_id text (Some products) w1)
    as (ai_response & mentioned & w' & Hrun & _).
  exists ai_response, mentioned, w'. split; [exact Hrun|].
  cbn [fst]. by rewrite Hrun.
Qed.

(** X12. The engine cannot tell two senders apart whose ids are not made
    of digits: on the same text they leave the same engine state (the
    same model calls, the same Context Store) and the same result, the
    turns of both being kept under the one key 0: no other key of the
    Context Store changes. *)
Theorem non_numeric_senders_share_one_history sender_a sender_b text
    (d : desk graph_call) :
  str_isdigit sender_a = false ->
  str_isdigit sender_b = false ->
  engine (handle_message sender_a text d).2
  = engine (handle_message sender_b text d).2
  /\ (handle_message sender_a text d).1 = (handle_message sender_b text d).1
  /\ forall u, u <> 0 ->
       user_contexts (engine (handle_message sender_a text d).2) !! u
       = user_contexts (engine d) !! u.
Proof.
  intros Ha Hb. rewrite !handle_message_run.
  unfold sender_key. rewrite Ha, Hb.
  destruct (ai_search text (engine d)) as [[[products flag]|e] w1] eqn:Hsearch.
  2:{ repeat split; try done. intros u _. simpl.
      by destruct (ai_search_keeps_store _ _ _ _ Hsearch) as [-> _]. }
  cbn [fst].
  destruct (get_response_outcome 0 text (Some products) w1)
    as (req & r & w' & Hrun & new & _ & _ & _ & Hcase).
  rewrite Hrun. repeat split; try done.
  intros u Hu. simpl.
  destruct (ai_search_keeps_store _ _ _ _ Hsearch) as [Hstore _].
  destruct Hcase as [(-> & _)|(t & _ & _ & ->)]; rewrite ?Hstore; [done|].
  unfold record_exchange. by rewrite lookup_insert_ne.
Qed.



(** ** A failing second lookup *)

(** X14. When the lookup on the primary keyword found products and the
    lookup on a differing secondary keyword raises, [ai_search] raises
    that exception after both lookups: the products already found are
    not returned. *)
Theorem failed_second_lookup_discards_the_first
    (m : gmap string pyval) w rows1 e :
  let query := default PNone (m !! "search_query"%string) in
  let translated := default PNone (m !! "translated_keywords"%string) in
  let min_price := default PNone (m !! "min_price"%string) in
  let max_price := default PNone (m !! "max_price"%string) in
  truthy (default (PBool false) (m !! "is_product_search"%string)) = true ->
  db_get_products query PNone min_price max_price 5 0 = Returned rows1 ->
  second_lookup translated query = Returned true ->
  db_get_products translated PNone min_price max_price 5 0 = Raised e ->
  ai_search_params (PDict m) w
  = (Raised e,
     cataloged translated PNone min_price max_price 5 0
       (cataloged query PNone min_price max_price 5 0 w)).
Proof.
  intros query translated min_price max_price Hq Hdb1 Hsecond Hdb2.
  destruct (search_products_returned _ _ _ _ _ _ _ w Hdb1)
    as (primary & _ & _ & Hrun1).
  rewrite ai_search_params_dict. cbv zeta. rewrite Hq. simpl negb. cbv iota.
  fold query translated min_price max_price.
  rewrite (bind_returned _ _ _ _ _ Hrun1).
  erewrite bind_returned; last by (unfold lift; rewrite Hsecond).
  cbv iota. by erewrite bind_raised by (by apply search_products_raised).
Qed.

End Engine.

(** ** The theorems at work on the sample collaborators *)

(** C1 on a model that is always rate limited. *)
Lemma rate_limit_retry_bound_witness :
  (forall n req, exists e,
      busy_model n req = Failure e /\ rate_limited (str_exn e) = true)
  /\ exists req,
       get_response sample_float_of_str busy_model sample_prompt
         7 "narx qancha" None initial_world
       = (Returned (technical_error_text, []),
          {| user_contexts := ∅;
             model_calls := 4;
             trace := [(EvCategoryNames, ∅);
                       (EvGenerate req, ∅); (EvSleep 3, ∅);
                       (EvGenerate req, ∅); (EvSleep 6, ∅);
                       (EvGenerate req, ∅); (EvSleep 12, ∅);
                       (EvGenerate req, ∅)] |}).
Proof.
  assert (forall n req, exists e,
            busy_model n req = Failure e /\ rate_limited (str_exn e) = true)
    as Hbusy.
  { intros n req. exists (OtherError "429 RESOURCE_EXHAUSTED").
    split; reflexivity. }
  split; [exact Hbusy|].
  exact (rate_limit_retry_bound sample_float_of_str busy_model sample_prompt
           7 "narx qancha" None initial_world Hbusy).
Defined.

(** C5 as stated fails: a server error on the first call, an answer on the
    second, and [get_response] returns the answer, not the apology. *)
Lemma server_error_then_answer_is_no_apology :
  ~ (forall (generate_content : nat -> request -> outcome) user_id
       user_message products_context w e,
       (forall req, generate_content (model_calls w) req = Failure e) ->
       rate_limited (str_exn e) = false ->
       (get_response sample_float_of_str generate_content sample_prompt
          user_id user_message products_context w).1
       = Returned (technical_error_text, [])).
Proof.
  intros H.
  specialize (H flaky_model 7 "narx qancha"%string None initial_world
                (OtherError "500 Internal error")
                (fun _ => eq_refl) eq_refl).
  vm_compute in H. discriminate H.
Qed.

(** C5, as the code has it, on a model all of whose calls raise. *)
Lemma failed_calls_yield_apology_witness :
  (forall k req, (k < max_retries)%nat ->
     exists e, busy_model (model_calls initial_world + k) req = Failure e)
  /\ exists w',
       get_response sample_float_of_str busy_model sample_prompt
         7 "narx qancha" None initial_world
       = (Returned (technical_error_text, []), w')
       /\ user_contexts w' = user_contexts initial_world.
Proof.
  assert (forall k req, (k < max_retries)%nat ->
            exists e,
              busy_model (model_calls initial_world + k) req = Failure e)
    as Hall.
  { intros k req _. eexists. reflexivity. }
  split; [exact Hall|].
  exact (failed_calls_yield_apology sample_float_of_str busy_model
           sample_prompt 7 "narx qancha" None initial_world Hall).
Defined.

(** C2 on a model call that raises: two Russian words, then five. *)
Lemma extraction_failure_falls_back_on_word_count_witness :
  let short := ["хочу"; "холодильник"] in
  let long := ["хочу"; "купить"; "большой"; "холодильник"; "Samsung"] in
  (extraction_failure sample_json_loads
     (busy_model (model_calls initial_world)
        (ExtractionRequest (join " " short)))
   /\ extraction_failure sample_json_loads
        (busy_model (model_calls initial_world)
           (ExtractionRequest (join " " long)))
   /\ Forall (fun word => is_word word = true) short
   /\ Forall (fun word => is_word word = true) long)
  /\ (exists params,
        extract_search_params sample_json_loads busy_model
          "хочу холодильник" initial_world
        = (Returned params,
           called (ExtractionRequest "хочу холодильник") initial_world)
        /\ dict_get params "is_product_search" (PBool false)
           = Returned (PBool true)
        /\ dict_get params "search_query" PNone
           = Returned (PStr "хочу холодильник"))
  /\ exists params,
       extract_search_params sample_json_loads busy_model
         "хочу купить большой холодильник Samsung" initial_world
       = (Returned params,
          called (ExtractionRequest "хочу купить большой холодильник Samsung")
            initial_world)
       /\ dict_get params "is_product_search" (PBool false)
          = Returned (PBool false).
Proof.
  intros short long.
  assert (extraction_failure sample_json_loads
            (busy_model (model_calls initial_world)
               (ExtractionRequest (join " " short)))) as Hfail_short.
  { apply model_raised. }
  assert (extraction_failure sample_json_loads
            (busy_model (model_calls initial_world)
               (ExtractionRequest (join " " long)))) as Hfail_long.
  { apply model_raised. }
  assert (Forall (fun word => is_word word = true) short) as Hshort.
  { repeat constructor. }
  assert (Forall (fun word => is_word word = true) long) as Hlong.
  { repeat constructor. }
  split; [by repeat split|].
  destruct (extraction_failure_falls_back_on_word_count sample_json_loads
              busy_model (join " " short) initial_world Hfail_short)
    as (params_short & Hrun_short & _ & Hwords_short).
  destruct (extraction_failure_falls_back_on_word_count sample_json_loads
              busy_model (join " " long) initial_world Hfail_long)
    as (params_long & Hrun_long & _ & Hwords_long).
  split.
  - exists params_short. split; [exact Hrun_short|].
    exact (Hwords_short short Hshort eq_refl).
  - exists params_long. split; [exact Hrun_long|].
    exact (Hwords_long long Hlong eq_refl).
Defined.

(** C6 on a five-word utterance whose extraction fell back. *)
Lemma non_product_intent_skips_catalog_witness :
  let w1 := called (ExtractionRequest "sizda qizil olma bormi hozir")
              initial_world in
  let params := long_fallback "sizda qizil olma bormi hozir" in
  (extract_search_params sample_json_loads busy_model
     "sizda qizil olma bormi hozir" initial_world = (Returned params, w1)
   /\ dict_get params "is_product_search" (PBool false) = Returned (PBool false)
   /\ truthy (PBool false) = false)
  /\ ai_search_params sample_float_of_str basic_lower sample_catalog sample_url
       sample_image_url params w1 = (Returned ([], false), w1)
  /\ ai_search sample_float_of_str sample_json_loads basic_lower busy_model sample_catalog
       sample_url sample_image_url "sizda qizil olma bormi hozir"
       initial_world = (Returned ([], false), w1).
Proof.
  intros w1 params.
  assert (extract_search_params sample_json_loads busy_model
            "sizda qizil olma bormi hozir" initial_world
          = (Returned params, w1)) as Hext by reflexivity.
  assert (dict_get params "is_product_search" (PBool false)
          = Returned (PBool false)) as Hget by reflexivity.
  split; [by repeat split|].
  exact (non_product_intent_skips_catalog sample_float_of_str
           sample_json_loads basic_lower busy_model sample_catalog sample_url
           sample_image_url "sizda qizil olma bormi hozir" params
           (PBool false) initial_world w1 Hext Hget eq_refl).
Defined.

(** C7 on an intent whose keywords are "яблоко" and "Яблоко". *)
Lemma same_secondary_keyword_is_none_witness :
  secondary_same_or_absent basic_lower russian_keyword_intent
  /\ ai_search_params sample_float_of_str basic_lower russian_catalog
       sample_url sample_image_url (PDict russian_keyword_intent)
       initial_world
     = ai_search_params sample_float_of_str basic_lower russian_catalog
         sample_url sample_image_url
         (PDict (delete "translated_keywords"%string russian_keyword_intent))
         initial_world
  /\ exists products w',
       ai_search_params sample_float_of_str basic_lower russian_catalog
         sample_url sample_image_url (PDict russian_keyword_intent)
         initial_world
       = (Returned (products, true), w')
       /\ id <$> products = [3; 2]
       /\ trace w' = [(EvCatalog (PStr "яблоко") PNone PNone PNone 5 0, ∅)].
Proof.
  assert (secondary_same_or_absent basic_lower russian_keyword_intent)
    as Hsame.
  { right. right. exists "Яблоко"%string, "яблоко"%string.
    repeat split; reflexivity. }
  split; [exact Hsame|].
  destruct (same_secondary_keyword_is_none sample_float_of_str basic_lower
              russian_catalog sample_url sample_image_url
              russian_keyword_intent initial_world Hsame) as [Heq Hrows].
  split; [exact Heq|].
  eexists _, _. split; [reflexivity|]. split; reflexivity.
Defined.



(** C8 on the twenty sample exchanges, from the empty store. *)
Lemma context_store_keeps_last_ten_witness :
  sample_exchanges <> []
  /\ exists w' ctx,
       record_turns 7 sample_exchanges initial_world = (Returned tt, w')
       /\ user_contexts w' !! 7 = Some ctx
       /\ (length ctx <= 10)%nat
       /\ ctx = turns_of (last_n 5 (drop 6 sample_exchanges)).
Proof.
  assert (sample_exchanges <> []) as Hne by discriminate.
  split; [exact Hne|].
  destruct (context_store_keeps_last_ten 7 sample_exchanges initial_world Hne)
    as (w' & ctx & Hrun & Hctx & _ & Hlen & Hlast).
  exists w', ctx. split; [exact Hrun|]. split; [exact Hctx|].
  split; [exact Hlen|].
  apply (Hlast (take 6 sample_exchanges) (drop 6 sample_exchanges));
    reflexivity.
Defined.

(** C10 on a run of two users, with a failed call, answers and a clear. *)
Lemma stored_contexts_alternate_witness :
  let ops := [OpRespond 7 "salom" None; OpRespond 8 "narx" None;
              OpRespond 7 "rahmat" None; OpClear 7;
              OpRespond 8 "yana" None] in
  user_contexts initial_world = ∅
  /\ exists w',
       run_ops sample_float_of_str flaky_model sample_prompt ops initial_world
       = (Returned tt, w')
       /\ (forall u ctx,
             user_contexts w' !! u = Some ctx ->
             Nat.Even (length ctx)
             /\ forall i t, ctx !! i = Some t ->
                  role t = if Nat.even i then "user"%string
                           else "model"%string)
       /\ forall user_id, exists w'',
            clear_user_context user_id w' = (Returned tt, w'')
            /\ user_contexts w'' !! user_id = None
            /\ (forall u, u <> user_id ->
                  user_contexts w'' !! u = user_contexts w' !! u)
            /\ (user_contexts w' !! user_id = None -> w'' = w').
Proof.
  intros ops. split; [reflexivity|].
  exact (stored_contexts_alternate sample_float_of_str flaky_model
           sample_prompt ops initial_world eq_refl).
Defined.

(** C9 as stated fails: an int beyond the range of a float makes
    [format_price] raise [OverflowError], which it does not catch. *)
Lemma format_price_raises_on_huge_int :
  ~ (forall price, exists s,
       format_price sample_float_of_str price = Returned s).
Proof.
  intros H. destruct (H (PInt (2 ^ 1024))) as [s Hs].
  vm_compute in Hs. discriminate Hs.
Qed.

(** C9, amended, on the int 1234567. *)
Lemma format_price_returns_a_string_witness :
  (forall z, PInt 1234567 = PInt z -> exists f, int_to_float z = Returned f)
  /\ exists s,
       format_price sample_float_of_str (PInt 1234567) = Returned s
       /\ s = "1 234 567"%string.
Proof.
  assert (forall z, PInt 1234567 = PInt z ->
            exists f, int_to_float z = Returned f) as Hint.
  { intros z [= <-]. eexists. reflexivity. }
  split; [exact Hint|].
  exact (format_price_returns_a_string sample_float_of_str (PInt 1234567)
           Hint).
Defined.

(** ** The embedding on concrete inputs *)

Example split_drops_runs_of_spaces :
  split "  qizil   olma bor " = ["qizil"; "olma"; "bor"]%string.
Proof. reflexivity. Qed.

Example strip_keeps_inner_spaces : strip "  { a }  " = "{ a }"%string.
Proof. reflexivity. Qed.

(** Cyrillic letters hold the bytes 133 and 160, which are white space
    only after the byte 194. *)
Example split_reads_russian_words :
  split " хочу  холодильник LG " = ["хочу"; "холодильник"; "LG"]%string
  /\ length (split "хочу холодильник") = 2%nat
  /\ split "Это успех" = ["Это"; "успех"]%string
  /\ strip " Это успех " = "Это успех"%string
  /\ strip "Ух" = "Ух"%string.
Proof. repeat split; reflexivity. Qed.

(** A no-break space (U+00A0) and an ideographic space (U+3000) separate
    words and are stripped. *)
Example split_on_wide_spaces :
  let nbsp := String (ascii_of_nat 194) (String (ascii_of_nat 160) "") in
  let wide := String (ascii_of_nat 227)
                (String (ascii_of_nat 128) (String (ascii_of_nat 128) "")) in
  split ("olma" +:+ nbsp +:+ "bor" +:+ wide +:+ "mi") = ["olma"; "bor"; "mi"]%string
  /\ strip (wide +:+ "olma" +:+ nbsp) = "olma"%string.
Proof. split; vm_compute; reflexivity. Qed.

Example words_hold_no_white_space :
  is_word "so‘m" = true
  /\ is_word "«olma»" = true
  /\ is_word "qizil olma" = false
  /\ is_word "" = false.
Proof. repeat split; reflexivity. Qed.

Example len_counts_characters :
  len "Холодильник Samsung" = 19%nat
  /\ String.length "Холодильник Samsung" = 30%nat
  /\ take_chars 5 "Холодильник Samsung" = "Холод"%string
  /\ len russian_answer = 66%nat
  /\ String.length russian_answer = 122%nat.
Proof. repeat split; reflexivity. Qed.

Example basic_lower_samples :
  basic_lower "Яблоко" = "яблоко"%string
  /\ basic_lower "OLMA Qizil" = "olma qizil"%string
  /\ basic_lower "ЁЛКА" = "ёлка"%string
  /\ ascii_isdigit "17841400" = true
  /\ ascii_isdigit "ig_17" = false
  /\ ascii_isdigit "" = false.
Proof. repeat split; reflexivity. Qed.

Example braces_of_a_reply :
  find "{"%char "ok {x} }" = Some 3%nat
  /\ rfind "}"%char "ok {x} }" = Some 7%nat
  /\ slice 3 8 "ok {x} }" = "{x} }"%string.
Proof. repeat split; reflexivity. Qed.

Example quota_message_is_rate_limited :
  rate_limited "429 RESOURCE_EXHAUSTED" = true
  /\ rate_limited "500 Internal error" = false.
Proof. split; reflexivity. Qed.

Example largest_int_that_converts :
  int_to_float (2 ^ 1024 - 2 ^ 970 - 1)
  = Returned (S754_finite false 9007199254740991 971)
  /\ int_to_float (2 ^ 1024 - 2 ^ 970)
     = Raised (OverflowError "int too large to convert to float").
Proof. split; vm_compute; reflexivity. Qed.

Example format_price_samples :
  format_price sample_float_of_str PNone = Returned "0"%string
  /\ format_price sample_float_of_str (PStr "") = Returned "0"%string
  /\ format_price sample_float_of_str (PStr "narx") = Returned "0"%string
  /\ format_price sample_float_of_str (PStr "12") = Returned "12"%string
  /\ format_price sample_float_of_str (PInt (-1500000))
     = Returned "-1 500 000"%string
  /\ format_price sample_float_of_str (PFloat (S754_finite false 5 (-1)))
     = Returned "2"%string.
Proof. repeat split; vm_compute; reflexivity. Qed.

(** A server error is retried at once, without a sleep. *)
Example server_error_is_retried_at_once :
  let req := ChatRequest "Hozircha mos mahsulotlar topilmadi."
               [user_turn "narx qancha"] in
    get_response sample_float_of_str flaky_model sample_prompt
      7 "narx qancha" None initial_world
    = (Returned ("Salom!"%string, []),
       {| user_contexts :=
            {[ 7 := [user_turn "narx qancha"; model_turn "Salom!"] ]};
          model_calls := 2;
          trace := [(EvCategoryNames, ∅); (EvGenerate req, ∅);
                    (EvGenerate req, ∅)] |}).
Proof. vm_compute. reflexivity. Qed.

(** ** Categories and product URLs: facts *)

Section CategoryFacts.

Variable get_category_by_id : Z -> result (option category).

Lemma category_path_loop_lineage levels current_id chain path_parts :
  DatabaseService.lineage get_category_by_id current_id chain ->
  DatabaseService.category_path_loop get_category_by_id levels current_id
    path_parts
  = Returned (reverse (urls_of (take levels chain)) ++ path_parts).
Proof.
  revert current_id chain path_parts.
  induction levels as [|levels IH]; intros current_id chain path_parts Hl.
  { by rewrite take_0. }
  destruct Hl as [| |cid Hne Hget|cid cat ancestors Hne Hget Hl]; try done.
  - destruct cid; [done| |]; simpl; by rewrite Hget.
  - assert (DatabaseService.category_path_loop get_category_by_id (S levels)
              (Some cid) path_parts
            = DatabaseService.category_path_loop get_category_by_id levels
                (cat_parent cat)
                (if some_text (cat_url cat)
                 then default EmptyString (cat_url cat) :: path_parts
                 else path_parts)) as ->.
    { destruct cid; [done| |]; simpl; by rewrite Hget. }
    rewrite (IH _ _ _ Hl). f_equal.
    change (take (S levels) (cat :: ancestors))
      with (cat :: take levels ancestors).
    unfold urls_of at 2. simpl. fold (urls_of (take levels ancestors)).
    destruct (cat_url cat) as [u|]; simpl; [|done].
    destruct (is_empty u); simpl; [done|].
    by rewrite reverse_cons, <- app_assoc.
Qed.

Lemma category_names_loop_lineage levels current_id chain path_names :
  DatabaseService.lineage get_category_by_id current_id chain ->
  DatabaseService.category_names_loop get_category_by_id levels current_id
    path_names
  = Returned (reverse (titles_of (take levels chain)) ++ path_names).
Proof.
  revert current_id chain path_names.
  induction levels as [|levels IH]; intros current_id chain path_names Hl.
  { by rewrite take_0. }
  destruct Hl as [| |cid Hne Hget|cid cat ancestors Hne Hget Hl]; try done.
  - destruct cid; [done| |]; simpl; by rewrite Hget.
  - assert (DatabaseService.category_names_loop get_category_by_id (S levels)
              (Some cid) path_names
            = DatabaseService.category_names_loop get_category_by_id levels
                (cat_parent cat)
                (if some_text (cat_title cat)
                 then default EmptyString (cat_title cat) :: path_names
                 else path_names)) as ->.
    { destruct cid; [done| |]; simpl; by rewrite Hget. }
    rewrite (IH _ _ _ Hl). f_equal.
    change (take (S levels) (cat :: ancestors))
      with (cat :: take levels ancestors).
    unfold titles_of at 2. simpl. fold (titles_of (take levels ancestors)).
    destruct (cat_title cat) as [u|]; simpl; [|done].
    destruct (is_empty u); simpl; [done|].
    by rewrite reverse_cons, <- app_assoc.
Qed.

(** X15. When the table links a category to its ancestors, nearest first,
    [get_category_path] is the non-empty urls of the category and its
    four nearest ancestors, topmost first, joined by "/": levels
    above the fifth are left out. *)
Theorem category_path_is_five_nearest_levels category_id chain :
  DatabaseService.lineage get_category_by_id category_id chain ->
  DatabaseService.get_category_path get_category_by_id category_id
  = Returned (join "/" (reverse (urls_of (take 5 chain)))).
Proof.
  intros Hl. unfold DatabaseService.get_category_path.
  rewrite (category_path_loop_lineage _ _ _ _ Hl). rewrite app_nil_r.
  simpl. by destruct (reverse (urls_of (take 5 chain))).
Qed.

(** X16. On the same links, [get_category_breadcrumbs] is the non-empty
    titles of the category and its four nearest ancestors, topmost first,
    joined by " > ", and "Boshqa" when there is none (no category, an
    unknown one, or titles all empty). *)
Theorem category_breadcrumbs_are_five_nearest_levels category_id chain :
  DatabaseService.lineage get_category_by_id category_id chain ->
  DatabaseService.get_category_breadcrumbs get_category_by_id category_id
  = Returned (match reverse (titles_of (take 5 chain)) with
              | [] => "Boshqa"%string
              | names => join " > " names
              end).
Proof.
  intros Hl. unfold DatabaseService.get_category_breadcrumbs.
  rewrite (category_names_loop_lineage _ _ _ _ Hl). rewrite app_nil_r.
  simpl. by destruct (reverse (titles_of (take 5 chain))).
Qed.

Variable moguta_url : string.

Lemma prefix_append (p s : string) : String.prefix p (p +:+ s) = true.
Proof.
  induction p as [|c p IH]; [by destruct s|].
  rewrite append_cons. simpl. by destruct (ascii_dec c c).
Qed.

Lemma contains_prefix (p s : string) : contains p (p +:+ s) = true.
Proof.
  assert (forall h, contains p h
                    = String.prefix p h
                      || match h with
                         | EmptyString => false
                         | String _ r => contains p r
                         end) as Hunfold by (by intros []).
  by rewrite Hunfold, prefix_append.
Qed.

(** X17. For a product row as [get_products] returns it, with a non-empty
    url, [get_product_url] is the site URL without trailing slashes, a
    slash, and the row's url: the category path that [get_products] put
    into the url is not added a second time. *)
Theorem product_url_holds_category_path_once (d d' : product_row) (u : string) :
  DatabaseService.with_category_path get_category_by_id d = Returned d' ->
  row_url d' = Some u ->
  is_empty u = false ->
  ProductService.get_product_url moguta_url get_category_by_id d'
  = Returned (rstrip_slash moguta_url +:+ "/" +:+ u).
Proof.
  unfold DatabaseService.with_category_path, ProductService.get_product_url.
  destruct (some_id (row_category_id d)) eqn:Hcat.
  2:{ intros [= <-] Hu Hne. rewrite Hu, Hcat. simpl. by rewrite Hne. }
  destruct (DatabaseService.get_category_path get_category_by_id
              (row_category_id d)) as [p|e] eqn:Hp; [|done].
  simpl. destruct (is_empty p) eqn:Hpe; simpl.
  { intros [= <-] Hu Hne. rewrite Hu, Hcat, Hp. simpl.
    by rewrite Hne, Hpe. }
  destruct (row_url d) as [url0|] eqn:Hurl; [|done].
  destruct (contains (p +:+ "/") url0) eqn:Hin; simpl.
  - intros [= <-] Hu Hne. rewrite Hu, Hcat, Hp. simpl.
    rewrite Hne, Hpe. simpl. rewrite Hurl in Hu. injection Hu as <-.
    by rewrite Hin.
  - intros [= <-] [= <-] Hne. simpl. rewrite Hcat, Hp. simpl.
    rewrite Hne, Hpe. simpl.
    replace (p +:+ "/" +:+ url0) with ((p +:+ "/") +:+ url0)
      by apply append_assoc.
    by rewrite contains_prefix.
Qed.

Lemma prefix_http_inv (s : string) :
  String.prefix "http" s = true -> exists r, s = ("http" +:+ r)%string.
Proof.
  intros H. apply prefix_correct in H.
  destruct s as [|c1 [|c2 [|c3 [|c4 s]]]]; try done.
  injection H as -> -> -> ->. by exists s.
Qed.

Lemma substring_zero (s : string) : substring 0 0 s = EmptyString.
Proof. by destruct s. Qed.

Lemma rstrip_slash_http (s : string) :
  String.prefix "http" s = true ->
  String.prefix "http" (rstrip_slash s) = true.
Proof.
  intros [r ->]%prefix_http_inv. rewrite !append_cons, append_nil.
  cbn [rstrip_slash Ascii.eqb Bool.eqb andb]. apply prefix_correct.
  simpl. by rewrite substring_zero.
Qed.

Lemma prefix_http_append (a b : string) :
  String.prefix "http" a = true -> String.prefix "http" (a +:+ b) = true.
Proof.
  intros [r ->]%prefix_http_inv. rewrite !append_cons, append_nil.
  apply prefix_correct. simpl. by rewrite substring_zero.
Qed.

(** X18. When the site URL starts with "http", every URL that
    [get_product_image_url] returns starts with "http", and the function
    returns it unchanged for a product that already carries it as its
    image: building image URLs twice is harmless. The function returns
    nothing exactly when the product has no image. *)
Theorem image_url_is_absolute_and_stable (product : product_row) :
  String.prefix "http" moguta_url = true ->
  (ProductService.get_product_image_url moguta_url product = None
   <-> some_text (row_image_url product) = false)
  /\ forall url,
       ProductService.get_product_image_url moguta_url product = Some url ->
       String.prefix "http" url = true
       /\ ProductService.get_product_image_url moguta_url
            {| row_id := row_id product; row_url := row_url product;
               row_category_id := row_category_id product;
               row_image_url := Some url |}
          = Some url.
Proof.
  intros Hbase. pose proof (rstrip_slash_http _ Hbase) as Hb.
  unfold ProductService.get_product_image_url.
  destruct (some_text (row_image_url product)) eqn:Himg; simpl.
  2:{ split; [done|]. intros url [=]. }
  split.
  { split; [|done].
    destruct (String.prefix "http"
                (default EmptyString (row_image_url product)));
      [intros [=]|].
    destruct (row_id product =? 0); intros [=]. }
  intros url Hurl.
  assert (String.prefix "http" url = true) as Hhttp.
  { destruct (String.prefix "http"
                (default EmptyString (row_image_url product))) eqn:Hp.
    - by injection Hurl as <-.
    - destruct (row_id product =? 0); injection Hurl as <-;
        by apply prefix_http_append. }
  split; [exact Hhttp|].
  assert (is_empty url = false) as Hne by (by destruct url).
  by rewrite Hne, Hhttp.
Qed.

End CategoryFacts.

(** ** The category tree: facts *)

Lemma new_categories_map_snoc (l : list category) (c : category) :
  new_categories_map (l ++ [c])
  = <[cat_id c := {| node_row := c; children := [] |}]> (new_categories_map l).
Proof. unfold new_categories_map. by rewrite foldl_app. Qed.

Lemma new_categories_map_lookup (all_categories : list category) (k : Z) :
  match new_categories_map all_categories !! k with
  | None => k ∉ cat_id <$> all_categories
  | Some node =>
      cat_id (node_row node) = k
      /\ node_row node ∈ all_categories
      /\ children node = []
  end.
Proof.
  induction all_categories as [|c l IH] using rev_ind.
  { unfold new_categories_map. simpl. rewrite lookup_empty.
    apply not_elem_of_nil. }
  rewrite new_categories_map_snoc.
  destruct (decide (cat_id c = k)) as [<-|Hne].
  - rewrite lookup_insert_eq. simpl. repeat split.
    apply elem_of_app. right. apply list_elem_of_singleton. done.
  - rewrite lookup_insert_ne by done.
    destruct (new_categories_map l !! k) as [node|].
    + destruct IH as (Hid & Hin & Hch). repeat split; try done.
      apply elem_of_app. by left.
    + rewrite fmap_app. intros [Hin|Hin]%elem_of_app; [done|].
      simpl in Hin. apply list_elem_of_singleton in Hin. done.
Qed.

Lemma children_of_cons (k : Z) (c : category) (l : list category) :
  children_of k (c :: l)
  = if bool_decide (cat_parent c = Some k) then cat_id c :: children_of k l
    else children_of k l.
Proof.
  unfold children_of. rewrite filter_cons.
  destruct (decide (cat_parent c = Some k)) as [H|H].
  - by rewrite bool_decide_eq_true_2.
  - by rewrite bool_decide_eq_false_2.
Qed.

(** What the loop does to any map and root list it starts from. *)
Lemma place_categories (l : list category) (m0 : gmap Z tree_node)
    (roots0 : list Z) :
  (foldl place_category (m0, roots0) l).2 = roots0 ++ children_of 0 l
  /\ forall k,
       (foldl place_category (m0, roots0) l).1 !! k
       = (fun node =>
            {| node_row := node_row node;
               children := children node
                           ++ if bool_decide (k = 0) then []
                              else children_of k l |})
         <$> m0 !! k.
Proof.
  revert m0 roots0. induction l as [|c l IH]; intros m0 roots0.
  { simpl. split; [by rewrite app_nil_r|]. intros k.
    destruct (m0 !! k) as [[row ch]|]; simpl; [|done].
    destruct (bool_decide (k = 0)); by rewrite app_nil_r. }
  change (foldl place_category (m0, roots0) (c :: l))
    with (foldl place_category (place_category (m0, roots0) c) l).
  destruct (bool_decide (cat_parent c = Some 0)) eqn:Hroot.
  { assert (place_category (m0, roots0) c = (m0, roots0 ++ [cat_id c])) as ->.
    { unfold place_category. by rewrite Hroot. }
    apply bool_decide_eq_true_1 in Hroot.
    destruct (IH m0 (roots0 ++ [cat_id c])) as [Hr Hm].
    split.
    - rewrite Hr, children_of_cons, bool_decide_eq_true_2 by done.
      by rewrite <- app_assoc.
    - intros k. rewrite Hm, children_of_cons.
      destruct (bool_decide (k = 0)) eqn:Hk; [done|].
      apply bool_decide_eq_false_1 in Hk.
      rewrite bool_decide_eq_false_2; [done|]. rewrite Hroot. congruence. }
  assert (children_of 0 (c :: l) = children_of 0 l) as Hroots.
  { rewrite children_of_cons. by rewrite Hroot. }
  destruct (cat_parent c) as [p|] eqn:Hparent.
  2:{ assert (place_category (m0, roots0) c = (m0, roots0)) as ->.
      { unfold place_category. by rewrite Hparent. }
      destruct (IH m0 roots0) as [Hr Hm]. split; [by rewrite Hr, Hroots|].
      intros k. rewrite Hm, children_of_cons, Hparent.
      by rewrite (bool_decide_eq_false_2 (None = Some k)) by done. }
  assert (p <> 0) as Hp.
  { intros ->. by rewrite bool_decide_eq_true_2 in Hroot. }
  destruct (m0 !! p) as [parent|] eqn:Hlook.
  - assert (place_category (m0, roots0) c
            = (<[p := {| node_row := node_row parent;
                         children := children parent ++ [cat_id c] |}]> m0,
               roots0)) as ->.
    { unfold place_category. rewrite Hparent, Hroot. cbn [fst snd].
      by rewrite Hlook. }
    destruct (IH (<[p := {| node_row := node_row parent;
                            children := children parent ++ [cat_id c] |}]> m0)
                roots0) as [Hr Hm].
    split; [by rewrite Hr, Hroots|].
    intros k. rewrite Hm, children_of_cons, Hparent.
    destruct (decide (k = p)) as [->|Hk].
    + rewrite lookup_insert_eq, Hlook. simpl.
      rewrite (bool_decide_eq_false_2 (p = 0)) by done.
      rewrite bool_decide_eq_true_2 by done.
      by rewrite <- app_assoc.
    + rewrite lookup_insert_ne by done.
      by rewrite (bool_decide_eq_false_2 (Some p = Some k)) by congruence.
  - assert (place_category (m0, roots0) c = (m0, roots0)) as ->.
    { unfold place_category. rewrite Hparent, Hroot. cbn [fst snd].
      by rewrite Hlook. }
    destruct (IH m0 roots0) as [Hr Hm]. split; [by rewrite Hr, Hroots|].
    intros k. rewrite Hm, children_of_cons, Hparent.
    destruct (decide (k = p)) as [->|Hk].
    + by rewrite Hlook.
    + by rewrite (bool_decide_eq_false_2 (Some p = Some k)) by congruence.
Qed.

(** X20. The tree of [get_categories_tree] is the parent relation of the
    rows: the roots are the rows whose parent is 0, in the order of the
    rows; the map has a dict for exactly the ids of the rows; and the
    children of the dict with a key other than 0 are the rows whose parent
    is that key, in the order of the rows. A row whose parent is neither
    0 nor the id of a row is in no list. *)
Theorem categories_tree_is_parent_relation (all_categories : list category) :
  let tree := get_categories_tree all_categories in
  tree.1 = children_of 0 all_categories
  /\ forall k,
       match tree.2 !! k with
       | None => k ∉ cat_id <$> all_categories
       | Some node =>
           cat_id (node_row node) = k
           /\ node_row node ∈ all_categories
           /\ children node
              = if bool_decide (k = 0) then []
                else children_of k all_categories
       end.
Proof.
  unfold get_categories_tree. cbn [fst snd].
  destruct (place_categories all_categories
              (new_categories_map all_categories) []) as [Hr Hm].
  split; [exact Hr|]. intros k. rewrite Hm.
  pose proof (new_categories_map_lookup all_categories k) as Hnew.
  destruct (new_categories_map all_categories !! k) as [node|]; simpl;
    [|done].
  destruct Hnew as (Hid & Hin & Hch). rewrite Hch. by repeat split.
Qed.

(** ** The catalog query: facts *)

Lemma count_percent_app (a b : string) :
  count_percent (a +:+ b) = (count_percent a + count_percent b)%nat.
Proof.
  induction a as [|x a IH]; [done|].
  change (count_percent (String x (a +:+ b))
          = (count_percent (String x a) + count_percent b)%nat).
  simpl. rewrite IH. lia.
Qed.

Lemma count_percent_clauses (n : nat) :
  count_percent (keyword_clauses n) = (3 * n)%nat.
Proof.
  induction n as [|n IH]; [done|].
  change (keyword_clauses (S n))
    with (" AND (p.title LIKE %s OR p.description LIKE %s OR p.code LIKE %s)"
          +:+ keyword_clauses n).
  rewrite count_percent_app, IH.
  change (count_percent
            " AND (p.title LIKE %s OR p.description LIKE %s OR p.code LIKE %s)")
    with 3%nat.
  lia.
Qed.

Lemma add_keywords_spec (keywords : list string) (query : string)
    (params : list pyval) :
  exists added,
    add_keywords keywords query params
    = (query +:+ keyword_clauses (length keywords), params ++ added)
    /\ length added = (3 * length keywords)%nat.
Proof.
  revert query params. induction keywords as [|word rest IH];
    intros query params.
  { exists []. simpl. by rewrite append_nil_r, app_nil_r. }
  destruct (IH (query
                +:+ " AND (p.title LIKE %s OR p.description LIKE %s OR p.code LIKE %s)")
              (params ++ [PStr ("%" +:+ word +:+ "%");
                          PStr ("%" +:+ word +:+ "%");
                          PStr ("%" +:+ word +:+ "%")]))
    as (added & Hrun & Hlen).
  eexists (_ :: _ :: _ :: added). split.
  - simpl add_keywords. rewrite Hrun. rewrite append_assoc.
    by rewrite <- app_assoc.
  - simpl. lia.
Qed.

(** The text of the query, from the number of words and from which
    filters are set. *)
Lemma products_query_text search_query category_id min_price max_price
    in_stock limit offset query params :
  products_query search_query category_id min_price max_price in_stock
    limit offset = Returned (query, params) ->
  query
  = (((((products_select
         +:+ keyword_clauses (length (keywords_of search_query)))
        +:+ (if truthy category_id then " AND p.cat_id = %s" else ""))
       +:+ (if negb (is_none min_price) then " AND p.price >= %s" else ""))
      +:+ (if negb (is_none max_price) then " AND p.price <= %s" else ""))
     +:+ (if in_stock then " AND (p.count > 0 OR p.count = -1)" else ""))
    +:+ " ORDER BY p.sort ASC, p.id DESC LIMIT %s OFFSET %s"
  /\ length params
     = (3 * length (keywords_of search_query)
        + (if truthy category_id then 1 else 0)
        + (if negb (is_none min_price) then 1 else 0)
        + (if negb (is_none max_price) then 1 else 0) + 2)%nat.
Proof.
  unfold products_query.
  assert ((exists added,
             (if truthy search_query then
                keywords ← py_split search_query;
                Returned (add_keywords keywords products_select [])
              else Returned (products_select, []))
             = Returned
                 (products_select
                  +:+ keyword_clauses (length (keywords_of search_query)),
                  added)
             /\ length added = (3 * length (keywords_of search_query))%nat)
          \/ exists e,
               (if truthy search_query then
                  keywords ← py_split search_query;
                  Returned (add_keywords keywords products_select [])
                else Returned (products_select, []))
               = Raised e) as Hfirst.
  { destruct (truthy search_query) eqn:Htruthy.
    - destruct search_query as [| | | |s| |]; simpl; try (right; eauto; fail).
      destruct (add_keywords_spec (split s) products_select [])
        as (added & -> & Hlen).
      left. by exists added.
    - left. exists []. split; [|by destruct search_query as [| | | |[|]| |]].
      f_equal. f_equal.
      destruct search_query as [| | | |[|c s]| |]; try done;
        by rewrite append_nil_r. }
  destruct Hfirst as [(added & -> & Hlen)|[e ->]]; [|done].
  simpl. intros [= <- <-].
  destruct (truthy category_id), (is_none min_price), (is_none max_price),
    in_stock; simpl;
    rewrite ?append_nil_r, ?length_app, ?Hlen; simpl;
    (split; [reflexivity|lia]).
Qed.

(** X21. The text of the catalog query never holds a word of the search
    query or a value of a filter: they travel as parameters. The text has
    exactly as many percent signs (the placeholders) as there are
    parameters, and two calls with the same number of words and the same
    filters set have the same text, whatever the words and the values. *)
Theorem catalog_query_keeps_values_in_parameters
    search_query category_id min_price max_price in_stock limit offset
    query params :
  products_query search_query category_id min_price max_price in_stock
    limit offset = Returned (query, params) ->
  count_percent query = length params
  /\ forall search_query' category_id' min_price' max_price' limit' offset'
       query' params',
       products_query search_query' category_id' min_price' max_price'
         in_stock limit' offset' = Returned (query', params') ->
       length (keywords_of search_query') = length (keywords_of search_query) ->
       truthy category_id' = truthy category_id ->
       is_none min_price' = is_none min_price ->
       is_none max_price' = is_none max_price ->
       query' = query.
Proof.
  intros Hrun. destruct (products_query_text _ _ _ _ _ _ _ _ _ Hrun)
    as [Htext Hlen].
  split.
  - rewrite Hlen, Htext. rewrite !count_percent_app, count_percent_clauses.
    change (count_percent products_select) with 0%nat.
    destruct (truthy category_id), (is_none min_price), (is_none max_price),
      in_stock; simpl; lia.
  - intros q' c' lo' hi' l' o' query' params' Hrun' Hwords Hcat Hlo Hhi.
    destruct (products_query_text _ _ _ _ _ _ _ _ _ Hrun') as [Htext' _].
    by rewrite Htext', Htext, Hwords, Hcat, Hlo, Hhi.
Qed.

(** ** Keyboards: facts *)

Lemma product_rows_spec (products : list product) (rows : keyboard) :
  exists new,
    product_rows products rows = rows ++ new
    /\ concat new = product_button <$> products
    /\ Forall (fun row => (1 <= length row <= 2)%nat) new
    /\ length new = Nat.div2 (S (length products)).
Proof.
  assert (forall n products rows, (length products <= n)%nat ->
            exists new,
              product_rows products rows = rows ++ new
              /\ concat new = product_button <$> products
              /\ Forall (fun row => (1 <= length row <= 2)%nat) new
              /\ length new = Nat.div2 (S (length products))) as Hn.
  { clear. induction n as [|n IH]; intros products rows Hlen.
    - destruct products; [|simpl in Hlen; lia].
      exists []. by rewrite app_nil_r.
    - destruct products as [|p [|q rest]].
      + exists []. by rewrite app_nil_r.
      + exists [[product_button p]]. repeat split; try done.
        constructor; [simpl; lia|constructor].
      + destruct (IH rest (add_row [product_button p; product_button q] rows))
          as (new & Hrun & Hcat & Hall & Hlength).
        { simpl in Hlen. lia. }
        exists ([product_button p; product_button q] :: new).
        split.
        { change (product_rows (p :: q :: rest) rows)
            with (product_rows rest
                    (add_row [product_button p; product_button q] rows)).
          rewrite Hrun. simpl. by rewrite <- app_assoc. }
        split; [simpl; by rewrite Hcat|].
        split; [constructor; [simpl; lia|done]|].
        simpl. by rewrite Hlength. }
  by apply (Hn (length products)).
Qed.

Lemma len_append (a b : string) : len (a +:+ b) = (len a + len b)%nat.
Proof.
  induction a as [|c a IH]; [done|]. rewrite append_cons. simpl.
  rewrite IH. lia.
Qed.

Lemma len_take_chars (n : nat) (s : string) : (len (take_chars n s) <= n)%nat.
Proof.
  revert n. induction s as [|c s IH]; intros n; simpl; [lia|].
  destruct (continuation c) eqn:Hc.
  - simpl. rewrite Hc. apply IH.
  - destruct n as [|n]; simpl; [lia|]. rewrite Hc. specialize (IH n). lia.
Qed.

(** X19. The keyboard of a product list has one button for each product,
    in the order of the list, two to a row (one in the last row of an odd
    list); a button's label holds at most 28 characters of the title and
    its callback data is "product:" and the product's id. Below them comes
    at most one navigation row, absent exactly when there is neither a
    previous nor a next page, and the last row is the main-menu button. *)
Theorem products_keyboard_has_a_button_per_product (products : list product)
    (page : Z) (has_more : bool) (callback_prefix : string) :
  exists rows nav,
    get_products_list_keyboard products page has_more callback_prefix
    = rows ++ nav ++ [[main_menu_button "main_menu"]]
    /\ concat rows = product_button <$> products
    /\ Forall (fun row => (1 <= length row <= 2)%nat) rows
    /\ length rows = Nat.div2 (S (length products))
    /\ (length nav <= 1)%nat
    /\ (nav = [] <-> page <= 0 /\ has_more = false)
    /\ forall p, (len (button_title (title p)) <= 28)%nat.
Proof.
  destruct (product_rows_spec products []) as (rows & Hrun & Hcat & Hall & Hlen).
  unfold get_products_list_keyboard. rewrite Hrun. cbv zeta.
  exists rows.
  assert (forall p, (len (button_title (title p)) <= 28)%nat) as Hlabel.
  { intros p. unfold button_title.
    destruct (25 <? len (title p))%nat eqn:Hlong.
    - rewrite len_append. pose proof (len_take_chars 25 (title p)).
      change (len "...") with 3%nat. lia.
    - apply Nat.ltb_ge in Hlong. lia. }
  destruct (0 <? page) eqn:Hpage; destruct has_more; simpl.
  - eexists [_]. split; [by rewrite <- app_assoc|].
    repeat split; try done. intros [? _]. lia.
  - eexists [_]. split; [by rewrite <- app_assoc|].
    repeat split; try done. intros [? _]. lia.
  - eexists [_]. split; [by rewrite <- app_assoc|].
    repeat split; try done. intros [_ ?]. done.
  - exists []. split; [done|]. repeat split; try done; simpl; lia.
Qed.

(** ** The further theorems on the sample collaborators *)

(** X3 after three answered exchanges of user 7. *)
Lemma chat_request_carries_recent_history_witness :
  let ops := [OpRespond 7 "bir" None; OpRespond 7 "ikki" None;
              OpRespond 7 "uch" None] in
  let w := (run_ops sample_float_of_str flaky_model sample_prompt ops
              initial_world).2 in
  (user_contexts initial_world = ∅
   /\ run_ops sample_float_of_str flaky_model sample_prompt ops initial_world
      = (Returned tt, w))
  /\ exists r w' new system_prompt contents k,
       get_response sample_float_of_str flaky_model sample_prompt
         7 "yana" None w = (Returned r, w')
       /\ trace w' = trace w ++ new
       /\ requests_of new = replicate k (ChatRequest system_prompt contents)
       /\ (1 <= k)%nat
       /\ contents = last_n 5 (default [] (user_contexts w !! 7%Z))
                     ++ [user_turn "yana"]
       /\ (length contents <= 6)%nat
       /\ (forall i t, contents !! i = Some t ->
             role t = if Nat.even (length contents - 1 - i)
                      then "user"%string else "model"%string)
       /\ ((4 < length (default [] (user_contexts w !! 7%Z)))%nat ->
           exists t rest, contents = t :: rest /\ role t = "model"%string).
Proof.
  intros ops w.
  assert (run_ops sample_float_of_str flaky_model sample_prompt ops
            initial_world = (Returned tt, w)) as Hops
    by (vm_compute; reflexivity).
  split; [split; [reflexivity|exact Hops]|].
  exact (chat_request_carries_recent_history sample_float_of_str flaky_model
           sample_prompt ops initial_world w 7 "yana" None eq_refl Hops).
Defined.

(** X6 on six catalog rows: the sixth is not shown. *)
Lemma prompt_block_shows_first_five_witness :
  let products :=
    match mapM (enrich sample_float_of_str sample_url sample_image_url)
            sample_rows with
    | Returned products => products
    | Raised _ => []
    end in
  (mapM (enrich sample_float_of_str sample_url sample_image_url) sample_rows
   = Returned products
   /\ products <> [])
  /\ _format_products_context sample_float_of_str products
     = Returned (join newline (prompt_line <$> take 5 products))
  /\ _format_products_context sample_float_of_str (take 5 products)
     = _format_products_context sample_float_of_str products.
Proof.
  intros products.
  assert (mapM (enrich sample_float_of_str sample_url sample_image_url)
            sample_rows = Returned products) as Hen
    by (vm_compute; reflexivity).
  assert (products <> []) as Hne by (vm_compute; discriminate).
  split; [split; [exact Hen|exact Hne]|].
  exact (prompt_block_shows_first_five sample_float_of_str sample_url
           sample_image_url sample_rows products Hen Hne).
Defined.

(** X7 on a model that is down: an utterance of two Russian words is
    searched as it is, one of five words is not. *)
Lemma model_outage_searches_short_utterances_witness :
  let short := ["хочу"; "холодильник"] in
  let long := ["хочу"; "купить"; "большой"; "холодильник"; "Samsung"] in
  let w1 := called (ExtractionRequest "хочу холодильник") initial_world in
  (extraction_failure sample_json_loads
     (busy_model (model_calls initial_world)
        (ExtractionRequest (join " " short)))
   /\ extraction_failure sample_json_loads
        (busy_model (model_calls initial_world)
           (ExtractionRequest (join " " long)))
   /\ Forall (fun word => is_word word = true) short
   /\ Forall (fun word => is_word word = true) long)
  /\ (exists r,
        search_products sample_float_of_str sample_catalog sample_url
          sample_image_url (PStr "хочу холодильник") PNone PNone PNone 5 0 w1
        = (r, cataloged (PStr "хочу холодильник") PNone PNone PNone 5 0 w1)
        /\ ai_search sample_float_of_str sample_json_loads basic_lower
             busy_model sample_catalog sample_url sample_image_url
             "хочу холодильник" initial_world
           = (products ← r; Returned (products, true),
              cataloged (PStr "хочу холодильник") PNone PNone PNone 5 0 w1))
  /\ ai_search sample_float_of_str sample_json_loads basic_lower busy_model
       sample_catalog sample_url sample_image_url
       "хочу купить большой холодильник Samsung" initial_world
     = (Returned ([], false),
        called (ExtractionRequest "хочу купить большой холодильник Samsung")
          initial_world).
Proof.
  intros short long w1.
  assert (forall user_message,
            extraction_failure sample_json_loads
              (busy_model (model_calls initial_world)
                 (ExtractionRequest user_message))) as Hfail.
  { intros user_message. apply model_raised. }
  assert (Forall (fun word => is_word word = true) short) as Hshort.
  { repeat constructor. }
  assert (Forall (fun word => is_word word = true) long) as Hlong.
  { repeat constructor. }
  split; [by repeat split|].
  split.
  - exact (proj2 (model_outage_searches_short_utterances sample_float_of_str
                    sample_json_loads basic_lower busy_model sample_catalog
                    sample_url sample_image_url (join " " short)
                    initial_world (Hfail (join " " short)))
             short Hshort eq_refl).
  - exact (proj2 (model_outage_searches_short_utterances sample_float_of_str
                    sample_json_loads basic_lower busy_model sample_catalog
                    sample_url sample_image_url (join " " long)
                    initial_world (Hfail (join " " long)))
             long Hlong eq_refl).
Defined.

(** X8 on a reply that wraps the empty object in prose. *)
Lemma json_object_is_found_inside_prose_witness :
  (prose_model (model_calls initial_world) (ExtractionRequest "qizil olma")
   = Reply (Some ("Javob: " +:+ "{" +:+ "" +:+ "}" +:+ " tamom"))
   /\ find "{"%char "Javob: " = None
   /\ rfind "}"%char " tamom" = None
   /\ sample_json_loads ("{" +:+ "" +:+ "}") = Some (PDict ∅))
  /\ extract_search_params sample_json_loads prose_model "qizil olma"
       initial_world
     = (Returned (PDict ∅),
        called (ExtractionRequest "qizil olma") initial_world).
Proof.
  split; [by repeat split|].
  exact (json_object_is_found_inside_prose sample_json_loads prose_model
           "qizil olma" initial_world "Javob: " "" " tamom" (PDict ∅)
           eq_refl eq_refl eq_refl eq_refl).
Defined.

Lemma sample_chain_lineage :
  DatabaseService.lineage sample_categories (Some 3) sample_chain.
Proof.
  apply DatabaseService.lineage_step; [discriminate|reflexivity|].
  apply DatabaseService.lineage_step; [discriminate|reflexivity|].
  apply DatabaseService.lineage_step; [discriminate|reflexivity|].
  apply DatabaseService.lineage_zero.
Defined.

(** X15 on the three-level sample table. *)
Lemma category_path_is_five_nearest_levels_witness :
  DatabaseService.lineage sample_categories (Some 3) sample_chain
  /\ DatabaseService.get_category_path sample_categories (Some 3)
     = Returned "elektronika/televizory/smart"%string.
Proof.
  split; [exact sample_chain_lineage|].
  exact (category_path_is_five_nearest_levels sample_categories (Some 3)
           sample_chain sample_chain_lineage).
Defined.

(** X16 on the three-level sample table. *)
Lemma category_breadcrumbs_are_five_nearest_levels_witness :
  DatabaseService.lineage sample_categories (Some 3) sample_chain
  /\ DatabaseService.get_category_breadcrumbs sample_categories (Some 3)
     = Returned "Elektronika > Televizorlar > Smart TV"%string.
Proof.
  split; [exact sample_chain_lineage|].
  exact (category_breadcrumbs_are_five_nearest_levels sample_categories
           (Some 3) sample_chain sample_chain_lineage).
Defined.

(** X17 on the sample row. *)
Lemma product_url_holds_category_path_once_witness :
  (DatabaseService.with_category_path sample_categories sample_row
   = Returned sample_listed_row
   /\ row_url sample_listed_row
      = Some "elektronika/televizory/smart/samsung-55"%string
   /\ is_empty "elektronika/televizory/smart/samsung-55" = false)
  /\ ProductService.get_product_url sample_site sample_categories
       sample_listed_row
     = Returned
         "https://shop.uz/elektronika/televizory/smart/samsung-55"%string.
Proof.
  split; [by repeat split|].
  exact (product_url_holds_category_path_once sample_categories sample_site
           sample_row sample_listed_row
           "elektronika/televizory/smart/samsung-55" eq_refl eq_refl eq_refl).
Defined.

(** X18 on the sample row. *)
Lemma image_url_is_absolute_and_stable_witness :
  String.prefix "http" sample_site = true
  /\ (ProductService.get_product_image_url sample_site sample_row = None
      <-> some_text (row_image_url sample_row) = false)
  /\ forall url,
       ProductService.get_product_image_url sample_site sample_row = Some url ->
       String.prefix "http" url = true
       /\ ProductService.get_product_image_url sample_site
            {| row_id := row_id sample_row; row_url := row_url sample_row;
               row_category_id := row_category_id sample_row;
               row_image_url := Some url |}
          = Some url.
Proof.
  split; [reflexivity|].
  exact (image_url_is_absolute_and_stable sample_site sample_row eq_refl).
Defined.

(** X9 on a Russian question of five words, an extraction that fails and
    a Bot API that delivers: the answer of 66 characters, which are 122
    bytes, goes out without a keyboard. *)
Lemma chat_handler_answers_once_witness :
  let handle :=
    handle_text_message sample_float_of_str sample_json_loads basic_lower
      russian_model sample_catalog sample_url sample_image_url sample_prompt
      delivering_telegram in
  (some_text None = false
   /\ delivering_telegram (length (outbox (@empty_desk telegram_call)))
        (SendChatAction "typing") = None
   /\ forall c,
        delivering_telegram (S (length (outbox (@empty_desk telegram_call)))) c
        = None)
  /\ exists w' answer_text parse_mode reply_markup,
       handle None 7 " сколько стоит доставка по Ташкенту " empty_desk
       = (Returned tt,
          {| engine := w';
             outbox := [SendChatAction "typing";
                        MessageAnswer answer_text parse_mode reply_markup] |})
       /\ parse_mode = Some "HTML"%string
       /\ answer_text = russian_answer
       /\ reply_markup = None
       /\ (100 <? String.length answer_text)%nat = true
       /\ user_contexts w' !! 7
          = Some [user_turn "сколько стоит доставка по Ташкенту";
                  model_turn russian_answer].
Proof.
  intros handle.
  assert (forall c,
            delivering_telegram
              (S (length (outbox (@empty_desk telegram_call)))) c = None)
    as Hdeliver by done.
  split; [by repeat split|].
  destruct (chat_handler_answers_once sample_float_of_str sample_json_loads
              basic_lower russian_model sample_catalog sample_url
              sample_image_url sample_prompt delivering_telegram None 7
              " сколько стоит доставка по Ташкенту " empty_desk
              eq_refl eq_refl Hdeliver)
    as (w' & answer_text & parse_mode & reply_markup & Hrun & Hcase).
  exists w', answer_text, parse_mode, reply_markup.
  split; [exact Hrun|].
  vm_compute in Hrun. injection Hrun as <- <- <- <-.
  repeat split; vm_compute; reflexivity.
Defined.

(** X10 on a Bot API that refuses the answer. *)
Lemma undelivered_answer_is_still_recorded_witness :
  let search :=
    ai_search sample_float_of_str sample_json_loads basic_lower flaky_model
      sample_catalog sample_url sample_image_url (strip " olma ")
      (engine (@empty_desk telegram_call)) in
  let products :=
    match search.1 with
    | Returned found => found.1
    | Raised _ => []
    end in
  let e := OtherError "Bad Request: can't parse entities" in
  (refusing_telegram (length (outbox (@empty_desk telegram_call)))
     (SendChatAction "typing") = None
   /\ (forall c,
         refusing_telegram (S (length (outbox (@empty_desk telegram_call)))) c
         = Some e)
   /\ search = (Returned (products, true), search.2))
  /\ exists w' answer,
       handle_text_message sample_float_of_str sample_json_loads basic_lower flaky_model
         sample_catalog sample_url sample_image_url sample_prompt
         refusing_telegram None 7 " olma " empty_desk
       = (Returned tt,
          {| engine := w';
             outbox := [SendChatAction "typing"; answer;
                        MessageAnswer chat_error_text None
                          (Some (get_back_keyboard "main_menu"))] |})
       /\ user_contexts w' !! 7
          = Some [user_turn "olma"; model_turn "Salom!"].
Proof.
  intros search products e.
  assert (forall c,
            refusing_telegram
              (S (length (outbox (@empty_desk telegram_call)))) c = Some e)
    as Hrefuse by done.
  assert (search = (Returned (products, true), search.2)) as Hsearch
    by (vm_compute; reflexivity).
  split; [by repeat split|].
  destruct (undelivered_answer_is_still_recorded sample_float_of_str
              sample_json_loads basic_lower flaky_model sample_catalog sample_url
              sample_image_url sample_prompt refusing_telegram 7 " olma "
              empty_desk products true search.2 e eq_refl Hrefuse Hsearch)
    as (ai_response & mentioned & w' & answer & Hchat & Hrun & Hctx).
  exists w', answer. split; [exact Hrun|].
  vm_compute in Hchat. injection Hchat as <- <- <-.
  vm_compute. reflexivity.
Defined.

(** X12 on the senders "ali" and "vali". *)
Lemma non_numeric_senders_share_one_history_witness :
  let handle :=
    handle_message sample_float_of_str sample_json_loads basic_lower flaky_model
      sample_catalog sample_url sample_image_url sample_prompt
      ascii_isdigit sample_int_of_str (Some "token"%string) None late_graph in
  (ascii_isdigit "ali" = false /\ ascii_isdigit "vali" = false)
  /\ engine (handle "ali" "olma" empty_desk).2
     = engine (handle "vali" "olma" empty_desk).2
  /\ (handle "ali" "olma" empty_desk).1 = (handle "vali" "olma" empty_desk).1
  /\ forall u, u <> 0 ->
       user_contexts (engine (handle "ali" "olma" empty_desk).2) !! u
       = user_contexts (engine (@empty_desk graph_call)) !! u.
Proof.
  intros handle. split; [by split|].
  exact (non_numeric_senders_share_one_history sample_float_of_str
           sample_json_loads basic_lower flaky_model sample_catalog sample_url
           sample_image_url sample_prompt ascii_isdigit sample_int_of_str
           (Some "token"%string) None late_graph "ali" "vali" "olma"
           empty_desk eq_refl eq_refl).
Defined.


(** X14 on a catalog that fails on the Russian keyword. *)
Lemma failed_second_lookup_discards_the_first_witness :
  let e := OtherError "(2013, 'Lost connection to MySQL server')" in
  let rows1 := [sample_product 3 "Olma qizil"; sample_product 2 "Olma yabloko"] in
  (truthy (default (PBool false)
             (bilingual_intent !! "is_product_search"%string)) = true
   /\ uzbek_only_catalog (PStr "olma") PNone PNone PNone 5 0 = Returned rows1
   /\ second_lookup basic_lower (PStr "yabloko") (PStr "olma") = Returned true
   /\ uzbek_only_catalog (PStr "yabloko") PNone PNone PNone 5 0 = Raised e)
  /\ ai_search_params sample_float_of_str basic_lower uzbek_only_catalog sample_url
       sample_image_url (PDict bilingual_intent) initial_world
     = (Raised e,
        cataloged (PStr "yabloko") PNone PNone PNone 5 0
          (cataloged (PStr "olma") PNone PNone PNone 5 0 initial_world)).
Proof.
  intros e rows1. split; [by repeat split|].
  exact (failed_second_lookup_discards_the_first sample_float_of_str basic_lower
           uzbek_only_catalog sample_url sample_image_url bilingual_intent
           initial_world rows1 e eq_refl eq_refl eq_refl eq_refl).
Defined.

(** Two Instagram senders whose ids are no numbers: the second one's
    message goes to the model after the first one's exchange. *)
Example second_sender_is_sent_the_first_senders_turns :
  let handle :=
    handle_message sample_float_of_str sample_json_loads basic_lower flaky_model
      sample_catalog sample_url sample_image_url sample_prompt
      ascii_isdigit sample_int_of_str (Some "token"%string) None late_graph in
  let d1 := (handle "ali" "salom" empty_desk).2 in
  let d2 := (handle "vali" "narx" d1).2 in
  last (requests_of (trace (engine d2)))
  = Some (ChatRequest "Hozircha mos mahsulotlar topilmadi."
            [user_turn "salom"; model_turn "Salom!"; user_turn "narx"]).
Proof. vm_compute. reflexivity. Qed.

(** X21 on a query of two words with a lower price bound. *)
Lemma catalog_query_keeps_values_in_parameters_witness :
  let run := products_query (PStr "qizil olma") PNone (PInt 1000) PNone true
               5 0 in
  let query := match run with Returned st => st.1 | Raised _ => EmptyString end in
  let params := match run with Returned st => st.2 | Raised _ => [] end in
  run = Returned (query, params)
  /\ count_percent query = length params
  /\ length params = 9%nat
  /\ exists params',
       products_query (PStr "%s 'olma") PNone (PInt 0) PNone true 10 20
       = Returned (query, params').
Proof.
  intros run query params.
  assert (run = Returned (query, params)) as Hrun by (vm_compute; reflexivity).
  split; [exact Hrun|].
  destruct (catalog_query_keeps_values_in_parameters
              (PStr "qizil olma") PNone (PInt 1000) PNone true 5 0
              query params Hrun) as [Hcount Hsame].
  split; [exact Hcount|]. split; [reflexivity|].
  destruct (products_query (PStr "%s 'olma") PNone (PInt 0) PNone true 10 20)
    as [[query' params']|e] eqn:Hrun'; [|vm_compute in Hrun'; discriminate].
  exists params'. do 2 f_equal.
  apply (Hsame _ _ _ _ _ _ _ _ Hrun'); reflexivity.
Defined.

(** ** The embedding on further inputs *)

(** On a table whose two categories are each other's parent the walk
    stops after five levels. *)
Example category_walk_stops_on_a_cycle :
  DatabaseService.get_category_path looping_categories (Some 1)
  = Returned "a/b/a/b/a"%string
  /\ DatabaseService.get_category_breadcrumbs looping_categories (Some 7)
     = Returned "Boshqa"%string.
Proof. split; reflexivity. Qed.

Example image_url_of_the_sample_row :
  ProductService.get_product_image_url sample_site sample_row
  = Some "https://shop.uz/uploads/product/001/1234/tv.jpg"%string.
Proof. reflexivity. Qed.

(** A row with an unknown parent is in no list; a row that is its own
    parent is its own child. *)
Example tree_of_four_rows :
  let row i p := {| cat_id := i; cat_title := None; cat_parent := p;
                    cat_url := None |} in
  let tree :=
    get_categories_tree
      [row 1 (Some 0); row 2 (Some 1); row 3 (Some 9); row 4 (Some 4)] in
  tree.1 = [1]
  /\ children <$> tree.2 !! 1 = Some [2]
  /\ children <$> tree.2 !! 3 = Some []
  /\ children <$> tree.2 !! 4 = Some [4].
Proof. vm_compute. repeat split; reflexivity. Qed.

(** A title of 19 Cyrillic characters (30 bytes) is kept whole; one of 37
    is cut after its 25th character. *)
Example button_title_counts_characters :
  button_title "Холодильник Samsung" = "Холодильник Samsung"%string
  /\ button_title "Холодильник двухкамерный Samsung RB37"
     = "Холодильник двухкамерный ..."%string.
Proof. split; reflexivity. Qed.

Example keyboard_of_three_products :
  (fun row : list button => callback_data <$> row)
    <$> (get_products_list_keyboard (take 3 sample_rows) 1 true "search_page"
         : list (list button))
  = [ ["product:1"; "product:2"]; ["product:3"];
      ["search_page:0"; "search_page:2"]; ["main_menu"] ]%string.
Proof. reflexivity. Qed.
